(** * ErrorTK backend: scraper, data_manager and interactive_cli

    A shallow embedding of the Python modules

    - [nanshan/errorTK/backend/data_manager.py]
    - [nanshan/errorTK/backend/scraper.py]
    - [nanshan/errorTK/backend/interactive_cli.py] (the [sync_data] entry point)

    together with the properties of the store, the normaliser and the
    batcher that the design document states.

    Modelling conventions.
    - A value produced by [json.load] or by [response.json()] is a [json]
      tree.  Python dicts keep insertion order and have unique keys: they are
      association lists, looked up by first match.  JSON numbers are integers
      ([Z]); real numbers are outside the model.
    - Text is [string], and a character is a Unicode code point below 256
      (its [ascii] value is the code point, not a byte of an encoding).  The
      character predicates and case maps ([str.isspace], [str.isdigit],
      [str.lower], [str.upper], [int], [repr]) are Python's on that range;
      text with code points from 256 on is outside the model.
    - Exceptions are values of [exn] carried by [result]; code that talks to
      the disk, the network or the console runs in the monad [M] over
      [World].  Clock readings are explicit arguments. *)

From Stdlib Require Import ZArith List String Ascii Bool Lia DecimalString.
From Stdlib Require Import Permutation.
From Stdlib Require DecimalPos.
Import ListNotations.

Set Warnings "-register-all".

Local Open Scope list_scope.
Local Open Scope string_scope.

(** ** Python values and the builtins the program uses *)

Module Py.

Inductive json : Type :=
| JNull
| JBool (b : bool)
| JNum (n : Z)
| JStr (s : string)
| JArr (l : list json)
| JObj (m : list (string * json)).

Definition pydict := list (string * json).

Inductive exn : Type :=
| KeyError (k : string)
| TypeError
| AttributeError
| ValueError
| JSONDecodeError.

Inductive result (A : Type) : Type :=
| Ok (a : A)
| Raise (e : exn).

Arguments Ok {A} a.
Arguments Raise {A} e.

Definition rbind {A B} (c : result A) (k : A -> result B) : result B :=
  match c with
  | Ok a => k a
  | Raise e => Raise e
  end.

Notation "'let*' x ':=' c 'in' k" := (rbind c (fun x => k))
  (at level 10, x name, c at level 100, k at level 200).

(** [[f(x) for x in l]] where [f] may raise: the first exception wins. *)
Fixpoint rmap {A B} (f : A -> result B) (l : list A) : result (list B) :=
  match l with
  | [] => Ok []
  | x :: r =>
      let* y := f x in
      let* ys := rmap f r in
      Ok (y :: ys)
  end.

(** *** Characters and strings *)

Definition chr (n : nat) : ascii := ascii_of_nat n.
Definition ord (c : ascii) : nat := nat_of_ascii c.

(** [c.isspace()]: TAB, LF, VT, FF, CR, the four separators FS, GS, RS,
    US, the space, the next-line control (133) and the no-break space
    (160). *)
Definition isspace (c : ascii) : bool :=
  let n := ord c in
  ((9 <=? n) && (n <=? 13) || (28 <=? n) && (n <=? 32) ||
   (n =? 133) || (n =? 160))%nat.

(** [c.isdecimal()]: the ten digits, the only ones [int] reads. *)
Definition isdecimal_char (c : ascii) : bool :=
  let n := ord c in ((48 <=? n) && (n <=? 57))%nat.

(** [c.isdigit()]: the decimal digits, and the superscripts two (178),
    three (179) and one (185), which [int] does not read. *)
Definition isdigit_char (c : ascii) : bool :=
  let n := ord c in
  (isdecimal_char c || (n =? 178) || (n =? 179) || (n =? 185))%nat.

(** The capital of a letter, where it is one code point below 256: a to z,
    and the accented letters 224 to 254 other than the division sign
    (247). *)
Definition upper_char (c : ascii) : ascii :=
  let n := ord c in
  if ((97 <=? n) && (n <=? 122) ||
      (224 <=? n) && (n <=? 254) && negb (n =? 247))%nat
  then chr (n - 32) else c.

(** The two letters below 256 whose capital lies above 255: the micro sign
    (181, capital U+039C) and y with diaeresis (255, capital U+0178). *)
Definition capital_above_255 (c : ascii) : bool :=
  let n := ord c in ((n =? 181) || (n =? 255))%nat.

Fixpoint lstrip (s : string) : string :=
  match s with
  | EmptyString => EmptyString
  | String c r => if isspace c then lstrip r else s
  end.

Fixpoint rstrip (s : string) : string :=
  match s with
  | EmptyString => EmptyString
  | String c r =>
      match rstrip r with
      | EmptyString => if isspace c then EmptyString else String c EmptyString
      | r' => String c r'
      end
  end.

(** [s.strip()] *)
Definition strip (s : string) : string := rstrip (lstrip s).

Fixpoint all_chars (p : ascii -> bool) (s : string) : bool :=
  match s with
  | EmptyString => true
  | String c r => p c && all_chars p r
  end.

(** [s.isdigit()]: at least one character, and all of them digits. *)
Definition isdigit (s : string) : bool :=
  match s with
  | EmptyString => false
  | _ => all_chars isdigit_char s
  end.

(** [s.isdecimal()] *)
Definition isdecimal (s : string) : bool :=
  match s with
  | EmptyString => false
  | _ => all_chars isdecimal_char s
  end.

(** [s.upper()]: the sharp s (223) becomes SS.  The result is
    [str.upper]'s on text that [upper_closed] accepts; the capitals of the
    two letters it excludes are not text of the model, and [upper] leaves
    those letters as they are. *)
Fixpoint upper (s : string) : string :=
  match s with
  | EmptyString => EmptyString
  | String c r =>
      if (ord c =? 223)%nat then String "S" (String "S" (upper r))
      else String (upper_char c) (upper r)
  end.

Definition upper_closed (s : string) : bool :=
  all_chars (fun c => negb (capital_above_255 c)) s.

(** [s.split(sep)] for a one-character separator: never the empty list. *)
Fixpoint split (sep : ascii) (s : string) : list string :=
  match s with
  | EmptyString => [EmptyString]
  | String c r =>
      if Ascii.eqb c sep then EmptyString :: split sep r
      else match split sep r with
           | h :: t => String c h :: t
           | [] => [String c EmptyString]
           end
  end.

(** [sep.join(l)] *)
Fixpoint join (sep : string) (l : list string) : string :=
  match l with
  | [] => EmptyString
  | x :: r =>
      match r with
      | [] => x
      | _ => x ++ sep ++ join sep r
      end
  end.

(** The characters of a string, as [for c in s] yields them. *)
Fixpoint chars (s : string) : list ascii :=
  match s with
  | EmptyString => []
  | String c r => c :: chars r
  end.

(** [p in s] for two strings. *)
Fixpoint str_contains (s p : string) : bool :=
  prefix p s ||
  match s with
  | EmptyString => false
  | String _ r => str_contains r p
  end.

Definition digit_val (c : ascii) : option Z :=
  if isdecimal_char c then Some (Z.of_nat (ord c - 48)) else None.

(** The digits of an integer literal: single underscores are allowed
    between digits. *)
Fixpoint int_digits (s : string) (acc : Z) (after_digit : bool) : option Z :=
  match s with
  | EmptyString => if after_digit then Some acc else None
  | String c r =>
      match digit_val c with
      | Some d => int_digits r (10 * acc + d)%Z true
      | None =>
          if Ascii.eqb c "_" && after_digit then int_digits r acc false
          else None
      end
  end.

(** The white space [int] skips at both ends of its argument: TAB, LF, VT,
    FF, CR, the space, and the two spaces above 127; unlike [str.strip], not
    the separators FS, GS, RS, US. *)
Definition int_space (c : ascii) : bool :=
  let n := ord c in
  ((9 <=? n) && (n <=? 13) || (n =? 32) || (n =? 133) || (n =? 160))%nat.

Fixpoint int_lstrip (s : string) : string :=
  match s with
  | EmptyString => EmptyString
  | String c r => if int_space c then int_lstrip r else s
  end.

Fixpoint int_rstrip (s : string) : string :=
  match s with
  | EmptyString => EmptyString
  | String c r =>
      match int_rstrip r with
      | EmptyString => if int_space c then EmptyString else String c EmptyString
      | r' => String c r'
      end
  end.

(** [int(s)] for a string, base ten. *)
Definition int (s : string) : result Z :=
  let t := int_rstrip (int_lstrip s) in
  let parsed :=
    match t with
    | String "+" r => int_digits r 0%Z false
    | String "-" r => option_map Z.opp (int_digits r 0%Z false)
    | _ => int_digits t 0%Z false
    end in
  match parsed with
  | Some n => Ok n
  | None => Raise ValueError
  end.

(** [str(n)] for an integer. *)
Definition str_of_Z (n : Z) : string := NilZero.string_of_int (Z.to_int n).

Definition hex_digit (n : nat) : ascii :=
  if (n <? 10)%nat then chr (48 + n) else chr (87 + n).

Definition dquote : ascii := chr 34.
Definition squote : ascii := chr 39.
Definition backslash : ascii := chr 92.

Definition has_char (c : ascii) (s : string) : bool :=
  negb (all_chars (fun d => negb (Ascii.eqb d c)) s).

Definition repr_char (q c : ascii) : string :=
  let n := ord c in
  if Ascii.eqb c backslash || Ascii.eqb c q then String backslash (String c EmptyString)
  else if (n =? 9)%nat then String backslash "t"
  else if (n =? 10)%nat then String backslash "n"
  else if (n =? 13)%nat then String backslash "r"
  else if ((n <? 32) || (127 <=? n) && (n <=? 160) || (n =? 173))%nat then
    String backslash (String "x" (String (hex_digit (n / 16)) (String (hex_digit (n mod 16)) EmptyString)))
  else String c EmptyString.

(** [repr(s)] for a string: single quotes unless the text has a single
    quote and no double quote. *)
Definition repr_str (s : string) : string :=
  let q := if has_char squote s && negb (has_char dquote s) then dquote else squote in
  String q (concat EmptyString (map (repr_char q) (chars s)) ++ String q EmptyString).

(** [repr(j)] *)
Fixpoint repr (j : json) : string :=
  match j with
  | JNull => "None"
  | JBool true => "True"
  | JBool false => "False"
  | JNum n => str_of_Z n
  | JStr s => repr_str s
  | JArr l =>
      "[" ++
      (fix items (l : list json) : string :=
         match l with
         | [] => EmptyString
         | x :: r =>
             repr x ++ match r with [] => EmptyString | _ => ", " ++ items r end
         end) l ++ "]"
  | JObj m =>
      "{" ++
      (fix items (m : list (string * json)) : string :=
         match m with
         | [] => EmptyString
         | (k, v) :: r =>
             repr_str k ++ ": " ++ repr v ++
             match r with [] => EmptyString | _ => ", " ++ items r end
         end) m ++ "}"
  end.

(** [str(j)] *)
Definition str (j : json) : string :=
  match j with
  | JStr s => s
  | _ => repr j
  end.

(** *** Truth value, dict and sequence protocols *)

(** [bool(j)], as [if j:] and [not j] use it. *)
Definition truthy (j : json) : bool :=
  match j with
  | JNull => false
  | JBool b => b
  | JNum n => negb (n =? 0)%Z
  | JStr s => negb (s =? "")
  | JArr l => match l with [] => false | _ => true end
  | JObj m => match m with [] => false | _ => true end
  end.

(** [x or d] *)
Definition or_else (x d : json) : json := if truthy x then x else d.

Fixpoint dict_get (m : pydict) (k : string) : option json :=
  match m with
  | [] => None
  | (k', v) :: r => if k' =? k then Some v else dict_get r k
  end.

Definition dict_get_or (m : pydict) (k : string) (d : json) : json :=
  match dict_get m k with
  | Some v => v
  | None => d
  end.

(** [m[k] = v]: an existing key keeps its position. *)
Fixpoint dict_set (m : pydict) (k : string) (v : json) : pydict :=
  match m with
  | [] => [(k, v)]
  | (k', v') :: r =>
      if k' =? k then (k, v) :: r else (k', v') :: dict_set r k v
  end.

Definition dict_keys (m : pydict) : list string := map fst m.

(** [j.get(k, d)]: only dicts have the method. *)
Definition get (j : json) (k : string) (d : json) : result json :=
  match j with
  | JObj m => Ok (dict_get_or m k d)
  | _ => Raise AttributeError
  end.

(** [j[k]] for a string key. *)
Definition getitem (j : json) (k : string) : result json :=
  match j with
  | JObj m =>
      match dict_get m k with
      | Some v => Ok v
      | None => Raise (KeyError k)
      end
  | _ => Raise TypeError
  end.

(** [for x in j]: lists yield their items, dicts their keys, strings their
    characters; nothing else is iterable. *)
Definition iter (j : json) : result (list json) :=
  match j with
  | JArr l => Ok l
  | JObj m => Ok (map (fun kv => JStr (fst kv)) m)
  | JStr s => Ok (map (fun c => JStr (String c EmptyString)) (chars s))
  | _ => Raise TypeError
  end.

(** [k in j] for a string [k]. *)
Definition contains (j : json) (k : string) : result bool :=
  match j with
  | JObj m => Ok (existsb (String.eqb k) (dict_keys m))
  | JStr s => Ok (str_contains s k)
  | JArr l =>
      Ok (existsb (fun x => match x with JStr s => s =? k | _ => false end) l)
  | _ => Raise TypeError
  end.

(** [j == n] for an integer [n]: booleans are the integers 0 and 1. *)
Definition eq_int (j : json) (n : Z) : bool :=
  match j with
  | JNum m => (m =? n)%Z
  | JBool b => (Z.b2z b =? n)%Z
  | _ => false
  end.

(** The values [i], [i + step], ... below [n] that a range with a positive
    step yields; [fuel] bounds their number. *)
Fixpoint range_from (fuel : nat) (i n step : Z) : list Z :=
  match fuel with
  | O => []
  | S fuel =>
      if (i <? n)%Z then i :: range_from fuel (i + step)%Z n step else []
  end.

(** [range(0, n, step)]: at most [n] values when [step] is positive, none
    when it is negative. *)
Definition range0 (n step : Z) : result (list Z) :=
  if (step =? 0)%Z then Raise ValueError
  else if (step <? 0)%Z then Ok []
  else Ok (range_from (Z.to_nat n) 0 n step).

(** [l[i:j]] for [0 <= i]. *)
Definition slice {A} (l : list A) (i j : Z) : list A :=
  firstn (Z.to_nat (j - i)) (skipn (Z.to_nat i) l).

(** [s.lower()]: A to Z, and the accented capitals 192 to 222 other than
    the multiplication sign (215). *)
Definition lower_char (c : ascii) : ascii :=
  let n := ord c in
  if ((65 <=? n) && (n <=? 90) ||
      (192 <=? n) && (n <=? 222) && negb (n =? 215))%nat
  then chr (n + 32) else c.

Fixpoint lower (s : string) : string :=
  match s with
  | EmptyString => EmptyString
  | String c r => String (lower_char c) (lower r)
  end.

(** [sorted(l)] for a list of strings: insertion into a sorted list keeps
    equal items in their order, as the stable sort does. *)
Fixpoint insert_sorted (x : string) (l : list string) : list string :=
  match l with
  | [] => [x]
  | y :: r => if String.ltb x y then x :: l else y :: insert_sorted x r
  end.

Definition sorted (l : list string) : list string :=
  fold_right insert_sorted [] l.

(** [int(j)] for a value of any JSON type. *)
Definition int_of (j : json) : result Z :=
  match j with
  | JNum n => Ok n
  | JBool b => Ok (Z.b2z b)
  | JStr s => int s
  | _ => Raise TypeError
  end.

End Py.

Import Py.

(** ** The world the program runs in *)

(** The data file [data/errors.json]: missing, present but not JSON, or a
    JSON document. *)
Inductive file : Type :=
| Absent
| Corrupt
| Doc (j : json).

(** One GET request of [make_request]. *)
Record request : Type := mkRequest {
  url : string;
  params : pydict;
  version : string
}.

Inductive event : Type :=
| Request (r : request)
| Sleep.

(** The error lines the program prints; progress messages are not kept. *)
Inductive line : Type :=
| LoadError (e : exn)
| FetchError (r : request)
| SyncError (e : exn).

(** [server] is the remote API: what it answers to a request may depend on
    everything that happened before; [None] is a transport failure. *)
Record World : Type := mkWorld {
  disk : file;
  writes : nat;
  server : list event -> request -> option json;
  trace : list event;
  stdout : list line
}.

Definition M (A : Type) : Type := World -> result A * World.

Definition ret {A} (a : A) : M A := fun w => (Ok a, w).

Definition mbind {A B} (c : M A) (k : A -> M B) : M B :=
  fun w =>
    match c w with
    | (Ok a, w') => k a w'
    | (Raise e, w') => (Raise e, w')
    end.

Notation "x <- c ;; k" := (mbind c (fun x => k))
  (at level 100, c at next level, right associativity).
Notation "c ;; k" := (mbind c (fun _ => k))
  (at level 100, right associativity).

Definition lift {A} (r : result A) : M A := fun w => (r, w).

(** [try: body except Exception as e: handler(e)] *)
Definition try_except {A} (body : M A) (handler : exn -> M A) : M A :=
  fun w =>
    match body w with
    | (Ok a, w') => (Ok a, w')
    | (Raise e, w') => handler e w'
    end.

Definition print (l : line) : M unit :=
  fun w => (Ok tt, mkWorld (disk w) (writes w) (server w) (trace w) (stdout w ++ [l])%list).

Definition emit (e : event) : M unit :=
  fun w => (Ok tt, mkWorld (disk w) (writes w) (server w) (trace w ++ [e])%list (stdout w)).

(** [time.sleep(REQUEST_DELAY_SECONDS)] *)
Definition sleep : M unit := emit Sleep.

(** [os.path.exists(DATA_FILE)] *)
Definition path_exists : M bool :=
  fun w => (Ok match disk w with Absent => false | _ => true end, w).

(** [json.load(open(DATA_FILE))] *)
Definition json_load : M json :=
  fun w =>
    match disk w with
    | Doc j => (Ok j, w)
    | _ => (Raise JSONDecodeError, w)
    end.

(** [json.dump(j, open(DATA_FILE, 'w'))]: a full rewrite of the file, in a
    run in which the disk takes the write.  A failure of [open] or of the
    write itself (an [OSError], which may leave the file truncated) is
    outside the model: what is said of a write is said of one that went
    through. *)
Definition json_dump (j : json) : M unit :=
  fun w => (Ok tt, mkWorld (Doc j) (S (writes w)) (server w) (trace w) (stdout w)).

(** [for x in l: body(x)] *)
Fixpoint for_each {A} (l : list A) (body : A -> M unit) : M unit :=
  match l with
  | [] => ret tt
  | x :: r => body x ;; for_each r body
  end.

(** A loop that threads the local variables it assigns as an accumulator. *)
Fixpoint for_acc {A S} (l : list A) (body : A -> S -> M S) (s : S) : M S :=
  match l with
  | [] => ret s
  | x :: r => s' <- body x s ;; for_acc r body s'
  end.

(** ** data_manager.py *)

Module data_manager.

Module Option.
Record t : Type := mk { label : json; content : json }.
End Option.

Module Question.
Record t : Type := mk {
  id : json;
  origin_name : json;
  sub_name : json;
  content : json;
  options : list Option.t;
  answer : json;
  analysis : json;
  comments : json;
  type : json;
  user_status : json;
  last_reviewed : json;
  source : json
}.
End Question.

Module ErrorData.
Record t : Type := mk {
  meta : json;
  simulation : list Question.t;
  real : list Question.t;
  famous : list Question.t
}.
End ErrorData.

Definition default_meta : json :=
  JObj [("last_sync", JNull); ("version", JStr "1.0")].

(** [ErrorData(meta={"last_sync": None, "version": "1.0"})] *)
Definition empty_data : ErrorData.t :=
  ErrorData.mk default_meta [] [] [].

(** The call of [Option] with its keyword arguments unpacked from [o]:
    [o] must be a mapping that has the two field names as its keys and no
    other. *)
Definition Option_of_kwargs (o : json) : result Option.t :=
  match o with
  | JObj m =>
      if forallb (fun k => (k =? "label") || (k =? "content")) (dict_keys m) then
        match dict_get m "label", dict_get m "content" with
        | Some l, Some c => Ok (Option.mk l c)
        | _, _ => Raise TypeError
        end
      else Raise TypeError
  | _ => Raise TypeError
  end.

(** The [Question(...)] call inside [parse_questions], keyword by keyword. *)
Definition parse_question (q : json) : result Question.t :=
  let* id := getitem q "id" in
  let* origin_name := getitem q "origin_name" in
  let* sub_name := getitem q "sub_name" in
  let* content := getitem q "content" in
  let* raw_options := getitem q "options" in
  let* option_items := iter raw_options in
  let* options := rmap Option_of_kwargs option_items in
  let* answer := getitem q "answer" in
  let* analysis := getitem q "analysis" in
  let* comments := get q "comments" (JArr []) in
  let* type := get q "type" (JNum 0) in
  let* user_status := get q "user_status" (JStr "new") in
  let* last_reviewed := get q "last_reviewed" JNull in
  let* source := get q "source" JNull in
  Ok (Question.mk id origin_name sub_name content options answer analysis
        comments type user_status last_reviewed source).

Definition parse_questions (q_list : json) : result (list Question.t) :=
  let* qs := iter q_list in
  rmap parse_question qs.

(** The body of the [with] block of [load_data]. *)
Definition parse_data (raw_data : json) : result ErrorData.t :=
  let* meta := get raw_data "meta" default_meta in
  let* raw_simulation := get raw_data "simulation" (JArr []) in
  let* simulation := parse_questions raw_simulation in
  let* raw_real := get raw_data "real" (JArr []) in
  let* real := parse_questions raw_real in
  let* raw_famous := get raw_data "famous" (JArr []) in
  let* famous := parse_questions raw_famous in
  Ok (ErrorData.mk meta simulation real famous).

Definition load_data : M ErrorData.t :=
  present <- path_exists ;;
  if negb present then ret empty_data
  else
    try_except
      (raw_data <- json_load ;; lift (parse_data raw_data))
      (fun e => print (LoadError e) ;; ret empty_data).

(** [asdict]: fields in declaration order, nested dataclasses and lists
    converted recursively, JSON values copied. *)
Definition asdict_Option (o : Option.t) : json :=
  JObj [("label", Option.label o); ("content", Option.content o)].

Definition asdict_Question (q : Question.t) : json :=
  JObj [("id", Question.id q);
        ("origin_name", Question.origin_name q);
        ("sub_name", Question.sub_name q);
        ("content", Question.content q);
        ("options", JArr (map asdict_Option (Question.options q)));
        ("answer", Question.answer q);
        ("analysis", Question.analysis q);
        ("comments", Question.comments q);
        ("type", Question.type q);
        ("user_status", Question.user_status q);
        ("last_reviewed", Question.last_reviewed q);
        ("source", Question.source q)].

Definition asdict (d : ErrorData.t) : json :=
  JObj [("meta", ErrorData.meta d);
        ("simulation", JArr (map asdict_Question (ErrorData.simulation d)));
        ("real", JArr (map asdict_Question (ErrorData.real d)));
        ("famous", JArr (map asdict_Question (ErrorData.famous d)))].

Definition save_data (data : ErrorData.t) : M unit :=
  json_dump (asdict data).

(** [q.user_status = new_status; q.last_reviewed = timestamp] *)
Definition set_status (new_status timestamp : string) (q : Question.t) : Question.t :=
  Question.mk (Question.id q) (Question.origin_name q) (Question.sub_name q)
    (Question.content q) (Question.options q) (Question.answer q)
    (Question.analysis q) (Question.comments q) (Question.type q)
    (JStr new_status) (JStr timestamp) (Question.source q).

(** The inner loop [for q in category] with its [break]: the flag [found]
    and the category after the assignment. *)
Fixpoint scan_category (question_id : Z) (new_status timestamp : string)
    (category : list Question.t) : bool * list Question.t :=
  match category with
  | [] => (false, [])
  | q :: rest =>
      if eq_int (Question.id q) question_id
      then (true, set_status new_status timestamp q :: rest)
      else
        let (found, rest') := scan_category question_id new_status timestamp rest in
        (found, q :: rest')
  end.

(** The outer loop over [[data.simulation, data.real, data.famous]]. *)
Definition scan_data (question_id : Z) (new_status timestamp : string)
    (data : ErrorData.t) : bool * ErrorData.t :=
  let (found_s, simulation') :=
    scan_category question_id new_status timestamp (ErrorData.simulation data) in
  if found_s then
    (true, ErrorData.mk (ErrorData.meta data) simulation'
             (ErrorData.real data) (ErrorData.famous data))
  else
    let (found_r, real') :=
      scan_category question_id new_status timestamp (ErrorData.real data) in
    if found_r then
      (true, ErrorData.mk (ErrorData.meta data) (ErrorData.simulation data)
               real' (ErrorData.famous data))
    else
      let (found_f, famous') :=
        scan_category question_id new_status timestamp (ErrorData.famous data) in
      (found_f, ErrorData.mk (ErrorData.meta data) (ErrorData.simulation data)
                  (ErrorData.real data) famous').

(** [timestamp] is the value of [datetime.datetime.now().isoformat()] read
    by this call. *)
Definition update_question_status (question_id : Z) (new_status : string)
    (timestamp : string) : M bool :=
  data <- load_data ;;
  let (found, data') := scan_data question_id new_status timestamp data in
  if found then save_data data' ;; ret true
  else ret false.

End data_manager.

(** ** scraper.py *)

Module scraper.

(** The module-level options, and the [BATCH_SIZE] variable of the process
    environment ([None] when it is not set). *)
Record Config : Type := mkConfig {
  INCLUDE_COMMENTS : bool;
  BATCH_SIZE : Z;
  INCREMENTAL : bool;
  SELECTED_SOURCES : list string;
  environ_BATCH_SIZE : option string
}.

(** A [Set[int]]: membership is all the program asks of it. *)
Definition int_set := list Z.

Definition set_mem (n : Z) (s : int_set) : bool := existsb (Z.eqb n) s.

Definition set_add (n : Z) (s : int_set) : int_set :=
  if set_mem n s then s else (s ++ [n])%list.

(** [isinstance(j, int)]: integers, and booleans as 0 and 1. *)
Definition as_int (j : json) : option Z :=
  match j with
  | JNum n => Some n
  | JBool b => Some (Z.b2z b)
  | _ => None
  end.

(** [q in s] for a set of integers: lists and dicts cannot be hashed. *)
Definition in_set (q : json) (s : int_set) : result bool :=
  match q with
  | JArr _ | JObj _ => Raise TypeError
  | _ => Ok match as_int q with Some n => set_mem n s | None => false end
  end.

(** [bool(existing)] for [existing: Set[int] | None] *)
Definition nonempty (existing : option int_set) : bool :=
  match existing with
  | Some (_ :: _) => true
  | _ => false
  end.

Definition set_of (existing : option int_set) : int_set :=
  match existing with Some s => s | None => [] end.

(** [(data.get("data") or []) if data else []] *)
Definition data_or_empty (data : json) : result json :=
  if truthy data then
    let* d := get data "data" JNull in
    Ok (or_else d (JArr []))
  else Ok (JArr []).

Definition make_request (url : string) (params : pydict) (version : string) : M json :=
  fun w =>
    let r := mkRequest url params version in
    let w' := mkWorld (disk w) (writes w) (server w) (trace w ++ [Request r])%list (stdout w) in
    match server w (trace w) r with
    | Some j => (Ok j, w')
    | None => (print (FetchError r) ;; ret JNull) w'
    end.

Definition get_question_details (qids : list json) : M json :=
  match qids with
  | [] => ret (JArr [])
  | _ =>
      let qids_str := join "," (map str qids) in
      data <- make_request "/tk/getQuestions" [("qids", JStr qids_str)] "v1" ;;
      lift (data_or_empty data)
  end.

Definition get_comments (question_id : json) : M (list json) :=
  data <- make_request "/note/getAll" [("qid", question_id); ("page", JNum 1)] "v1" ;;
  comments_data <- lift (data_or_empty data) ;;
  items <- lift (iter comments_data) ;;
  lift ((fix contents (l : list json) : result (list json) :=
           match l with
           | [] => Ok []
           | comment :: r =>
               let* has := contains comment "content" in
               if has then
                 let* c := getitem comment "content" in
                 let* cs := contents r in
                 Ok (c :: cs)
               else contents r
           end) items).

(** [m[k].append(x)] *)
Definition dict_append (m : pydict) (k : string) (x : json) : pydict :=
  match dict_get m k with
  | Some (JArr l) => dict_set m k (JArr (l ++ [x])%list)
  | _ => m
  end.

Definition labels : list string := ["A"; "B"; "C"; "D"].

(** [for digit in correct_raw: ...], on the value of [normalized] *)
Fixpoint decode_digits (digits : list ascii) (normalized : pydict) : result pydict :=
  match digits with
  | [] => Ok normalized
  | digit :: rest =>
      let* d := int (String digit EmptyString) in
      let idx := (d - 1)%Z in
      if ((0 <=? idx) && (idx <? Z.of_nat (List.length labels)))%Z
      then decode_digits rest
             (dict_append normalized "answer" (JStr (nth (Z.to_nat idx) labels "")))
      else decode_digits rest normalized
  end.

(** [for key in ['a', 'b', 'c', 'd']: ...], on the value of [normalized] *)
Fixpoint add_options (question_data : json) (keys : list string)
    (normalized : pydict) : result pydict :=
  match keys with
  | [] => Ok normalized
  | key :: rest =>
      let* v := get question_data key JNull in
      if truthy v then
        let* content := getitem question_data key in
        add_options question_data rest
          (dict_append normalized "options"
             (JObj [("label", JStr (upper key)); ("content", content)]))
      else add_options question_data rest normalized
  end.

Definition _normalize_question (question_data : json) (source_type : string)
    (origin_name sub_name : json) : result (option pydict) :=
  if negb (truthy question_data) then Ok None
  else
    let* id := get question_data "id" JNull in
    let* type := get question_data "type" (JNum 0) in
    let* content := get question_data "title" (JStr "") in
    let* analysis := get question_data "explain" (JStr "") in
    let normalized : pydict :=
      [("id", id);
       ("origin_name", origin_name);
       ("sub_name", sub_name);
       ("type", type);
       ("content", content);
       ("options", JArr []);
       ("answer", JArr []);
       ("analysis", analysis);
       ("user_status", JStr "new");
       ("last_reviewed", JNull);
       ("comments", JArr []);
       ("source", JStr source_type)] in
    let* normalized := add_options question_data ["a"; "b"; "c"; "d"] normalized in
    let* correct := get question_data "correct" (JStr "") in
    let correct_raw := strip (str correct) in
    let* normalized :=
      if negb (correct_raw =? "") then
        if isdigit correct_raw then decode_digits (chars correct_raw) normalized
        else
          Ok (dict_set normalized "answer"
                (JArr (map (fun label => JStr (upper (strip label)))
                         (split "," correct_raw))))
      else Ok normalized in
    Ok (Some normalized).

Section WithConfig.

Variable cfg : Config.

(** The value [batch_size] takes when the caller passes [None]. *)
Definition default_batch_size : Z :=
  let text :=
    match environ_BATCH_SIZE cfg with
    | Some s => s
    | None => str_of_Z (BATCH_SIZE cfg)
    end in
  match int text with
  | Ok n => n
  | Raise _ => BATCH_SIZE cfg
  end.

Definition get_question_details_batched (qids : list json)
    (batch_size : option Z) : M (list json) :=
  let batch_size :=
    match batch_size with
    | Some b => b
    | None => default_batch_size
    end in
  starts <- lift (range0 (Z.of_nat (List.length qids)) batch_size) ;;
  for_acc starts
    (fun i all_details =>
       let batch := slice qids i (i + batch_size) in
       details <- get_question_details batch ;;
       all_details <-
         (if truthy details then
            items <- lift (iter details) ;;
            ret (all_details ++ items)%list
          else ret all_details) ;;
       sleep ;;
       ret all_details)
    [].

(** The loop [for q_data in details] that ends the body of each walker. *)
Definition collect (source_type : string) (origin_name sub_name : json)
    (details : list json) (all_questions : list json) : M (list json) :=
  for_acc details
    (fun q_data all_questions =>
       sleep ;;
       comments <-
         (if INCLUDE_COMMENTS cfg then
            qid <- lift (get q_data "id" JNull) ;;
            get_comments qid
          else ret []) ;;
       normalized_q <- lift (_normalize_question q_data source_type origin_name sub_name) ;;
       match normalized_q with
       | Some ((_ :: _) as normalized_q) =>
           ret (all_questions ++ [JObj (dict_set normalized_q "comments" (JArr comments))])%list
       | _ => ret all_questions
       end)
    all_questions.

(** [list(map(int, qids_str.split(',')))]: only strings have [split]. *)
Definition parse_qids (qids_str : json) : result (list Z) :=
  match qids_str with
  | JStr s => rmap int (split "," s)
  | _ => Raise AttributeError
  end.

(** From [qids = list(map(int, ...))] to the end of the loop body, as the
    simulation and the real-exam walker share it. *)
Definition fetch_qids (existing : option int_set) (source_type : string)
    (origin_name sub_name qids_str : json) (all_questions : list json) : M (list json) :=
  qids <- lift (parse_qids qids_str) ;;
  let fetch (qids : list Z) : M (list json) :=
    details <- get_question_details_batched (map JNum qids) None ;;
    collect source_type origin_name sub_name details all_questions in
  if nonempty existing then
    let qids := filter (fun q => negb (set_mem q (set_of existing))) qids in
    match qids with
    | [] => ret all_questions
    | _ => fetch qids
    end
  else fetch qids.

Definition fetch_simulation_errors (existing : option int_set) : M (list json) :=
  papers_data <- make_request "/tk/getError" [("type", JNum 5)] "v2" ;;
  if negb (truthy papers_data) then ret []
  else
    d <- lift (get papers_data "data" JNull) ;;
    papers <- lift (iter (or_else d (JArr []))) ;;
    for_acc papers
      (fun paper all_questions =>
         origin_name <- lift (get paper "name" (JStr "Unknown Paper")) ;;
         l <- lift (get paper "list" JNull) ;;
         rolls <- lift (iter (or_else l (JArr []))) ;;
         for_acc rolls
           (fun chapter_or_roll all_questions =>
              sub_name <- lift (get chapter_or_roll "name" (JStr "Unknown Roll")) ;;
              qids_str <- lift (get chapter_or_roll "qids" JNull) ;;
              if negb (truthy qids_str) then ret all_questions
              else fetch_qids existing "simulation" origin_name sub_name qids_str all_questions)
           all_questions)
      [].

Definition fetch_real_exam_errors (existing : option int_set) : M (list json) :=
  papers_data <- make_request "/tk/getError" [("type", JNum 4)] "v2" ;;
  if negb (truthy papers_data) then ret []
  else
    d <- lift (get papers_data "data" JNull) ;;
    papers <- lift (iter (or_else d (JArr []))) ;;
    for_acc papers
      (fun paper all_questions =>
         origin_name <- lift (get paper "name" (JStr "Unknown Real Exam")) ;;
         let sub_name := JStr "" in
         qids_str <- lift (get paper "qids" JNull) ;;
         if negb (truthy qids_str) then ret all_questions
         else fetch_qids existing "real" origin_name sub_name qids_str all_questions)
      [].

(** [[q_item.get("qId") for q_item in ... if q_item.get("qId")]] *)
Fixpoint question_ids (items : list json) : result (list json) :=
  match items with
  | [] => Ok []
  | q_item :: r =>
      let* qid := get q_item "qId" JNull in
      let* rest := question_ids r in
      Ok (if truthy qid then qid :: rest else rest)
  end.

(** [[q for q in qids if q not in existing]] on ids of any JSON type *)
Fixpoint drop_existing (existing : int_set) (qids : list json) : result (list json) :=
  match qids with
  | [] => Ok []
  | q :: r =>
      let* present := in_set q existing in
      let* rest := drop_existing existing r in
      Ok (if present then rest else q :: rest)
  end.

Definition fetch_famous_errors (existing : option int_set) : M (list json) :=
  classes_data <- make_request "/tk/getError" [("type", JNum 3)] "v2" ;;
  if negb (truthy classes_data) then ret []
  else
    d <- lift (get classes_data "data" JNull) ;;
    classes <- lift (iter (or_else d (JArr []))) ;;
    for_acc classes
      (fun class_item all_questions =>
         class_id <- lift (get class_item "id" JNull) ;;
         origin_name <- lift (get class_item "name" (JStr "Unknown Famous Teacher Class")) ;;
         if negb (truthy class_id) then ret all_questions
         else
           books_data <- make_request "/tk/famousTk/getBooks" [("classId", class_id)] "v1" ;;
           books <- lift (data_or_empty books_data) ;;
           let books :=
             if negb (truthy books)
             then JArr [JObj [("id", JNum 1); ("name", JStr "Default Book")]]
             else books in
           book_items <- lift (iter books) ;;
           for_acc book_items
             (fun book all_questions =>
                book_id <- lift (get book "id" JNull) ;;
                if negb (truthy book_id) then ret all_questions
                else
                  questions_list_data <-
                    make_request "/tk/getFamousByError"
                      [("classId", class_id); ("bookId", book_id)] "v1" ;;
                  if negb (truthy questions_list_data) then ret all_questions
                  else
                    cd <- lift (get questions_list_data "data" JNull) ;;
                    chapters <- lift (iter (or_else cd (JArr []))) ;;
                    for_acc chapters
                      (fun chapter_data all_questions =>
                         sub_name <- lift (get chapter_data "name" (JStr "Unknown Chapter")) ;;
                         qs <- lift (get chapter_data "questions" JNull) ;;
                         q_items <- lift (iter (or_else qs (JArr []))) ;;
                         qids <- lift (question_ids q_items) ;;
                         let fetch (qids : list json) : M (list json) :=
                           details <- get_question_details_batched qids None ;;
                           collect "famous" origin_name sub_name details all_questions in
                         match qids with
                         | [] => ret all_questions
                         | _ =>
                             if nonempty existing then
                               qids <- lift (drop_existing (set_of existing) qids) ;;
                               match qids with
                               | [] => ret all_questions
                               | _ => fetch qids
                               end
                             else fetch qids
                         end)
                      all_questions)
             all_questions)
      [].

(** The sets of ids per bucket, a dict from bucket name to set. *)
Definition id_sets := list (string * int_set).

Definition ids_get (ids : id_sets) (k : string) : option int_set :=
  match find (fun kv => fst kv =? k) ids with
  | Some kv => Some (snd kv)
  | None => None
  end.

Definition ids_set (ids : id_sets) (k : string) (s : int_set) : id_sets :=
  map (fun kv => if fst kv =? k then (k, s) else kv) ids.

Definition no_ids : id_sets :=
  [("simulation", []); ("real", []); ("famous", [])].

(** [for q in items: ...] of [_load_existing_ids]: the set so far, and
    whether the loop ran to its end without an exception. *)
Fixpoint add_ids (items : list json) (s : int_set) : int_set * bool :=
  match items with
  | [] => (s, true)
  | q :: r =>
      match get q "id" JNull with
      | Ok qid =>
          add_ids r match as_int qid with Some n => set_add n s | None => s end
      | Raise _ => (s, false)
      end
  end.

(** [for k in ids.keys(): ...]: an exception ends the loop and leaves the
    sets as they are at that point. *)
Fixpoint load_ids (jd : json) (keys : list string) (ids : id_sets) : id_sets :=
  match keys with
  | [] => ids
  | k :: rest =>
      match (let* v := get jd k JNull in iter (or_else v (JArr []))) with
      | Ok items =>
          let (s, completed) := add_ids items (set_of (ids_get ids k)) in
          let ids := ids_set ids k s in
          if completed then load_ids jd rest ids else ids
      | Raise _ => ids
      end
  end.

Definition _load_existing_ids : M id_sets :=
  fun w =>
    match disk w with
    | Doc jd => (Ok (load_ids jd (map fst no_ids) no_ids), w)
    | _ => (Ok no_ids, w)
    end.

Definition selected (source : string) : bool :=
  existsb (String.eqb source) (SELECTED_SOURCES cfg).

(** [last_sync] is the value of
    [time.strftime("%Y-%m-%dT%H:%M:%SZ", time.gmtime())] read by this call. *)
Definition fetch_all_errors (last_sync : string) : M pydict :=
  let all_categorized_errors : pydict :=
    [("meta", JObj [("last_sync", JStr last_sync); ("version", JStr "1.0")]);
     ("simulation", JArr []);
     ("real", JArr []);
     ("famous", JArr [])] in
  existing <- (if INCREMENTAL cfg then _load_existing_ids else ret no_ids) ;;
  simulation_errors <-
    (if selected "simulation" then
       errors <- fetch_simulation_errors (ids_get existing "simulation") ;;
       sleep ;; ret errors
     else ret []) ;;
  let all_categorized_errors :=
    dict_set all_categorized_errors "simulation" (JArr simulation_errors) in
  real_errors <-
    (if selected "real" then
       errors <- fetch_real_exam_errors (ids_get existing "real") ;;
       sleep ;; ret errors
     else ret []) ;;
  let all_categorized_errors :=
    dict_set all_categorized_errors "real" (JArr real_errors) in
  famous_errors <-
    (if selected "famous" then fetch_famous_errors (ids_get existing "famous")
     else ret []) ;;
  let all_categorized_errors :=
    dict_set all_categorized_errors "famous" (JArr famous_errors) in
  ret all_categorized_errors.

End WithConfig.

(** *** The options of the process *)

(** A [set] of strings, in the order its members were added. *)
Definition str_set_add (x : string) (s : list string) : list string :=
  if existsb (String.eqb x) s then s else (s ++ [x])%list.

Definition all_sources : list string := ["simulation"; "real"; "famous"].

(** The dict [mapping] of [_parse_sources]. *)
Definition mapping : list (string * string) :=
  [("simulation", "simulation"); ("sim", "simulation");
   ("real", "real"); ("exam", "real");
   ("famous", "famous"); ("teacher", "famous")].

Definition mapping_get (p : string) : option string :=
  match find (fun kv => fst kv =? p) mapping with
  | Some kv => Some (snd kv)
  | None => None
  end.

Definition _parse_sources (val : string) : list string :=
  if val =? "" then all_sources
  else
    let out :=
      fold_left
        (fun out p =>
           let p := lower (strip p) in
           match mapping_get p with
           | Some source => str_set_add source out
           | None => out
           end)
        (split "," val) [] in
    match out with
    | [] => all_sources
    | _ => out
    end.

(** The state [set_runtime_options] works on: the module-level options,
    the environment variables it assigns, and the [Authorization] header. *)
Record Process : Type := mkProcess {
  config : Config;
  environ_INCLUDE_COMMENTS : option string;
  environ_TOKEN : option string;
  Authorization : string
}.

(** [bool(int(v)) if isinstance(v, (int, str)) else bool(v)] *)
Definition include_flag (v : json) : result bool :=
  match v with
  | JNum _ | JBool _ | JStr _ =>
      let* n := int_of v in Ok (negb (n =? 0)%Z)
  | _ => Ok (truthy v)
  end.

Definition set_INCLUDE_COMMENTS (flag : bool) (p : Process) : Process :=
  let c := config p in
  mkProcess
    (mkConfig flag (BATCH_SIZE c) (INCREMENTAL c) (SELECTED_SOURCES c)
       (environ_BATCH_SIZE c))
    (Some (if flag then "1" else "0")) (environ_TOKEN p) (Authorization p).

Definition set_BATCH_SIZE (n : Z) (p : Process) : Process :=
  let c := config p in
  mkProcess
    (mkConfig (INCLUDE_COMMENTS c) n (INCREMENTAL c) (SELECTED_SOURCES c)
       (Some (str_of_Z n)))
    (environ_INCLUDE_COMMENTS p) (environ_TOKEN p) (Authorization p).

(** [os.environ['TOKEN'] = token; refresh_headers()]: the environment
    refuses a value that holds the null character with [ValueError], and
    the header is then not refreshed. *)
Definition set_TOKEN (token : string) (p : Process) : result Process :=
  if has_char zero token then Raise ValueError
  else
    Ok (mkProcess (config p) (environ_INCLUDE_COMMENTS p) (Some token)
          ("Bearer " ++ token)).

(** [set_runtime_options]: an argument left at [None] changes nothing; the
    conversion of [include_comments] may raise, the one of [batch_size] is
    inside a [try] that swallows the exception, the assignment of [token]
    may raise.  The texts assigned to the other two variables are [0], [1]
    or the decimal text of an integer, which the environment accepts.  A
    call that raises has changed what the steps before the raising one
    assign; the callers pass one argument at a time. *)
Definition set_runtime_options (include_comments batch_size : option json)
    (token : option string) (p : Process) : result Process :=
  let* p :=
    match include_comments with
    | Some v => let* flag := include_flag v in Ok (set_INCLUDE_COMMENTS flag p)
    | None => Ok p
    end in
  let p :=
    match batch_size with
    | Some v =>
        match int_of v with
        | Ok n => set_BATCH_SIZE n p
        | Raise _ => p
        end
    | None => p
    end in
  match token with
  | Some t => set_TOKEN t p
  | None => Ok p
  end.

(** [get_runtime_options]: the dict it returns. *)
Definition get_runtime_options (p : Process) : pydict :=
  let c := config p in
  [("include_comments", JBool (INCLUDE_COMMENTS c));
   ("batch_size", JNum (BATCH_SIZE c));
   ("token_set",
    JBool match environ_TOKEN p with
          | Some t => negb (t =? "")
          | None => false
          end);
   ("incremental", JBool (INCREMENTAL c));
   ("sources", JArr (map JStr (sorted (SELECTED_SOURCES c))))].

End scraper.

(** ** interactive_cli.py *)

Module interactive_cli.

Import scraper.

(** [sync_data]: everything happens inside one [try]; the file is opened
    for writing only after [fetch_all_errors] has returned. *)
Definition sync_data (cfg : Config) (last_sync : string) : M bool :=
  try_except
    (new_data_dict <- fetch_all_errors cfg last_sync ;;
     json_dump (JObj new_data_dict) ;;
     ret true)
    (fun e => print (SyncError e) ;; ret false).

(** The branches of [settings_menu] for the choices 1, 2 and 3, on the
    line the user types; the messages they print are not kept.  Only the
    second branch has a [try]: an exception of the other two leaves the
    menu. *)
Definition settings_include_comments (line : string) (p : Process) : result Process :=
  let val := lower (strip line) in
  let include :=
    if existsb (String.eqb val) ["y"; "yes"; "1"] then 1%Z else 0%Z in
  set_runtime_options (Some (JNum include)) None None p.

Definition settings_batch_size (line : string) (p : Process) : result Process :=
  let val := strip line in
  match int val with
  | Ok bs =>
      if (bs <=? 0)%Z then Ok p
      else
        match set_runtime_options None (Some (JNum bs)) None p with
        | Ok p' => Ok p'
        | Raise _ => Ok p
        end
  | Raise _ => Ok p
  end.

Definition settings_token (line : string) (p : Process) : result Process :=
  let token := strip line in
  if negb (token =? "") then set_runtime_options None None (Some token) p
  else Ok p.

(** The three loops at the head of [list_questions]: every question gets
    the name of its bucket as source unless it has a source that counts as
    true, and the buckets are concatenated. *)
Definition stamp (bucket : string) (q : data_manager.Question.t) : data_manager.Question.t :=
  data_manager.Question.mk
    (data_manager.Question.id q) (data_manager.Question.origin_name q)
    (data_manager.Question.sub_name q) (data_manager.Question.content q)
    (data_manager.Question.options q) (data_manager.Question.answer q)
    (data_manager.Question.analysis q) (data_manager.Question.comments q)
    (data_manager.Question.type q) (data_manager.Question.user_status q)
    (data_manager.Question.last_reviewed q)
    (or_else (data_manager.Question.source q) (JStr bucket)).

Definition stamped_questions (data : data_manager.ErrorData.t) : list data_manager.Question.t :=
  (map (stamp "simulation") (data_manager.ErrorData.simulation data) ++
   map (stamp "real") (data_manager.ErrorData.real data) ++
   map (stamp "famous") (data_manager.ErrorData.famous data))%list.

(** [j == s] for a string [s] *)
Definition eq_str (j : json) (s : string) : bool :=
  match j with
  | JStr x => x =? s
  | _ => false
  end.

(** The filter of choice 2, on a source that passed the check of the
    menu. *)
Definition filter_by_source (source_filter : string)
    (questions : list data_manager.Question.t) : list data_manager.Question.t :=
  filter (fun q => eq_str (data_manager.Question.source q) source_filter) questions.

(** The filter of choice 3: [q.user_status.lower() == status_filter];
    only strings have [lower]. *)
Fixpoint filter_by_status (status_filter : string)
    (questions : list data_manager.Question.t) : result (list data_manager.Question.t) :=
  match questions with
  | [] => Ok []
  | q :: r =>
      match data_manager.Question.user_status q with
      | JStr status =>
          let* rest := filter_by_status status_filter r in
          Ok (if lower status =? status_filter then q :: rest else rest)
      | _ => Raise AttributeError
      end
  end.

End interactive_cli.


(** * Vocabulary of the statements *)

(** The world after one more line on the console, and after a rewrite of
    the data file. *)
Definition printed (l : line) (w : World) : World :=
  mkWorld (disk w) (writes w) (server w) (trace w) (stdout w ++ [l])%list.

Definition written (j : json) (w : World) : World :=
  mkWorld (Doc j) (S (writes w)) (server w) (trace w) (stdout w).

(** A server that never answers. *)
Definition offline : list event -> request -> option json :=
  fun _ _ => None.

Module store_spec.

Import data_manager.

(** The questions of a dataset in the order the update scans them. *)
Definition all_questions (d : ErrorData.t) : list Question.t :=
  (ErrorData.simulation d ++ ErrorData.real d ++ ErrorData.famous d)%list.

Definition has_id (question_id : Z) (q : Question.t) : bool :=
  eq_int (Question.id q) question_id.

Definition lacks_id (question_id : Z) (l : list Question.t) : bool :=
  forallb (fun q => negb (has_id question_id q)) l.

(** Two datasets with the same meta and buckets of the same sizes. *)
Definition same_layout (d d' : ErrorData.t) : Prop :=
  ErrorData.meta d' = ErrorData.meta d /\
  List.length (ErrorData.simulation d') = List.length (ErrorData.simulation d) /\
  List.length (ErrorData.real d') = List.length (ErrorData.real d) /\
  List.length (ErrorData.famous d') = List.length (ErrorData.famous d).

(** Two questions that agree on every field other than [user_status] and
    [last_reviewed]. *)
Definition same_but_status (q q' : Question.t) : Prop :=
  Question.id q' = Question.id q /\
  Question.origin_name q' = Question.origin_name q /\
  Question.sub_name q' = Question.sub_name q /\
  Question.content q' = Question.content q /\
  Question.options q' = Question.options q /\
  Question.answer q' = Question.answer q /\
  Question.analysis q' = Question.analysis q /\
  Question.comments q' = Question.comments q /\
  Question.type q' = Question.type q /\
  Question.source q' = Question.source q.


(** The keys [parse_questions] reads with [q[...]]. *)
Definition required_keys : list string :=
  ["id"; "origin_name"; "sub_name"; "content"; "options"; "answer"; "analysis"].

Definition buckets : list string := ["simulation"; "real"; "famous"].

(** A record that lacks a required key. *)
Definition missing_required_key (q : json) : bool :=
  match q with
  | JObj m =>
      existsb (fun k => match dict_get m k with None => true | Some _ => false end)
        required_keys
  | _ => false
  end.

(** A sample file with three questions, one per bucket. *)
Definition sample_question (n : Z) (source : string) : Question.t :=
  Question.mk (JNum n) (JStr "Paper") (JStr "Roll") (JStr "text")
    [Option.mk (JStr "A") (JStr "yes"); Option.mk (JStr "B") (JStr "no")]
    (JArr [JStr "B"]) (JStr "because") (JArr []) (JNum 1)
    (JStr "new") JNull (JStr source).

Definition sample_data : ErrorData.t :=
  ErrorData.mk default_meta
    [sample_question 1 "simulation"]
    [sample_question 2 "real"]
    [sample_question 3 "famous"].

Definition sample_world : World :=
  mkWorld (Doc (asdict sample_data)) 0 offline [] [].

Definition missing_world : World := mkWorld Absent 0 offline [] [].

Definition corrupt_world : World := mkWorld Corrupt 0 offline [] [].

(** A file whose second record has no [answer] key. *)
Definition broken_record : json :=
  JObj [("id", JNum 9); ("origin_name", JStr "Paper"); ("sub_name", JStr "");
        ("content", JStr "text"); ("options", JArr []); ("analysis", JStr "")].

Definition broken_file : pydict :=
  [("meta", default_meta);
   ("simulation", JArr [asdict_Question (sample_question 1 "simulation"); broken_record]);
   ("real", JArr [asdict_Question (sample_question 2 "real")]);
   ("famous", JArr [])].

Definition broken_world : World := mkWorld (Doc (JObj broken_file)) 0 offline [] [].

(** The reading of C5 under which every missing or unparseable file leaves
    an error line on the console. *)
Definition always_logs (w : World) : Prop :=
  disk w = Absent \/ disk w = Corrupt ->
  fst (load_data w) = Ok empty_data /\
  exists e, stdout (snd (load_data w)) = (stdout w ++ [LoadError e])%list.

(** *** Files of the shape of the dataset *)

(** Equality of JSON values up to the order of the keys of objects. *)
Inductive json_equiv : json -> json -> Prop :=
| equiv_refl (j : json) : json_equiv j j
| equiv_arr (l l' : list json) :
    Forall2 json_equiv l l' -> json_equiv (JArr l) (JArr l')
| equiv_obj (m m1 m' : pydict) :
    Forall2 (fun kv kv' => fst kv = fst kv' /\ json_equiv (snd kv) (snd kv')) m m1 ->
    Permutation m1 m' ->
    json_equiv (JObj m) (JObj m').

(** The dict [m] has the keys [ks], each once, and no other. *)
Definition has_keys (ks : list string) (m : pydict) : bool :=
  (List.length m =? List.length ks)%nat &&
  forallb (fun k => existsb (String.eqb k) (dict_keys m)) ks.

(** The entries of [m] in the order of the keys [ks]. *)
Definition canonical (ks : list string) (m : pydict) : pydict :=
  map (fun k => (k, dict_get_or m k JNull)) ks.

Definition option_keys : list string := ["label"; "content"].

Definition question_keys : list string :=
  ["id"; "origin_name"; "sub_name"; "content"; "options"; "answer"; "analysis";
   "comments"; "type"; "user_status"; "last_reviewed"; "source"].

Definition dataset_keys : list string := ["meta"; "simulation"; "real"; "famous"].

Definition well_formed_option (o : json) : bool :=
  match o with
  | JObj m => has_keys option_keys m
  | _ => false
  end.

Definition well_formed_question (q : json) : bool :=
  match q with
  | JObj m =>
      has_keys question_keys m &&
      match dict_get m "options" with
      | Some (JArr os) => forallb well_formed_option os
      | _ => false
      end
  | _ => false
  end.

Definition well_formed_bucket (b : option json) : bool :=
  match b with
  | Some (JArr qs) => forallb well_formed_question qs
  | _ => false
  end.

(** A document of the shape of the dataset: the meta object and the three
    buckets, every question with its twelve fields, every option with its
    two. *)
Definition well_formed_dataset (j : json) : bool :=
  match j with
  | JObj m =>
      has_keys dataset_keys m &&
      well_formed_bucket (dict_get m "simulation") &&
      well_formed_bucket (dict_get m "real") &&
      well_formed_bucket (dict_get m "famous")
  | _ => false
  end.

(** [save_data(load_data())] *)
Definition save_load : M unit :=
  data <- load_data ;; save_data data.

(** A well-formed file whose keys are not in the order [save_data] writes
    them. *)
Definition shuffled_file : json :=
  JObj [("famous", JArr []);
        ("real", JArr []);
        ("simulation",
         JArr [JObj [("source", JStr "simulation"); ("analysis", JStr "because");
                     ("answer", JArr [JStr "A"]);
                     ("options", JArr [JObj [("content", JStr "yes"); ("label", JStr "A")]]);
                     ("content", JStr "text"); ("sub_name", JStr "Roll");
                     ("origin_name", JStr "Paper"); ("id", JNum 1);
                     ("last_reviewed", JNull); ("user_status", JStr "new");
                     ("type", JNum 1); ("comments", JArr [])]]);
        ("meta", JObj [("version", JStr "1.0"); ("last_sync", JNull)])].

Definition shuffled_world : World := mkWorld (Doc shuffled_file) 0 offline [] [].

End store_spec.

Module scraper_spec.

Import scraper.

(** *** The normaliser *)

(** The dict [normalized] of [_normalize_question], by the values it
    holds. *)
Definition normalized_with (id origin_name sub_name type content : json)
    (options answer : list json) (analysis : json) (source : string) : pydict :=
  [("id", id);
   ("origin_name", origin_name);
   ("sub_name", sub_name);
   ("type", type);
   ("content", content);
   ("options", JArr options);
   ("answer", JArr answer);
   ("analysis", analysis);
   ("user_status", JStr "new");
   ("last_reviewed", JNull);
   ("comments", JArr []);
   ("source", JStr source)].

(** The text the answer key is decoded from: the [correct] field of the raw
    question, as a string, trimmed. *)
Definition correct_field (question_data : pydict) : string :=
  strip (str (dict_get_or question_data "correct" (JStr ""))).

(** A digit [d] between 1 and 4 is the 1-based index of a label; any other
    digit stands for no label. *)
Definition label_of_digit (c : ascii) : list string :=
  match digit_val c with
  | Some d =>
      if ((1 <=? d) && (d <=? 4))%Z
      then [nth (Z.to_nat (d - 1)) ["A"; "B"; "C"; "D"] ""]
      else []
  | None => []
  end.

Definition digit_labels (field : string) : list string :=
  flat_map label_of_digit (chars field).

Definition comma_labels (field : string) : list string :=
  map (fun piece => upper (strip piece)) (split "," field).

(** The [answer] and the [content] of the question a call returned. *)
Definition answer_of (r : result (option pydict)) : option json :=
  match r with
  | Ok (Some normalized) => dict_get normalized "answer"
  | _ => None
  end.

Definition content_of (r : result (option pydict)) : option json :=
  match r with
  | Ok (Some normalized) => dict_get normalized "content"
  | _ => None
  end.

Definition answer_labels (l : list string) : option json :=
  Some (JArr (map JStr l)).

(** Raw questions for the examples. *)
Definition raw_with_correct (correct : json) : pydict :=
  [("id", JNum 11); ("title", JStr "text"); ("a", JStr "yes"); ("b", JStr "no");
   ("correct", correct)].

(** The text made of the one character superscript two (U+00B2). *)
Definition superscript_two : string := String (chr 178) EmptyString.

(** A raw question whose title is the JSON value null. *)
Definition raw_null_title : json :=
  JObj [("id", JNum 7); ("title", JNull); ("explain", JStr "because")].

(** *** The batcher *)

(** Consecutive chunks of [n] items, the last one shorter when the length
    is not a multiple of [n]; [fuel] bounds the number of chunks. *)
Fixpoint chunks_fuel {A} (fuel n : nat) (l : list A) : list (list A) :=
  match fuel with
  | O => []
  | S fuel =>
      match l with
      | [] => []
      | _ => firstn n l :: chunks_fuel fuel n (skipn n l)
      end
  end.

Definition chunks {A} (n : nat) (l : list A) : list (list A) :=
  chunks_fuel (List.length l) n l.

(** The sizes of the chunks of a list of [len] items. *)
Fixpoint chunk_sizes (fuel n len : nat) : list nat :=
  match fuel with
  | O => []
  | S fuel =>
      match len with
      | O => []
      | _ => Nat.min n len :: chunk_sizes fuel n (len - n)
      end
  end.

(** The detail request for one chunk of ids. *)
Definition details_request (chunk : list json) : request :=
  mkRequest "/tk/getQuestions" [("qids", JStr (join "," (map str chunk)))] "v1".

(** An answer in the envelope of the API: a transport failure, a null
    body, or an object whose [data] is absent, null or an array. *)
Definition enveloped (answer : option json) : bool :=
  match answer with
  | None | Some JNull => true
  | Some (JObj m) =>
      match dict_get m "data" with
      | None | Some JNull | Some (JArr _) => true
      | Some _ => false
      end
  | Some _ => false
  end.

(** What the answer to one chunk contributes: the items of [data], and
    nothing when the request failed or came back without any. *)
Definition chunk_items (answer : option json) : list json :=
  match answer with
  | Some (JObj m) =>
      match dict_get m "data" with
      | Some (JArr l) => l
      | _ => []
      end
  | _ => []
  end.

(** One request and one pause per chunk, in the order of the chunks. *)
Definition chunk_events (cs : list (list json)) : list event :=
  flat_map (fun c => [Request (details_request c); Sleep]) cs.

(** The items and the error lines of a run over the chunks [cs] that starts
    after the history [h]. *)
Fixpoint chunk_results (srv : list event -> request -> option json)
    (h : list event) (cs : list (list json)) : list json :=
  match cs with
  | [] => []
  | c :: r =>
      (chunk_items (srv h (details_request c)) ++
       chunk_results srv (h ++ chunk_events [c]) r)%list
  end.

Fixpoint chunk_errors (srv : list event -> request -> option json)
    (h : list event) (cs : list (list json)) : list line :=
  match cs with
  | [] => []
  | c :: r =>
      (match srv h (details_request c) with
       | None => [FetchError (details_request c)]
       | Some _ => []
       end ++ chunk_errors srv (h ++ chunk_events [c]) r)%list
  end.

(** A server that answers a detail request with one record that echoes the
    ids asked for, and fails on the ids 3 and 4. *)
Definition echo_server : list event -> request -> option json :=
  fun _ r =>
    match params r with
    | [(_, JStr ids)] =>
        if (url r =? "/tk/getQuestions") && negb (ids =? "3,4")
        then Some (JObj [("data", JArr [JObj [("id", JStr ids)]])])
        else None
    | _ => None
    end.

Definition echo_world : World := mkWorld Absent 0 echo_server [] [].

Definition default_config : Config :=
  mkConfig false 50 false ["simulation"; "real"; "famous"] None.

(** The body of the loop of [get_question_details_batched], as a function
    of the batch [qids[i:i+batch_size]]. *)
Definition batch_step (batch : list json) (all_details : list json) : M (list json) :=
  details <- get_question_details batch ;;
  all_details <-
    (if truthy details then
       items <- lift (iter details) ;;
       ret (all_details ++ items)%list
     else ret all_details) ;;
  sleep ;;
  ret all_details.

(** The world after the requests for the chunks [cs]. *)
Definition after_chunks (w : World) (cs : list (list json)) : World :=
  mkWorld (disk w) (writes w) (server w)
    (trace w ++ chunk_events cs)%list
    (stdout w ++ chunk_errors (server w) (trace w) cs)%list.

End scraper_spec.

Module sync_spec.

Import scraper data_manager store_spec.

(** The ids of the records stored in one bucket of the file. *)
Definition stored_ids (f : file) (bucket : string) : list json :=
  match f with
  | Doc (JObj m) =>
      match dict_get m bucket with
      | Some (JArr qs) =>
          map (fun q => match q with
                        | JObj r => dict_get_or r "id" JNull
                        | _ => JNull
                        end) qs
      | _ => []
      end
  | _ => []
  end.

(** The [qids] parameter of each detail request of a trace. *)
Definition requested_ids (t : list event) : list json :=
  flat_map (fun e => match e with
                     | Request r =>
                         if url r =? "/tk/getQuestions" then map snd (params r) else []
                     | Sleep => []
                     end) t.

Definition incremental_config : Config :=
  mkConfig false 50 true ["simulation"; "real"; "famous"] None.

Definition raw_question (n : Z) : json :=
  JObj [("id", JNum n); ("type", JNum 1); ("title", JStr "text");
        ("a", JStr "yes"); ("b", JStr "no"); ("correct", JStr "1");
        ("explain", JStr "because")].

(** A server with one simulated paper, whose only roll has the questions 1
    to 5; it has no real-exam and no famous-teacher errors, and answers a
    detail request with the questions asked for. *)
Definition paper_server : list event -> request -> option json :=
  fun _ r =>
    if url r =? "/tk/getError" then
      match params r with
      | [(_, JNum 5%Z)] =>
          Some (JObj [("data",
                  JArr [JObj [("name", JStr "Paper");
                              ("list", JArr [JObj [("name", JStr "Roll");
                                                   ("qids", JStr "1,2,3,4,5")]])]])])
      | _ => Some (JObj [("data", JArr [])])
      end
    else if url r =? "/tk/getQuestions" then
      match params r with
      | [(_, JStr ids)] =>
          match rmap int (split "," ids) with
          | Ok ns => Some (JObj [("data", JArr (map raw_question ns))])
          | Raise _ => None
          end
      | _ => None
      end
    else None.

(** A data file with the questions 1, 2 and 3 in the simulation bucket, the
    second of them already mastered. *)
Definition local_data : ErrorData.t :=
  ErrorData.mk default_meta
    [sample_question 1 "simulation";
     set_status "mastered" "2024-05-01T10:00:00" (sample_question 2 "simulation");
     sample_question 3 "simulation"]
    [] [].

Definition local_world : World :=
  mkWorld (Doc (asdict local_data)) 0 paper_server [] [].

End sync_spec.

Module builtin_spec.

(** The number a decimal numeral denotes after the digits read so far
    gave [acc]. *)
Fixpoint decimal_value (d : Decimal.uint) (acc : Z) : Z :=
  match d with
  | Decimal.Nil => acc
  | Decimal.D0 d => decimal_value d (10 * acc)%Z
  | Decimal.D1 d => decimal_value d (10 * acc + 1)%Z
  | Decimal.D2 d => decimal_value d (10 * acc + 2)%Z
  | Decimal.D3 d => decimal_value d (10 * acc + 3)%Z
  | Decimal.D4 d => decimal_value d (10 * acc + 4)%Z
  | Decimal.D5 d => decimal_value d (10 * acc + 5)%Z
  | Decimal.D6 d => decimal_value d (10 * acc + 6)%Z
  | Decimal.D7 d => decimal_value d (10 * acc + 7)%Z
  | Decimal.D8 d => decimal_value d (10 * acc + 8)%Z
  | Decimal.D9 d => decimal_value d (10 * acc + 9)%Z
  end.

(** A text without white space, and a text without a comma. *)
Definition no_space (s : string) : bool :=
  all_chars (fun c => negb (isspace c)) s.

Definition no_comma (s : string) : bool :=
  all_chars (fun c => negb (Ascii.eqb c ",")) s.

End builtin_spec.

Module normaliser_spec.

Import scraper scraper_spec.

(** The entry of one of the keys [a] to [d]: nothing when the raw question
    has no value under the key or a value that counts as false. *)
Definition option_entry (m : pydict) (key : string) : list json :=
  let v := dict_get_or m key JNull in
  if truthy v then [JObj [("label", JStr (upper key)); ("content", v)]] else [].

Definition option_entries (m : pydict) : list json :=
  flat_map (option_entry m) ["a"; "b"; "c"; "d"].

(** The answer decoded from the [correct] field. *)
Definition decoded_answer (m : pydict) : list json :=
  let field := correct_field m in
  if field =? "" then []
  else if isdigit field then map JStr (digit_labels field)
  else map JStr (comma_labels field).

(** The [correct] text passes the test [isdigit] and holds a digit that
    [int] rejects. *)
Definition undecodable (m : pydict) : bool :=
  isdigit (correct_field m) && negb (isdecimal (correct_field m)).

(** The text that the normaliser puts in upper case has its capitals below
    256. *)
Definition capitals_in_range (q : json) : bool :=
  match q with
  | JObj m => upper_closed (correct_field m)
  | _ => true
  end.

(** The question made from the raw dict [m]. *)
Definition normalized (m : pydict) (source : string) (origin_name sub_name : json) : pydict :=
  normalized_with (dict_get_or m "id" JNull) origin_name sub_name
    (dict_get_or m "type" (JNum 0)) (dict_get_or m "title" (JStr ""))
    (option_entries m) (decoded_answer m)
    (dict_get_or m "explain" (JStr "")) source.

End normaliser_spec.

Module effects_spec.

(** The world [w'] comes from [w] by requests, pauses and console lines
    alone: the data file is as it was, and every new event satisfies [E]. *)
Definition extends (E : event -> Prop) (w w' : World) : Prop :=
  disk w' = disk w /\
  writes w' = writes w /\
  server w' = server w /\
  (exists new, trace w' = (trace w ++ new)%list /\ Forall E new) /\
  (exists out, stdout w' = (stdout w ++ out)%list).

(** The computation [c] uses the network and the console only, emits only
    events that satisfy [E], and, when it returns, returns a value that
    satisfies [R]. *)
Definition network_only {A} (E : event -> Prop) (R : A -> Prop) (c : M A) : Prop :=
  forall w,
    extends E w (snd (c w)) /\
    match fst (c w) with
    | Ok a => R a
    | Raise _ => True
    end.

Definition anything {A} : A -> Prop := fun _ => True.

End effects_spec.

Module walker_spec.

Import scraper scraper_spec normaliser_spec effects_spec.

(** The ids a detail request asks for: its [qids] text, read the way the
    walkers read the [qids] text of a roll. *)
Definition asked_ids (r : request) : result (list Z) :=
  parse_qids (dict_get_or (params r) "qids" JNull).

(** A detail request asks for integers that are not members of
    [existing]; other requests and pauses are free. *)
Definition asks_outside (existing : int_set) (e : event) : Prop :=
  match e with
  | Request r =>
      url r = "/tk/getQuestions" ->
      exists c,
        asked_ids r = Ok c /\ Forall (fun n => set_mem n existing = false) c
  | Sleep => True
  end.

(** An integer id outside the set [s], as a JSON value. *)
Definition new_id (s : int_set) (q : json) : Prop :=
  exists n, q = JNum n /\ set_mem n s = false.

Definition option_shaped (j : json) : Prop :=
  exists label content, j = JObj [("label", JStr label); ("content", content)].

(** A question as the walkers return it: the twelve keys, the status
    [new], no review date, the tag of the walker as source. *)
Definition synced_question (source : string) (j : json) : Prop :=
  exists id origin_name sub_name type content options answer analysis comments,
    j = JObj [("id", id);
              ("origin_name", origin_name);
              ("sub_name", sub_name);
              ("type", type);
              ("content", content);
              ("options", JArr options);
              ("answer", JArr answer);
              ("analysis", analysis);
              ("user_status", JStr "new");
              ("last_reviewed", JNull);
              ("comments", JArr comments);
              ("source", JStr source)] /\
    Forall option_shaped options.

(** The dict [fetch_all_errors] returns: the meta object with the time of
    the call, and in each bucket questions tagged with that bucket. *)
Definition synced_dict (last_sync : string) (d : pydict) : Prop :=
  exists simulation real famous,
    d = [("meta", JObj [("last_sync", JStr last_sync); ("version", JStr "1.0")]);
         ("simulation", JArr simulation);
         ("real", JArr real);
         ("famous", JArr famous)] /\
    Forall (synced_question "simulation") simulation /\
    Forall (synced_question "real") real /\
    Forall (synced_question "famous") famous.

(** A loaded question that was never reviewed and carries the tag
    [source]. *)
Definition fresh_question (source : string) (q : data_manager.Question.t) : Prop :=
  data_manager.Question.user_status q = JStr "new" /\
  data_manager.Question.last_reviewed q = JNull /\
  data_manager.Question.source q = JStr source.

(** A server whose roll lists an id that is not a number. *)
Definition garbled_server : list event -> request -> option json :=
  fun _ r =>
    if url r =? "/tk/getError" then
      Some (JObj [("data",
              JArr [JObj [("name", JStr "Paper");
                          ("list", JArr [JObj [("name", JStr "Roll");
                                               ("qids", JStr "1,x")]])]])])
    else None.

Definition garbled_world : World :=
  mkWorld (Doc (data_manager.asdict store_spec.sample_data)) 0 garbled_server [] [].

End walker_spec.

Module options_spec.

Import scraper interactive_cli.

(** A process with the default options and no token. *)
Definition default_process : Process :=
  mkProcess scraper_spec.default_config None None "Bearer ".

(** Whether a line typed at the comments prompt means yes. *)
Definition means_yes (line : string) : bool :=
  existsb (String.eqb (lower (strip line))) ["y"; "yes"; "1"].

(** The name [_parse_sources] maps one piece of its argument to. *)
Definition piece_source (piece : string) : option string :=
  mapping_get (lower (strip piece)).

End options_spec.

Module existing_spec.

Import scraper data_manager.

(** The set [s] holds exactly the ids of the questions [qs] that are
    integers (or booleans, which count as 0 and 1). *)
Definition holds_ids_of (s : int_set) (qs : list Question.t) : Prop :=
  forall n, set_mem n s = true <->
            exists q, In q qs /\ as_int (Question.id q) = Some n.

(** A file with an id that is a text, and an id that is a boolean. *)
Definition mixed_ids_data : ErrorData.t :=
  ErrorData.mk default_meta
    [store_spec.sample_question 1 "simulation";
     Question.mk (JStr "7") (JStr "Paper") (JStr "") (JStr "text") []
       (JArr []) (JStr "") (JArr []) (JNum 0) (JStr "new") JNull JNull;
     store_spec.sample_question 4 "simulation"]
    [Question.mk (JBool true) (JStr "Exam") (JStr "") (JStr "text") []
       (JArr []) (JStr "") (JArr []) (JNum 0) (JStr "new") JNull JNull]
    [].

Definition mixed_ids_world : World :=
  mkWorld (Doc (asdict mixed_ids_data)) 0 offline [] [].

End existing_spec.

Module comments_spec.

Import scraper.

(** The request for the first page of the comments of a question. *)
Definition comments_request (question_id : json) : request :=
  mkRequest "/note/getAll" [("qid", question_id); ("page", JNum 1)] "v1".

(** The world after one more request. *)
Definition requested (r : request) (w : World) : World :=
  mkWorld (disk w) (writes w) (server w) (trace w ++ [Request r])%list (stdout w).

Definition is_dict (j : json) : bool :=
  match j with
  | JObj _ => true
  | _ => false
  end.

(** The [content] of each comment that has one, in order. *)
Definition comment_contents (items : list json) : list json :=
  flat_map (fun comment =>
              match comment with
              | JObj cm =>
                  match dict_get cm "content" with
                  | Some v => [v]
                  | None => []
                  end
              | _ => []
              end) items.

(** A server with three comments, the second without content. *)
Definition comment_server : list event -> request -> option json :=
  fun _ r =>
    if url r =? "/note/getAll" then
      Some (JObj [("data",
              JArr [JObj [("id", JNum 1); ("content", JStr "first")];
                    JObj [("id", JNum 2)];
                    JObj [("content", JStr "third"); ("id", JNum 3)]])])
    else None.

Definition comment_world : World := mkWorld Absent 0 comment_server [] [].

End comments_spec.

Module listing_spec.

Import data_manager interactive_cli.

(** A question without a source, or with the name [bucket] as source. *)
Definition untagged_or (bucket : string) (q : Question.t) : Prop :=
  truthy (Question.source q) = false \/ Question.source q = JStr bucket.

Definition status_is_text (q : Question.t) : bool :=
  match Question.user_status q with
  | JStr _ => true
  | _ => false
  end.

(** The status of [q] is [status], whatever the case of its letters. *)
Definition has_status (status : string) (q : Question.t) : bool :=
  match Question.user_status q with
  | JStr s => lower s =? status
  | _ => false
  end.

(** A legacy file: no question carries a source. *)
Definition legacy_question (n : Z) (status : json) : Question.t :=
  Question.mk (JNum n) (JStr "Paper") (JStr "") (JStr "text") []
    (JArr []) (JStr "") (JArr []) (JNum 0) status JNull JNull.

Definition legacy_data : ErrorData.t :=
  ErrorData.mk default_meta
    [legacy_question 1 (JStr "new"); legacy_question 2 (JStr "Mastered")]
    [legacy_question 3 (JStr "reviewing")]
    [legacy_question 4 (JStr "MASTERED")].

End listing_spec.

Module outage_spec.

(** The document of a sync that fetched nothing. *)
Definition empty_dataset_file (last_sync : string) : json :=
  JObj [("meta", JObj [("last_sync", JStr last_sync); ("version", JStr "1.0")]);
        ("simulation", JArr []);
        ("real", JArr []);
        ("famous", JArr [])].

(** The server of a world never answers. *)
Definition unreachable (w : World) : Prop :=
  forall h r, server w h r = None.

(** The sample file of three questions, with a server that never answers. *)
Definition cut_off_world : World := store_spec.sample_world.

(** A file whose only record has no [answer] key, although its id is 9. *)
Definition lone_broken_file : pydict :=
  [("meta", data_manager.default_meta);
   ("simulation", JArr [store_spec.broken_record]);
   ("real", JArr []);
   ("famous", JArr [])].

Definition lone_broken_world : World :=
  mkWorld (Doc (JObj lone_broken_file)) 0 offline [] [].

(** A walker step that meets an unreachable server returns no question
    and leaves the server unreachable, the file untouched. *)
Definition fetches_nothing (c : M (list json)) : Prop :=
  forall w, unreachable w ->
    exists w', c w = (Ok [], w') /\
      unreachable w' /\ disk w' = disk w /\ writes w' = writes w.

End outage_spec.
(** * Properties *)

(** ** Generic facts about the result monad and the world *)

Section ResultFacts.

Context {A B : Type}.

Lemma rmap_map_inverse (f : B -> result A) (g : A -> B) (l : list A) :
  (forall x, f (g x) = Ok x) -> rmap f (map g l) = Ok l.
Proof.
  intros Hfg. induction l as [|x l IH]; simpl.
  - reflexivity.
  - rewrite Hfg. simpl. rewrite IH. reflexivity.
Qed.

Lemma rmap_raises (f : A -> result B) (l : list A) (x : A) (e : exn) :
  In x l -> f x = Raise e -> exists e', rmap f l = Raise e'.
Proof.
  induction l as [|y l IH]; simpl; intros Hin Hx.
  - contradiction.
  - destruct (f y) as [b|e1] eqn:Hy; simpl.
    + destruct Hin as [->|Hin].
      * congruence.
      * destruct (IH Hin Hx) as [e' ->]. simpl. eauto.
    + eauto.
Qed.

End ResultFacts.

(** ** The store *)

Section StoreFacts.

Import data_manager store_spec.

(** What [load_data] does, case by case on the state of the file. *)
Lemma load_data_cases (w : World) :
  load_data w =
  match disk w with
  | Absent => (Ok empty_data, w)
  | Corrupt => (Ok empty_data, printed (LoadError JSONDecodeError) w)
  | Doc j =>
      match parse_data j with
      | Ok d => (Ok d, w)
      | Raise e => (Ok empty_data, printed (LoadError e) w)
      end
  end.
Proof.
  unfold load_data, mbind, path_exists, try_except, json_load, lift, ret, print.
  unfold printed.
  destruct (disk w) as [| |j] eqn:Hd; simpl; rewrite ?Hd; reflexivity.
Qed.

(** [load_data] always returns a dataset, and touches nothing but the
    console. *)
Lemma load_data_total (w : World) :
  exists d w', load_data w = (Ok d, w') /\
    disk w' = disk w /\ writes w' = writes w /\
    server w' = server w /\ trace w' = trace w.
Proof.
  rewrite load_data_cases.
  destruct (disk w) as [| |j] eqn:Hd; [| |destruct (parse_data j)];
    eexists; eexists; (split; [reflexivity|]); simpl; repeat split; auto.
Qed.

Lemma Option_roundtrip (o : Option.t) :
  Option_of_kwargs (asdict_Option o) = Ok o.
Proof. destruct o; reflexivity. Qed.

Lemma parse_question_roundtrip (q : Question.t) :
  parse_question (asdict_Question q) = Ok q.
Proof.
  destruct q. unfold parse_question, asdict_Question. simpl.
  rewrite (rmap_map_inverse _ _ _ Option_roundtrip). reflexivity.
Qed.

Lemma parse_questions_roundtrip (l : list Question.t) :
  parse_questions (JArr (map asdict_Question l)) = Ok l.
Proof.
  unfold parse_questions. simpl.
  apply rmap_map_inverse, parse_question_roundtrip.
Qed.

(** Reading back what [save_data] wrote gives the dataset that was saved. *)
Lemma parse_data_asdict (d : ErrorData.t) :
  parse_data (asdict d) = Ok d.
Proof.
  destruct d. unfold parse_data, asdict. cbn -[parse_questions].
  rewrite !parse_questions_roundtrip. reflexivity.
Qed.

Lemma load_data_written (d : ErrorData.t) (w : World) :
  load_data (written (asdict d) w) = (Ok d, written (asdict d) w).
Proof.
  rewrite load_data_cases. simpl. rewrite parse_data_asdict. reflexivity.
Qed.

Lemma lacks_id_app (qid : Z) (a b : list Question.t) :
  lacks_id qid (a ++ b) = lacks_id qid a && lacks_id qid b.
Proof. apply forallb_app. Qed.

Lemma lacks_id_cons (qid : Z) (q : Question.t) (l : list Question.t) :
  lacks_id qid (q :: l) = negb (has_id qid q) && lacks_id qid l.
Proof. reflexivity. Qed.

Lemma scan_category_none (qid : Z) (st ts : string) (l : list Question.t) :
  lacks_id qid l = true ->
  scan_category qid st ts l = (false, l).
Proof.
  induction l as [|q l IH]; simpl; intros H.
  - reflexivity.
  - apply andb_prop in H. destruct H as [Hq Hl]. unfold has_id in Hq.
    destruct (eq_int (Question.id q) qid); [discriminate|].
    rewrite (IH Hl). reflexivity.
Qed.

Lemma scan_category_first (qid : Z) (st ts : string)
    (pre : list Question.t) (q : Question.t) (post : list Question.t) :
  lacks_id qid pre = true ->
  has_id qid q = true ->
  scan_category qid st ts (pre ++ q :: post) =
    (true, (pre ++ set_status st ts q :: post)%list).
Proof.
  induction pre as [|p pre IH]; simpl; intros Hpre Hq.
  - unfold has_id in Hq. rewrite Hq. reflexivity.
  - apply andb_prop in Hpre. destruct Hpre as [Hp Hpre]. unfold has_id in Hp.
    destruct (eq_int (Question.id p) qid); [discriminate|].
    rewrite (IH Hpre Hq). reflexivity.
Qed.

(** A list either has no question with the id, or splits at the first one. *)
Lemma first_match (qid : Z) (l : list Question.t) :
  lacks_id qid l = true \/
  exists pre q post,
    l = (pre ++ q :: post)%list /\
    lacks_id qid pre = true /\
    has_id qid q = true.
Proof.
  induction l as [|p l IH].
  - left. reflexivity.
  - rewrite lacks_id_cons. destruct (has_id qid p) eqn:Hp; simpl.
    + right. exists [], p, l. auto.
    + destruct IH as [IH|(pre & q & post & -> & Hpre & Hq)].
      * left. exact IH.
      * right. exists (p :: pre), q, post.
        rewrite lacks_id_cons, Hp. auto.
Qed.

Lemma scan_category_length (qid : Z) (st ts : string) (l : list Question.t) :
  List.length (snd (scan_category qid st ts l)) = List.length l.
Proof.
  induction l as [|q l IH]; simpl.
  - reflexivity.
  - destruct (eq_int (Question.id q) qid); simpl.
    + reflexivity.
    + destruct (scan_category qid st ts l). simpl in *. congruence.
Qed.


(** The scan assigns to the first question with the id, in the order
    simulation, real, famous, and to no other. *)
Lemma scan_data_first (qid : Z) (st ts : string) (d : ErrorData.t)
    (pre : list Question.t) (q : Question.t) (post : list Question.t) :
  all_questions d = (pre ++ q :: post)%list ->
  lacks_id qid pre = true ->
  has_id qid q = true ->
  exists d',
    scan_data qid st ts d = (true, d') /\
    all_questions d' = (pre ++ set_status st ts q :: post)%list /\
    same_layout d d'.
Proof.
  intros Hall Hpre Hq.
  assert (Hscan : scan_category qid st ts (all_questions d) =
                  (true, (pre ++ set_status st ts q :: post)%list)).
  { rewrite Hall. apply scan_category_first; assumption. }
  clear Hall Hpre Hq. revert Hscan.
  generalize (pre ++ set_status st ts q :: post)%list as res. intros res.
  destruct d as [meta sim real fam]. unfold all_questions, scan_data, same_layout.
  simpl.
  destruct (first_match qid sim) as [Hs|(p1 & q1 & r1 & -> & Hp1 & Hq1)].
  - rewrite (scan_category_none _ _ _ _ Hs).
    destruct (first_match qid real) as [Hr|(p2 & q2 & r2 & -> & Hp2 & Hq2)].
    + rewrite (scan_category_none _ _ _ _ Hr).
      destruct (first_match qid fam) as [Hf|(p3 & q3 & r3 & -> & Hp3 & Hq3)].
      * rewrite scan_category_none; [discriminate|].
        rewrite !lacks_id_app, Hs, Hr, Hf. reflexivity.
      * rewrite (scan_category_first _ _ _ _ _ _ Hp3 Hq3).
        rewrite !app_assoc, scan_category_first;
          [|rewrite !lacks_id_app, Hs, Hr, Hp3; reflexivity|exact Hq3].
        intros [= <-]. eexists. split; [reflexivity|]. simpl.
        rewrite <- !app_assoc. split; [reflexivity|].
        rewrite !length_app. simpl. auto.
    + rewrite (scan_category_first _ _ _ _ _ _ Hp2 Hq2).
      rewrite <- app_assoc. simpl.
      rewrite app_assoc, scan_category_first;
        [|rewrite !lacks_id_app, Hs, Hp2; reflexivity|exact Hq2].
      intros [= <-]. eexists. split; [reflexivity|]. simpl.
      rewrite <- !app_assoc. simpl. split; [reflexivity|].
      rewrite !length_app. simpl. auto.
  - rewrite (scan_category_first _ _ _ _ _ _ Hp1 Hq1).
    rewrite <- app_assoc. simpl.
    rewrite (scan_category_first _ _ _ _ _ _ Hp1 Hq1).
    intros [= <-]. eexists. split; [reflexivity|]. simpl.
    rewrite <- !app_assoc. simpl. split; [reflexivity|].
    rewrite !length_app. simpl. auto.
Qed.

(** [update_question_status] in terms of the loaded dataset. *)
Lemma update_question_status_run (qid : Z) (st ts : string) (w wl : World)
    (d : ErrorData.t) :
  load_data w = (Ok d, wl) ->
  update_question_status qid st ts w =
  match scan_data qid st ts d with
  | (true, d') => (Ok true, written (asdict d') wl)
  | (false, _) => (Ok false, wl)
  end.
Proof.
  intros Hload. unfold update_question_status, mbind. rewrite Hload.
  destruct (scan_data qid st ts d) as [[|] d']; reflexivity.
Qed.


Lemma has_id_set_status (qid : Z) (st ts : string) (q : Question.t) :
  has_id qid (set_status st ts q) = has_id qid q.
Proof. reflexivity. Qed.

Lemma same_but_status_set_status (st ts : string) (q : Question.t) :
  same_but_status q (set_status st ts q).
Proof. unfold same_but_status. simpl. repeat split. Qed.

Lemma present_first_match (qid : Z) (l : list Question.t) :
  existsb (has_id qid) l = true ->
  exists pre q post,
    l = (pre ++ q :: post)%list /\ lacks_id qid pre = true /\ has_id qid q = true.
Proof.
  intros Hex. destruct (first_match qid l) as [Hnone|H]; [|exact H].
  exfalso. apply existsb_exists in Hex. destruct Hex as (q & Hin & Hq).
  unfold lacks_id in Hnone. rewrite forallb_forall in Hnone.
  specialize (Hnone q Hin). rewrite Hq in Hnone. discriminate.
Qed.



(** C9: when the id is present, the dataset that [update_question_status]
    saves differs from the dataset it loaded in one question only: the
    question [q] that has the id and that no question with the id precedes
    in scan order.  That question keeps every field other than
    [user_status] and [last_reviewed]; the meta object, the size of each
    bucket and every other question, at its place, are the same. *)
Theorem update_question_status_frame :
  forall (qid : Z) (st ts : string) (w wl : World) (d : ErrorData.t),
    load_data w = (Ok d, wl) ->
    existsb (has_id qid) (all_questions d) = true ->
    exists d' pre q q' post,
      snd (update_question_status qid st ts w) = written (asdict d') wl /\
      same_layout d d' /\
      all_questions d = (pre ++ q :: post)%list /\
      lacks_id qid pre = true /\
      has_id qid q = true /\
      all_questions d' = (pre ++ q' :: post)%list /\
      same_but_status q q'.
Proof.
  intros qid st ts w wl d Hload Hex.
  destruct (present_first_match _ _ Hex) as (pre & q & post & Hall & Hpre & Hq).
  destruct (scan_data_first qid st ts d pre q post Hall Hpre Hq)
    as (d' & Hscan & Hall' & Hlay).
  exists d', pre, q, (set_status st ts q), post.
  rewrite (update_question_status_run _ _ _ _ _ _ Hload), Hscan.
  split; [reflexivity|]. split; [exact Hlay|]. split; [exact Hall|].
  split; [exact Hpre|]. split; [exact Hq|]. split; [exact Hall'|].
  apply same_but_status_set_status.
Qed.

Lemma update_question_status_frame_witness :
  exists d' pre q q' post,
    snd (update_question_status 3 "reviewing" "2024-05-01T10:00:00" sample_world) =
      written (asdict d') sample_world /\
    same_layout sample_data d' /\
    all_questions sample_data = (pre ++ q :: post)%list /\
    lacks_id 3 pre = true /\
    has_id 3 q = true /\
    all_questions d' = (pre ++ q' :: post)%list /\
    same_but_status q q'.
Proof.
  apply (update_question_status_frame 3 "reviewing" "2024-05-01T10:00:00"
           sample_world sample_world sample_data); reflexivity.
Defined.



(** C5, as amended: [load_data] never raises.  On a missing file it returns
    the dataset with the default meta and no question and prints nothing;
    on a file that is not JSON, or whose document the parser rejects, it
    returns the same dataset and prints one line with the error. *)
Theorem load_data_missing_or_unparseable :
  forall w : World,
    (exists d w', load_data w = (Ok d, w')) /\
    (disk w = Absent -> load_data w = (Ok empty_data, w)) /\
    (disk w = Corrupt ->
       load_data w = (Ok empty_data, printed (LoadError JSONDecodeError) w)) /\
    (forall j e, disk w = Doc j -> parse_data j = Raise e ->
       load_data w = (Ok empty_data, printed (LoadError e) w)) /\
    ErrorData.meta empty_data = JObj [("last_sync", JNull); ("version", JStr "1.0")] /\
    all_questions empty_data = [].
Proof.
  intros w. split; [|repeat split].
  - destruct (load_data_total w) as (d & w' & H & _). eauto.
  - intros H. rewrite load_data_cases, H. reflexivity.
  - intros H. rewrite load_data_cases, H. reflexivity.
  - intros j e H He. rewrite load_data_cases, H, He. reflexivity.
Qed.

Lemma load_data_missing_or_unparseable_witness :
  load_data missing_world = (Ok empty_data, missing_world) /\
  load_data corrupt_world =
    (Ok empty_data, printed (LoadError JSONDecodeError) corrupt_world) /\
  load_data broken_world =
    (Ok empty_data, printed (LoadError (KeyError "answer")) broken_world).
Proof.
  pose proof (load_data_missing_or_unparseable missing_world) as (_ & Ha & _).
  pose proof (load_data_missing_or_unparseable corrupt_world) as (_ & _ & Hc & _).
  pose proof (load_data_missing_or_unparseable broken_world) as (_ & _ & _ & Hb & _).
  split; [apply Ha; reflexivity|].
  split; [apply Hc; reflexivity|].
  apply (Hb (JObj broken_file)); reflexivity.
Defined.

(** C5 as stated fails on a missing file: the dataset is the default one,
    but no error line is printed. *)
Lemma load_data_missing_prints_nothing :
  ~ always_logs missing_world.
Proof.
  unfold always_logs. intros H.
  destruct (H (or_introl eq_refl)) as (_ & e & He).
  vm_compute in He. discriminate.
Qed.

Lemma missing_key_rejected (q : json) :
  missing_required_key q = true -> exists e, parse_question q = Raise e.
Proof.
  destruct q as [| | | | |m]; try discriminate. intros H.
  destruct (parse_question (JObj m)) as [qq|e] eqn:Hp; [exfalso|eauto].
  revert H Hp.
  unfold missing_required_key, required_keys, parse_question, getitem.
  cbn [existsb].
  destruct (dict_get m "id"); cbn [rbind]; [|discriminate].
  destruct (dict_get m "origin_name"); cbn [rbind]; [|discriminate].
  destruct (dict_get m "sub_name"); cbn [rbind]; [|discriminate].
  destruct (dict_get m "content"); cbn [rbind]; [|discriminate].
  destruct (dict_get m "options") as [o|]; cbn [rbind]; [|discriminate].
  destruct (iter o) as [items|]; cbn [rbind]; [|discriminate].
  destruct (rmap Option_of_kwargs items); cbn [rbind]; [|discriminate].
  destruct (dict_get m "answer"); cbn [rbind]; [|discriminate].
  destruct (dict_get m "analysis"); cbn [rbind]; [|discriminate].
  discriminate.
Qed.

(** C10: when a record of one of the three buckets of a parseable file is
    malformed, in particular when it lacks one of the keys [id],
    [origin_name], [sub_name], [content], [options], [answer] and
    [analysis], [load_data] returns the default dataset, without any of the
    records of the file, and prints the error. *)
Theorem load_data_one_malformed_record :
  forall (w : World) (top : pydict) (bucket : string) (qs : list json) (q : json),
    disk w = Doc (JObj top) ->
    In bucket buckets ->
    dict_get top bucket = Some (JArr qs) ->
    In q qs ->
    (missing_required_key q = true \/ exists e, parse_question q = Raise e) ->
    exists e, load_data w = (Ok empty_data, printed (LoadError e) w).
Proof.
  intros w top bucket qs q Hdisk Hb Hget Hin Hbad.
  assert (Hq : exists e, parse_question q = Raise e).
  { destruct Hbad as [H|H]; [apply missing_key_rejected, H|exact H]. }
  destruct Hq as [e He].
  destruct (rmap_raises parse_question qs q e Hin He) as [e' He'].
  assert (Hp : exists e0, parse_data (JObj top) = Raise e0).
  { unfold parse_data, get, dict_get_or, parse_questions.
    cbn [rbind].
    destruct Hb as [<-|[<-|[<-|[]]]]; rewrite Hget; cbn [iter rbind]; rewrite He';
      cbn [rbind].
    - eauto.
    - destruct (let* qs0 := iter _ in rmap parse_question qs0); cbn [rbind]; eauto.
    - destruct (let* qs0 := iter _ in rmap parse_question qs0); cbn [rbind]; eauto.
      destruct (let* qs0 := iter _ in rmap parse_question qs0); cbn [rbind]; eauto. }
  destruct Hp as [e0 He0]. exists e0.
  rewrite load_data_cases, Hdisk, He0. reflexivity.
Qed.

Lemma load_data_one_malformed_record_witness :
  exists e, load_data broken_world = (Ok empty_data, printed (LoadError e) broken_world).
Proof.
  apply (load_data_one_malformed_record broken_world broken_file "simulation"
           [asdict_Question (sample_question 1 "simulation"); broken_record]
           broken_record).
  - reflexivity.
  - left. reflexivity.
  - reflexivity.
  - right. left. reflexivity.
  - left. reflexivity.
Defined.

End StoreFacts.

(** ** The normaliser *)

Section NormaliserFacts.

Import scraper scraper_spec.

Lemma int_of_digit (c : ascii) (d : Z) :
  digit_val c = Some d -> int (String c EmptyString) = Ok d.
Proof.
  destruct c as [b0 b1 b2 b3 b4 b5 b6 b7].
  destruct b0, b1, b2, b3, b4, b5, b6, b7; vm_compute;
    intros H; try discriminate H; injection H as <-; reflexivity.
Qed.

Lemma digit_val_of_digit (c : ascii) :
  isdecimal_char c = true -> exists d, digit_val c = Some d /\ (0 <= d <= 9)%Z.
Proof.
  destruct c as [b0 b1 b2 b3 b4 b5 b6 b7].
  destruct b0, b1, b2, b3, b4, b5, b6, b7; vm_compute;
    intros H; try discriminate H; eexists; (split; [reflexivity|]);
    split; discriminate.
Qed.

(** A digit that is not decimal is not an integer literal. *)
Lemma int_of_superscript (c : ascii) :
  isdigit_char c = true -> isdecimal_char c = false ->
  int (String c EmptyString) = Raise ValueError.
Proof.
  destruct c as [b0 b1 b2 b3 b4 b5 b6 b7].
  destruct b0, b1, b2, b3, b4, b5, b6, b7; vm_compute;
    intros H1 H2; first [discriminate H1|discriminate H2|reflexivity].
Qed.

Lemma isdigit_all (s : string) : isdigit s = true -> all_chars isdigit_char s = true.
Proof. destruct s; [discriminate|trivial]. Qed.

Lemma isdecimal_all (s : string) :
  s <> "" -> isdecimal s = all_chars isdecimal_char s.
Proof. destruct s; [congruence|reflexivity]. Qed.

Section Shape.

Variables (id origin_name sub_name type content analysis : json).
Variable source : string.

Let shape := normalized_with id origin_name sub_name type content.

(** The loop over the keys [a] to [d] only extends [options]. *)
Lemma add_options_shape (m : pydict) (keys : list string)
    (options answer : list json) :
  exists options',
    add_options (JObj m) keys (shape options answer analysis source) =
      Ok (shape options' answer analysis source).
Proof.
  revert options. induction keys as [|key keys IH]; intros options; simpl.
  - eauto.
  - unfold dict_get_or. destruct (dict_get m key) as [v|] eqn:Hv.
    + destruct (truthy v); simpl; [|apply IH]. apply IH.
    + simpl. apply IH.
Qed.

(** The loop over the digits appends the label of each digit from 1 to 4. *)
Lemma decode_digits_shape (field : string) (options answer : list json) :
  all_chars isdecimal_char field = true ->
  decode_digits (chars field) (shape options answer analysis source) =
    Ok (shape options (answer ++ map JStr (digit_labels field))%list analysis source).
Proof.
  revert answer. induction field as [|c field IH]; intros answer Hall.
  - unfold digit_labels. simpl. rewrite app_nil_r. reflexivity.
  - simpl in Hall. apply andb_prop in Hall. destruct Hall as [Hc Hall].
    destruct (digit_val_of_digit c Hc) as (d & Hd & Hrange).
    cbn [chars decode_digits]. rewrite (int_of_digit c d Hd). cbn [rbind].
    unfold digit_labels. cbn [chars flat_map]. unfold label_of_digit at 1.
    rewrite Hd. fold (digit_labels field).
    replace ((0 <=? d - 1) && (d - 1 <? Z.of_nat (List.length labels)))%Z
      with ((1 <=? d) && (d <=? 4))%Z
      by (cbn [labels List.length Z.of_nat Pos.of_succ_nat Pos.succ];
          destruct (Z.leb_spec 1 d), (Z.leb_spec d 4), (Z.leb_spec 0 (d - 1)),
            (Z.ltb_spec (d - 1) 4); simpl; try reflexivity; lia).
    destruct ((1 <=? d) && (d <=? 4))%Z.
    + change (dict_append (shape options answer analysis source) "answer"
                (JStr (nth (Z.to_nat (d - 1)) labels "")))
        with (shape options (answer ++ [JStr (nth (Z.to_nat (d - 1)) labels "")])%list
                analysis source).
      rewrite (IH _ Hall), <- app_assoc. reflexivity.
    + apply (IH _ Hall).
Qed.

(** The loop stops with [ValueError] at the first digit that is not
    decimal. *)
Lemma decode_digits_raises (field : string) (options answer : list json) :
  all_chars isdigit_char field = true ->
  all_chars isdecimal_char field = false ->
  decode_digits (chars field) (shape options answer analysis source) =
    Raise ValueError.
Proof.
  revert answer. induction field as [|c field IH]; intros answer Hdig Hdec.
  - discriminate Hdec.
  - simpl in Hdig. apply andb_prop in Hdig. destruct Hdig as [Hc Hdig].
    simpl in Hdec. cbn [chars decode_digits].
    destruct (isdecimal_char c) eqn:Hcd.
    + destruct (digit_val_of_digit c Hcd) as (d & Hd & _).
      rewrite (int_of_digit c d Hd). cbn [rbind].
      destruct ((0 <=? d - 1) && (d - 1 <? Z.of_nat (List.length labels)))%Z.
      * change (dict_append (shape options answer analysis source) "answer"
                  (JStr (nth (Z.to_nat (d - 1)) labels "")))
          with (shape options (answer ++ [JStr (nth (Z.to_nat (d - 1)) labels "")])%list
                  analysis source).
        apply IH; assumption.
      * apply IH; assumption.
    + rewrite (int_of_superscript c Hc Hcd). reflexivity.
Qed.

End Shape.

(** A dict with at least one key is normalised in three steps: the fixed
    fields, the options, the answer. *)
Lemma normalize_nonempty (m : pydict) (source : string) (origin_name sub_name : json) :
  m <> [] ->
  exists options,
    let base answer :=
      normalized_with (dict_get_or m "id" JNull) origin_name sub_name
        (dict_get_or m "type" (JNum 0)) (dict_get_or m "title" (JStr ""))
        options answer (dict_get_or m "explain" (JStr "")) source in
    _normalize_question (JObj m) source origin_name sub_name =
      let field := correct_field m in
      if field =? "" then Ok (Some (base []))
      else if isdigit field then
        if isdecimal field then Ok (Some (base (map JStr (digit_labels field))))
        else Raise ValueError
      else Ok (Some (base (map JStr (comma_labels field)))).
Proof.
  intros Hm. unfold _normalize_question.
  assert (Ht : truthy (JObj m) = true) by (destruct m; [congruence|reflexivity]).
  rewrite Ht. cbn [negb get rbind].
  destruct (add_options_shape (dict_get_or m "id" JNull) origin_name sub_name
              (dict_get_or m "type" (JNum 0)) (dict_get_or m "title" (JStr ""))
              (dict_get_or m "explain" (JStr "")) source m ["a"; "b"; "c"; "d"] [] [])
    as [options Hopt].
  exists options. cbn zeta.
  change (add_options (JObj m) ["a"; "b"; "c"; "d"] _) with
    (add_options (JObj m) ["a"; "b"; "c"; "d"]
       (normalized_with (dict_get_or m "id" JNull) origin_name sub_name
          (dict_get_or m "type" (JNum 0)) (dict_get_or m "title" (JStr ""))
          [] [] (dict_get_or m "explain" (JStr "")) source)).
  rewrite Hopt. cbn [rbind]. fold (correct_field m).
  destruct (correct_field m =? "") eqn:Hempty; cbn [negb].
  - reflexivity.
  - assert (Hne : correct_field m <> "") by (apply String.eqb_neq, Hempty).
    destruct (isdigit (correct_field m)) eqn:Hdig.
    + rewrite (isdecimal_all _ Hne).
      destruct (all_chars isdecimal_char (correct_field m)) eqn:Hdec.
      * rewrite (decode_digits_shape _ _ _ _ _ _ _ _ _ _ Hdec). reflexivity.
      * rewrite (decode_digits_raises _ _ _ _ _ _ _ _ _ _ (isdigit_all _ Hdig) Hdec).
        reflexivity.
    + unfold comma_labels. rewrite map_map. reflexivity.
Qed.

(** C2: the text made of the superscript two passes the test
    [correct_raw.isdigit()], and the loop over its digits then raises
    [ValueError] at [int(digit)]: the normaliser returns no question, where
    the claim gives every text of digits a list of labels. *)
Theorem normalize_superscript_digit_raises :
  correct_field (raw_with_correct (JStr superscript_two)) = superscript_two /\
  isdigit superscript_two = true /\
  _normalize_question (JObj (raw_with_correct (JStr superscript_two)))
    "real" (JStr "Paper") (JStr "") = Raise ValueError.
Proof. split; [|split]; reflexivity. Qed.

(** X20: for a raw question whose [correct] field, as text and trimmed, is
    not empty and has no letter whose capital lies above 255, the answer is
    decided by the test [isdigit].  When the text is all decimal digits, the
    answer lists, in the order of the digits, the label A, B, C or D of
    each digit from 1 to 4, and nothing for any other digit.  When it is all
    digits and one of them is a superscript, the call raises [ValueError].
    Otherwise the answer lists the pieces between commas, each trimmed and
    in upper case. *)
Theorem normalize_answer_decoding :
  forall (m : pydict) (source : string) (origin_name sub_name : json),
    m <> [] ->
    correct_field m <> "" ->
    upper_closed (correct_field m) = true ->
    let r := _normalize_question (JObj m) source origin_name sub_name in
    if isdigit (correct_field m) then
      if isdecimal (correct_field m)
      then answer_of r = answer_labels (digit_labels (correct_field m))
      else r = Raise ValueError
    else answer_of r = answer_labels (comma_labels (correct_field m)).
Proof.
  intros m source origin_name sub_name Hm Hfield _.
  destruct (normalize_nonempty m source origin_name sub_name Hm) as [options Hrun].
  cbn zeta in Hrun. cbv zeta. rewrite Hrun.
  destruct (correct_field m =? "") eqn:Hempty.
  - apply String.eqb_eq in Hempty. contradiction.
  - destruct (isdigit (correct_field m)); [|reflexivity].
    destruct (isdecimal (correct_field m)); reflexivity.
Qed.

Lemma normalize_answer_decoding_witness :
  answer_of (_normalize_question (JObj (raw_with_correct (JStr "13")))
               "real" (JStr "Paper") (JStr "")) = answer_labels ["A"; "C"] /\
  answer_of (_normalize_question (JObj (raw_with_correct (JStr "b,d")))
               "real" (JStr "Paper") (JStr "")) = answer_labels ["B"; "D"] /\
  answer_of (_normalize_question (JObj (raw_with_correct (JStr "  c ,a,  ")))
               "real" (JStr "Paper") (JStr "")) = answer_labels ["C"; "A"; ""] /\
  answer_of (_normalize_question (JObj (raw_with_correct (JStr "5")))
               "real" (JStr "Paper") (JStr "")) = answer_labels [] /\
  answer_of (_normalize_question (JObj (raw_with_correct (JNum 241)))
               "real" (JStr "Paper") (JStr "")) = answer_labels ["B"; "D"; "A"] /\
  _normalize_question (JObj (raw_with_correct (JStr superscript_two)))
    "real" (JStr "Paper") (JStr "") = Raise ValueError.
Proof.
  split; [|split; [|split; [|split; [|split]]]].
  - refine (normalize_answer_decoding (raw_with_correct (JStr "13"))
              "real" (JStr "Paper") (JStr "") _ _ _);
      [discriminate|discriminate|reflexivity].
  - refine (normalize_answer_decoding (raw_with_correct (JStr "b,d"))
              "real" (JStr "Paper") (JStr "") _ _ _);
      [discriminate|discriminate|reflexivity].
  - refine (normalize_answer_decoding (raw_with_correct (JStr "  c ,a,  "))
              "real" (JStr "Paper") (JStr "") _ _ _);
      [discriminate|discriminate|reflexivity].
  - refine (normalize_answer_decoding (raw_with_correct (JStr "5"))
              "real" (JStr "Paper") (JStr "") _ _ _);
      [discriminate|discriminate|reflexivity].
  - refine (normalize_answer_decoding (raw_with_correct (JNum 241))
              "real" (JStr "Paper") (JStr "") _ _ _);
      [discriminate|discriminate|reflexivity].
  - refine (normalize_answer_decoding (raw_with_correct (JStr superscript_two))
              "real" (JStr "Paper") (JStr "") _ _ _);
      [discriminate|discriminate|reflexivity].
Defined.

(** The normaliser returns [None] exactly on a raw question that counts as
    false: [None], the empty dict, and the other empty values. *)
Lemma normalize_none_iff_empty (q : json) (source : string) (origin_name sub_name : json) :
  _normalize_question q source origin_name sub_name = Ok None <-> truthy q = false.
Proof.
  split.
  - intros Hrun. destruct (truthy q) eqn:Ht; [exfalso|reflexivity].
    destruct q as [| | | | |m];
      try (unfold _normalize_question in Hrun; rewrite Ht in Hrun; discriminate Hrun).
    assert (Hm : m <> []) by (intros ->; discriminate Ht).
    destruct (normalize_nonempty m source origin_name sub_name Hm) as [options Hn].
    cbn zeta in Hn. rewrite Hn in Hrun.
    destruct (correct_field m =? ""); [discriminate|].
    destruct (isdigit (correct_field m)); [|discriminate].
    destruct (isdecimal (correct_field m)); discriminate.
  - intros Ht. unfold _normalize_question. rewrite Ht. reflexivity.
Qed.

(** The content of a normalised question is the value under [title], and
    the empty string when the raw question has no such key. *)
Lemma normalize_content (m n : pydict) (source : string) (origin_name sub_name : json) :
  _normalize_question (JObj m) source origin_name sub_name = Ok (Some n) ->
  dict_get n "content" = Some (dict_get_or m "title" (JStr "")).
Proof.
  intros Hrun.
  assert (Hm : m <> []) by (intros ->; discriminate Hrun).
  destruct (normalize_nonempty m source origin_name sub_name Hm) as [options Hn].
  cbn zeta in Hn. rewrite Hn in Hrun.
  destruct (correct_field m =? "").
  - injection Hrun as <-. reflexivity.
  - destruct (isdigit (correct_field m)).
    + destruct (isdecimal (correct_field m)); [|discriminate Hrun].
      injection Hrun as <-. reflexivity.
    + injection Hrun as <-. reflexivity.
Qed.

(** C8: on a raw question whose title is null the normaliser returns a
    question whose content is null, where the claim asks for the empty
    string. *)
Theorem normalize_null_title_gives_null_content :
  content_of (_normalize_question raw_null_title "real" (JStr "Paper") (JStr "")) =
    Some JNull.
Proof. reflexivity. Qed.

End NormaliserFacts.

(** ** The batcher *)

Section BatcherFacts.

Import scraper scraper_spec.

Lemma for_acc_map {A B S : Type} (f : A -> B) (body : B -> S -> M S)
    (l : list A) (s : S) (w : World) :
  for_acc (map f l) body s w = for_acc l (fun x => body (f x)) s w.
Proof.
  revert s w. induction l as [|x l IH]; intros s w; simpl.
  - reflexivity.
  - unfold mbind. destruct (body (f x) s w) as [[s'|e] w']; [apply IH|reflexivity].
Qed.

Section Chunks.

Context {A : Type}.

Lemma chunks_fuel_nil (fuel n : nat) : chunks_fuel fuel n (@nil A) = [].
Proof. destruct fuel; reflexivity. Qed.

Lemma chunks_fuel_concat (n : nat) :
  0 < n -> forall fuel (l : list A),
    List.length l <= fuel -> List.concat (chunks_fuel fuel n l) = l.
Proof.
  intros Hn. induction fuel as [|fuel IH]; intros l Hlen.
  - destruct l; [reflexivity|simpl in Hlen; lia].
  - destruct l as [|x l]; [reflexivity|].
    cbn [chunks_fuel List.concat]. rewrite IH.
    + apply firstn_skipn.
    + rewrite length_skipn. cbn [List.length] in *. lia.
Qed.

Lemma chunks_fuel_bounds (n : nat) :
  0 < n -> forall fuel (l : list A),
    Forall (fun c => 1 <= List.length c <= n) (chunks_fuel fuel n l).
Proof.
  intros Hn. induction fuel as [|fuel IH]; intros l.
  - constructor.
  - destruct l as [|x l]; [constructor|].
    cbn [chunks_fuel]. constructor; [|apply IH].
    rewrite length_firstn. cbn [List.length]. lia.
Qed.

Lemma chunks_fuel_full (n : nat) :
  forall fuel (l : list A) i,
    S i < List.length (chunks_fuel fuel n l) ->
    List.length (nth i (chunks_fuel fuel n l) []) = n.
Proof.
  induction fuel as [|fuel IH]; intros l i Hi.
  - simpl in Hi. lia.
  - destruct l as [|x l]; [simpl in Hi; lia|].
    cbn [chunks_fuel] in *. cbn [List.length] in Hi.
    destruct i as [|i].
    + cbn [nth]. rewrite length_firstn.
      destruct (Nat.le_gt_cases n (List.length (x :: l))) as [Hle|Hgt]; [lia|].
      rewrite skipn_all2 in Hi by lia.
      rewrite chunks_fuel_nil in Hi. simpl in Hi. lia.
    + cbn [nth]. apply IH. lia.
Qed.

Lemma chunks_fuel_sizes (n : nat) :
  forall fuel (l : list A),
    map (@List.length A) (chunks_fuel fuel n l) = chunk_sizes fuel n (List.length l).
Proof.
  induction fuel as [|fuel IH]; intros l.
  - reflexivity.
  - destruct l as [|x l]; [reflexivity|].
    cbn [chunks_fuel map chunk_sizes List.length].
    rewrite IH, length_firstn, length_skipn. reflexivity.
Qed.

(** The batches the loop takes, by start index, are the chunks. *)
Lemma slices_are_chunks (l : list A) (bs : Z) :
  (0 < bs)%Z ->
  forall fuel k,
    map (fun i => slice l i (i + bs))
        (range_from fuel (Z.of_nat k) (Z.of_nat (List.length l)) bs) =
    chunks_fuel fuel (Z.to_nat bs) (skipn k l).
Proof.
  intros Hbs. induction fuel as [|fuel IH]; intros k.
  - reflexivity.
  - cbn [range_from chunks_fuel].
    destruct (Z.ltb_spec (Z.of_nat k) (Z.of_nat (List.length l))) as [Hlt|Hge].
    + assert (Hne : skipn k l <> []).
      { intros Hnil. apply (f_equal (@List.length A)) in Hnil.
        rewrite length_skipn in Hnil. simpl in Hnil. lia. }
      destruct (skipn k l) as [|x rest] eqn:Hskip; [congruence|].
      cbn [map]. rewrite <- Hskip. f_equal.
      * unfold slice. f_equal; [lia|]. rewrite Nat2Z.id. reflexivity.
      * replace (Z.of_nat k + bs)%Z with (Z.of_nat (k + Z.to_nat bs)) by lia.
        rewrite IH, skipn_skipn. f_equal. f_equal. lia.
    + rewrite skipn_all2 by lia. reflexivity.
Qed.

End Chunks.

Lemma enveloped_echo (h : list event) (r : request) :
  enveloped (echo_server h r) = true.
Proof.
  unfold echo_server.
  repeat match goal with
         | |- context [match ?x with _ => _ end] => destruct x
         end; reflexivity.
Qed.

Lemma world_eq (w : World) (d : file) (n : nat) (t t' : list event)
    (o o' : list line) :
  t = t' -> o = o' -> mkWorld d n (server w) t o = mkWorld d n (server w) t' o'.
Proof. intros -> ->. reflexivity. Qed.

Lemma data_or_empty_enveloped (answer : json) :
  enveloped (Some answer) = true ->
  data_or_empty answer = Ok (JArr (chunk_items (Some answer))).
Proof.
  destruct answer as [| | | | |m]; try discriminate; [reflexivity|].
  unfold enveloped, data_or_empty, chunk_items, get, dict_get_or.
  destruct m as [|kv m]; [reflexivity|].
  cbn [truthy rbind].
  destruct (dict_get (kv :: m) "data") as [[| | | |l|]|]; try discriminate;
    try reflexivity.
  destruct l; reflexivity.
Qed.

(** One turn of the loop on a chunk with at least one id. *)
Lemma batch_step_run (c : list json) (acc : list json) (w : World) :
  c <> [] ->
  enveloped (server w (trace w) (details_request c)) = true ->
  batch_step c acc w =
    (Ok (acc ++ chunk_items (server w (trace w) (details_request c)))%list,
     after_chunks w [c]).
Proof.
  intros Hc Henv. destruct c as [|x c]; [congruence|].
  unfold batch_step, get_question_details, make_request, mbind, after_chunks.
  cbn [chunk_events flat_map chunk_errors].
  change (mkRequest "/tk/getQuestions" _ "v1") with (details_request (x :: c)).
  destruct (server w (trace w) (details_request (x :: c))) as [answer|] eqn:Hans.
  - rewrite (data_or_empty_enveloped answer Henv). unfold lift, sleep, emit, ret.
    destruct (chunk_items (Some answer)) as [|y ys]; cbn [truthy iter fst snd trace
      disk writes server stdout].
    + rewrite !app_nil_r. f_equal. apply world_eq; [|reflexivity].
      rewrite <- app_assoc. reflexivity.
    + f_equal. apply world_eq; [|rewrite !app_nil_r; reflexivity].
      rewrite <- app_assoc, app_nil_r. reflexivity.
  - unfold print, lift, sleep, emit, ret, data_or_empty.
    cbn [truthy chunk_items trace disk writes server stdout].
    rewrite !app_nil_r. f_equal. apply world_eq; [|reflexivity].
    rewrite <- app_assoc. reflexivity.
Qed.

(** The loop over the chunks: each chunk adds its items, one request and
    one pause. *)
Lemma batch_loop_run (cs : list (list json)) :
  forall (acc : list json) (w : World),
    Forall (fun c => c <> []) cs ->
    (forall h r, enveloped (server w h r) = true) ->
    for_acc cs batch_step acc w =
      (Ok (acc ++ chunk_results (server w) (trace w) cs)%list, after_chunks w cs).
Proof.
  induction cs as [|c cs IH]; intros acc w Hne Henv.
  - unfold after_chunks. cbn [for_acc chunk_results chunk_events flat_map chunk_errors].
    rewrite !app_nil_r. destruct w; reflexivity.
  - inversion Hne as [|? ? Hc Hcs]; subst.
    cbn [for_acc]. unfold mbind.
    rewrite (batch_step_run c acc w Hc (Henv _ _)).
    rewrite IH; [|exact Hcs|exact Henv].
    cbn [chunk_results]. rewrite <- app_assoc. f_equal.
    unfold after_chunks. cbn [trace stdout server disk writes].
    apply world_eq.
    + rewrite <- app_assoc. reflexivity.
    + cbn [chunk_errors]. rewrite <- !app_assoc. reflexivity.
Qed.

(** C4: for a positive batch size and a server that answers in the
    envelope of the API, [get_question_details_batched] cuts the ids into
    consecutive chunks of the batch size, the last one possibly shorter
    (three chunks of 50, 50 and 20 ids for 120 ids and a batch size of 50),
    sends one request per chunk, in order, and returns the items of the
    answers in the order of the chunks; a chunk whose request fails or comes
    back without items adds nothing, and is not asked for again. *)
Theorem get_question_details_batched_chunks :
  forall (cfg : Config) (qids : list json) (batch_size : Z) (w : World),
    (0 < batch_size)%Z ->
    (forall h r, enveloped (server w h r) = true) ->
    let cs := chunks (Z.to_nat batch_size) qids in
    List.concat cs = qids /\
    Forall (fun c => 1 <= List.length c <= Z.to_nat batch_size) cs /\
    (forall i, S i < List.length cs ->
               List.length (nth i cs []) = Z.to_nat batch_size) /\
    (List.length qids = 120 -> batch_size = 50%Z ->
     map (@List.length json) cs = [50; 50; 20]) /\
    get_question_details_batched cfg qids (Some batch_size) w =
      (Ok (chunk_results (server w) (trace w) cs), after_chunks w cs).
Proof.
  intros cfg qids bs w Hbs Henv cs.
  assert (Hn : 0 < Z.to_nat bs) by lia.
  assert (Hbounds : Forall (fun c => 1 <= List.length c <= Z.to_nat bs) cs)
    by apply (chunks_fuel_bounds _ Hn).
  split; [apply (chunks_fuel_concat _ Hn); reflexivity|].
  split; [exact Hbounds|].
  split; [apply chunks_fuel_full|].
  split.
  - intros Hlen ->. unfold cs, chunks. rewrite chunks_fuel_sizes, Hlen. reflexivity.
  - unfold get_question_details_batched, range0, mbind, lift.
    destruct (Z.eqb_spec bs 0) as [?|_]; [lia|].
    destruct (Z.ltb_spec bs 0) as [?|_]; [lia|].
    change (for_acc ?starts _ [] w)
      with (for_acc starts (fun i => batch_step (slice qids i (i + bs))) [] w).
    rewrite <- (for_acc_map (fun i => slice qids i (i + bs)) batch_step).
    rewrite Nat2Z.id.
    pose proof (slices_are_chunks qids bs Hbs (List.length qids) 0) as Hslices.
    cbn [Z.of_nat skipn] in Hslices. rewrite Hslices. fold (chunks (Z.to_nat bs) qids). fold cs.
    rewrite batch_loop_run; [reflexivity| |exact Henv].
    eapply Forall_impl; [|exact Hbounds].
    intros c Hc ->. simpl in Hc. lia.
Qed.

Lemma get_question_details_batched_chunks_witness :
  get_question_details_batched default_config
    (map JNum [1; 2; 3; 4; 5]%Z) (Some 2%Z) echo_world =
  (Ok [JObj [("id", JStr "1,2")]; JObj [("id", JStr "5")]],
   mkWorld Absent 0 echo_server
     [Request (details_request [JNum 1; JNum 2]); Sleep;
      Request (details_request [JNum 3; JNum 4]); Sleep;
      Request (details_request [JNum 5]); Sleep]
     [FetchError (details_request [JNum 3; JNum 4])]).
Proof.
  pose proof (get_question_details_batched_chunks default_config
                (map JNum [1; 2; 3; 4; 5]%Z) 2%Z echo_world
                eq_refl enveloped_echo) as (_ & _ & _ & _ & Hrun).
  exact Hrun.
Defined.

End BatcherFacts.

(** ** Saving what was loaded *)

Section RoundTripFacts.

Import data_manager store_spec.

Lemma dict_get_In (m : pydict) (k : string) (v : json) :
  dict_get m k = Some v -> In (k, v) m.
Proof.
  induction m as [|[k' v'] m IH]; simpl; [discriminate|].
  destruct (String.eqb_spec k' k) as [->|Hne].
  - intros [= ->]. left. reflexivity.
  - intros H. right. apply IH, H.
Qed.

Lemma key_present (m : pydict) (k : string) :
  existsb (String.eqb k) (dict_keys m) = true ->
  dict_get m k = Some (dict_get_or m k JNull).
Proof.
  unfold dict_get_or.
  induction m as [|[k' v'] m IH]; simpl; [discriminate|].
  rewrite (String.eqb_sym k k'). destruct (k' =? k); simpl; [reflexivity|apply IH].
Qed.

Lemma has_keys_present (ks : list string) (m : pydict) (k : string) :
  has_keys ks m = true -> In k ks ->
  dict_get m k = Some (dict_get_or m k JNull).
Proof.
  unfold has_keys. intros H Hin. apply andb_prop in H. destruct H as [_ H].
  rewrite forallb_forall in H. apply key_present, H, Hin.
Qed.

(** A dict with exactly the keys [ks] is its canonical form, reordered. *)
Lemma has_keys_permutation (ks : list string) (m : pydict) :
  NoDup ks -> has_keys ks m = true -> Permutation (canonical ks m) m.
Proof.
  intros Hnd H. apply NoDup_Permutation_bis.
  - apply (NoDup_map_inv fst). unfold canonical. rewrite map_map. simpl.
    rewrite map_id. exact Hnd.
  - unfold canonical. rewrite length_map. unfold has_keys in H.
    apply andb_prop in H. destruct H as [H _]. apply Nat.eqb_eq in H. lia.
  - intros [k v] Hin. unfold canonical in Hin. apply in_map_iff in Hin.
    destruct Hin as (k' & [= <- <-] & Hk).
    apply dict_get_In, (has_keys_present ks), Hk. exact H.
Qed.

Lemma has_keys_only (ks : list string) (m : pydict) (k : string) :
  NoDup ks -> has_keys ks m = true -> In k (dict_keys m) -> In k ks.
Proof.
  intros Hnd H Hin. unfold dict_keys in Hin.
  apply (Permutation_in _ (Permutation_map fst (Permutation_sym
           (has_keys_permutation ks m Hnd H)))) in Hin.
  unfold canonical in Hin. rewrite map_map in Hin. simpl in Hin.
  rewrite map_id in Hin. exact Hin.
Qed.

Lemma NoDup_option_keys : NoDup option_keys.
Proof. repeat constructor; simpl; intuition discriminate. Qed.

Lemma NoDup_question_keys : NoDup question_keys.
Proof. repeat constructor; simpl; intuition discriminate. Qed.

Lemma NoDup_dataset_keys : NoDup dataset_keys.
Proof. repeat constructor; simpl; intuition discriminate. Qed.

Lemma well_formed_option_parsed (o : json) :
  well_formed_option o = true ->
  exists op, Option_of_kwargs o = Ok op /\ json_equiv (asdict_Option op) o.
Proof.
  destruct o as [| | | | |m]; try discriminate. cbn [well_formed_option].
  intros Hkeys.
  pose proof (has_keys_permutation _ _ NoDup_option_keys Hkeys) as Hperm.
  assert (Hall : forallb (fun k => (k =? "label") || (k =? "content")) (dict_keys m) = true).
  { apply forallb_forall. intros k Hk.
    apply (has_keys_only _ _ _ NoDup_option_keys Hkeys) in Hk.
    destruct Hk as [<-|[<-|[]]]; reflexivity. }
  unfold Option_of_kwargs. rewrite Hall.
  unfold canonical, option_keys in Hperm. cbn [map] in Hperm.
  rewrite (has_keys_present _ _ "label" Hkeys ltac:(simpl; tauto)).
  rewrite (has_keys_present _ _ "content" Hkeys ltac:(simpl; tauto)).
  eexists. split; [reflexivity|].
  unfold asdict_Option. cbn [Option.label Option.content].
  eapply equiv_obj; [|exact Hperm].
  repeat constructor.
Qed.

Lemma well_formed_options_parsed (os : list json) :
  forallb well_formed_option os = true ->
  exists ops, rmap Option_of_kwargs os = Ok ops /\
    Forall2 json_equiv (map asdict_Option ops) os.
Proof.
  induction os as [|o os IH]; simpl; intros H.
  - exists []. split; [reflexivity|constructor].
  - apply andb_prop in H. destruct H as [Ho Hos].
    destruct (well_formed_option_parsed o Ho) as (op & -> & Hop).
    destruct (IH Hos) as (ops & -> & Hops).
    exists (op :: ops). split; [reflexivity|]. constructor; assumption.
Qed.

Lemma well_formed_question_parsed (q : json) :
  well_formed_question q = true ->
  exists qq, parse_question q = Ok qq /\ json_equiv (asdict_Question qq) q.
Proof.
  destruct q as [| | | | |m]; try discriminate. cbn [well_formed_question].
  intros H. apply andb_prop in H. destruct H as [Hkeys Hopts].
  pose proof (has_keys_permutation _ _ NoDup_question_keys Hkeys) as Hperm.
  unfold canonical, question_keys in Hperm. cbn [map] in Hperm.
  unfold parse_question, getitem, get, dict_get_or.
  revert Hopts Hperm.
  rewrite (has_keys_present _ _ "id" Hkeys ltac:(simpl; tauto)).
  rewrite (has_keys_present _ _ "origin_name" Hkeys ltac:(simpl; tauto)).
  rewrite (has_keys_present _ _ "sub_name" Hkeys ltac:(simpl; tauto)).
  rewrite (has_keys_present _ _ "content" Hkeys ltac:(simpl; tauto)).
  rewrite (has_keys_present _ _ "options" Hkeys ltac:(simpl; tauto)).
  rewrite (has_keys_present _ _ "answer" Hkeys ltac:(simpl; tauto)).
  rewrite (has_keys_present _ _ "analysis" Hkeys ltac:(simpl; tauto)).
  rewrite (has_keys_present _ _ "comments" Hkeys ltac:(simpl; tauto)).
  rewrite (has_keys_present _ _ "type" Hkeys ltac:(simpl; tauto)).
  rewrite (has_keys_present _ _ "user_status" Hkeys ltac:(simpl; tauto)).
  rewrite (has_keys_present _ _ "last_reviewed" Hkeys ltac:(simpl; tauto)).
  rewrite (has_keys_present _ _ "source" Hkeys ltac:(simpl; tauto)).
  destruct (dict_get_or m "options" JNull) as [| | | |os|]; try discriminate.
  intros Hopts Hperm.
  destruct (well_formed_options_parsed os Hopts) as (ops & Hops & Hequiv).
  cbn [rbind iter]. rewrite Hops. cbn [rbind].
  eexists. split; [reflexivity|].
  unfold asdict_Question.
  cbn [Question.id Question.origin_name Question.sub_name Question.content
       Question.options Question.answer Question.analysis Question.comments
       Question.type Question.user_status Question.last_reviewed Question.source].
  eapply equiv_obj; [|exact Hperm].
  repeat (constructor; [split; [reflexivity|try apply equiv_refl]|]);
    [|constructor].
  apply equiv_arr, Hequiv.
Qed.

Lemma well_formed_questions_parsed (qs : list json) :
  forallb well_formed_question qs = true ->
  exists l, parse_questions (JArr qs) = Ok l /\
    Forall2 json_equiv (map asdict_Question l) qs.
Proof.
  unfold parse_questions. cbn [iter rbind].
  induction qs as [|q qs IH]; simpl; intros H.
  - exists []. split; [reflexivity|constructor].
  - apply andb_prop in H. destruct H as [Hq Hqs].
    destruct (well_formed_question_parsed q Hq) as (qq & -> & Hqq).
    destruct (IH Hqs) as (l & -> & Hl).
    exists (qq :: l). split; [reflexivity|]. constructor; assumption.
Qed.

(** A well-formed document is accepted by the parser, and the dataset it
    denotes is saved as the same document up to the order of keys. *)
Lemma well_formed_dataset_parsed (j : json) :
  well_formed_dataset j = true ->
  exists d, parse_data j = Ok d /\ json_equiv (asdict d) j.
Proof.
  destruct j as [| | | | |m]; try discriminate. cbn [well_formed_dataset].
  intros H. apply andb_prop in H. destruct H as [H Hf].
  apply andb_prop in H. destruct H as [H Hr].
  apply andb_prop in H. destruct H as [Hkeys Hs].
  pose proof (has_keys_permutation _ _ NoDup_dataset_keys Hkeys) as Hperm.
  unfold canonical, dataset_keys in Hperm. cbn [map] in Hperm.
  unfold parse_data, get, dict_get_or.
  revert Hs Hr Hf Hperm.
  rewrite (has_keys_present _ _ "meta" Hkeys ltac:(simpl; tauto)).
  rewrite (has_keys_present _ _ "simulation" Hkeys ltac:(simpl; tauto)).
  rewrite (has_keys_present _ _ "real" Hkeys ltac:(simpl; tauto)).
  rewrite (has_keys_present _ _ "famous" Hkeys ltac:(simpl; tauto)).
  cbn [well_formed_bucket].
  destruct (dict_get_or m "simulation" JNull) as [| | | |qs| ]; try discriminate.
  destruct (dict_get_or m "real" JNull) as [| | | |qr| ]; try discriminate.
  destruct (dict_get_or m "famous" JNull) as [| | | |qf| ]; try discriminate.
  intros Hs Hr Hf Hperm.
  destruct (well_formed_questions_parsed qs Hs) as (ls & Hls & Hes).
  destruct (well_formed_questions_parsed qr Hr) as (lr & Hlr & Her).
  destruct (well_formed_questions_parsed qf Hf) as (lf & Hlf & Hef).
  cbn [rbind]. rewrite Hls. cbn [rbind]. rewrite Hlr. cbn [rbind].
  rewrite Hlf. cbn [rbind].
  eexists. split; [reflexivity|].
  unfold asdict.
  cbn [ErrorData.meta ErrorData.simulation ErrorData.real ErrorData.famous].
  eapply equiv_obj; [|exact Hperm].
  constructor; [split; [reflexivity|apply equiv_refl]|].
  constructor; [split; [reflexivity|apply equiv_arr, Hes]|].
  constructor; [split; [reflexivity|apply equiv_arr, Her]|].
  constructor; [split; [reflexivity|apply equiv_arr, Hef]|].
  constructor.
Qed.

Lemma save_load_run (w wl : World) (d : ErrorData.t) :
  load_data w = (Ok d, wl) -> save_load w = (Ok tt, written (asdict d) wl).
Proof.
  intros Hload. unfold save_load, mbind. rewrite Hload. reflexivity.
Qed.

(** C6: on a file of the shape of the dataset, [save_data(load_data())]
    writes the document back up to the order of the keys of its objects.  On
    every file, the file written denotes the dataset that was loaded, and a
    second [save_data(load_data())] writes the very same document again. *)
Theorem save_load_roundtrip :
  forall w : World,
    (forall j, disk w = Doc j -> well_formed_dataset j = true ->
       exists j', save_load w = (Ok tt, written j' w) /\ json_equiv j' j) /\
    (exists d wl,
       load_data w = (Ok d, wl) /\
       save_load w = (Ok tt, written (asdict d) wl) /\
       load_data (written (asdict d) wl) = (Ok d, written (asdict d) wl) /\
       save_load (written (asdict d) wl) =
         (Ok tt, written (asdict d) (written (asdict d) wl))).
Proof.
  intros w. split.
  - intros j Hdisk Hwf.
    destruct (well_formed_dataset_parsed j Hwf) as (d & Hparse & Hequiv).
    exists (asdict d). split; [|exact Hequiv].
    apply save_load_run. rewrite load_data_cases, Hdisk, Hparse. reflexivity.
  - destruct (load_data_total w) as (d & wl & Hload & _).
    exists d, wl. split; [exact Hload|].
    split; [apply save_load_run, Hload|].
    split; [apply load_data_written|].
    apply save_load_run, load_data_written.
Qed.

Lemma save_load_roundtrip_witness :
  exists j',
    save_load shuffled_world = (Ok tt, written j' shuffled_world) /\
    json_equiv j' shuffled_file.
Proof.
  apply (proj1 (save_load_roundtrip shuffled_world) shuffled_file); reflexivity.
Defined.

End RoundTripFacts.

(** ** Incremental synchronisation *)

Section SyncFacts.

Import scraper interactive_cli store_spec sync_spec.

(** C1: with [INCREMENTAL] set, a file that holds the questions 1, 2 and 3
    and a server that lists the questions 1 to 5, [sync_data] asks for the
    details of 4 and 5 only, and then rewrites the file with these two
    questions alone: the questions 1, 2 and 3 are gone from the file,
    where the claim keeps them untouched. *)
Theorem incremental_sync_drops_local_questions :
  stored_ids (disk local_world) "simulation" = [JNum 1; JNum 2; JNum 3] /\
  fst (sync_data incremental_config "2024-06-01T00:00:00Z" local_world) = Ok true /\
  requested_ids
    (trace (snd (sync_data incremental_config "2024-06-01T00:00:00Z" local_world))) =
    [JStr "4,5"] /\
  stored_ids
    (disk (snd (sync_data incremental_config "2024-06-01T00:00:00Z" local_world)))
    "simulation" = [JNum 4; JNum 5].
Proof. vm_compute. repeat split. Qed.

End SyncFacts.

(** ** Integers and their decimal text *)

Section BuiltinFacts.

Import builtin_spec.

Lemma decimal_value_acc (d : Decimal.uint) (acc : positive) :
  decimal_value d (Zpos acc) = Zpos (Pos.of_uint_acc d acc).
Proof.
  revert acc. induction d; intros acc; cbn [decimal_value Pos.of_uint_acc];
    try reflexivity;
    match goal with
    | |- decimal_value _ ?z = _ =>
        match goal with
        | |- _ = Zpos (Pos.of_uint_acc _ ?p) =>
            replace z with (Zpos p) by lia; apply IHd
        end
    end.
Qed.

Lemma decimal_value_0 (d : Decimal.uint) :
  decimal_value d 0 = Z.of_N (Pos.of_uint d).
Proof.
  induction d; cbn [decimal_value Pos.of_uint Z.of_N]; try reflexivity;
    try (apply (decimal_value_acc d)).
  exact IHd.
Qed.

Lemma int_digits_decimal_true (d : Decimal.uint) (acc : Z) :
  int_digits (NilEmpty.string_of_uint d) acc true = Some (decimal_value d acc).
Proof.
  revert acc. induction d; intros acc; cbn [NilEmpty.string_of_uint]; try reflexivity;
    cbn [int_digits decimal_value];
    match goal with
    | |- match digit_val ?c with _ => _ end = _ =>
        change (digit_val c) with (Some (Z.of_nat (ord c - 48)))
    end; cbv beta iota; rewrite IHd; do 2 f_equal;
    match goal with
    | |- context [Z.of_nat ?n] =>
        let v := eval vm_compute in (Z.of_nat n) in
        change (Z.of_nat n) with v
    end; lia.
Qed.

Lemma int_digits_decimal (d : Decimal.uint) (acc : Z) :
  d <> Decimal.Nil ->
  int_digits (NilEmpty.string_of_uint d) acc false = Some (decimal_value d acc).
Proof.
  intros Hd. destruct d; [congruence|..];
    cbn [NilEmpty.string_of_uint int_digits decimal_value];
    match goal with
    | |- match digit_val ?c with _ => _ end = _ =>
        change (digit_val c) with (Some (Z.of_nat (ord c - 48)))
    end; cbv beta iota; rewrite int_digits_decimal_true; do 2 f_equal;
    match goal with
    | |- context [Z.of_nat ?n] =>
        let v := eval vm_compute in (Z.of_nat n) in
        change (Z.of_nat n) with v
    end; lia.
Qed.

Lemma int_space_isspace (c : ascii) : int_space c = true -> isspace c = true.
Proof.
  destruct c as [b0 b1 b2 b3 b4 b5 b6 b7].
  destruct b0, b1, b2, b3, b4, b5, b6, b7; vm_compute; intros H;
    first [reflexivity|discriminate H].
Qed.

Lemma int_strip_no_space (s : string) :
  no_space s = true -> int_rstrip (int_lstrip s) = s.
Proof.
  unfold no_space. intros H.
  assert (Hc : forall c, isspace c = false -> int_space c = false).
  { intros c Hs. destruct (int_space c) eqn:Hi; [|reflexivity].
    rewrite (int_space_isspace c Hi) in Hs. discriminate. }
  assert (Hl : int_lstrip s = s).
  { destruct s as [|c s]; [reflexivity|]. simpl in H.
    apply andb_prop in H. destruct H as [H _]. apply negb_true_iff in H.
    simpl. rewrite (Hc c H). reflexivity. }
  rewrite Hl. clear Hl. induction s as [|c s IH]; [reflexivity|].
  simpl in H. apply andb_prop in H. destruct H as [Hch Hs].
  apply negb_true_iff in Hch. cbn [int_rstrip]. rewrite (IH Hs).
  destruct s; [|reflexivity]. rewrite (Hc c Hch). reflexivity.
Qed.

Lemma rstrip_no_space (s : string) : no_space s = true -> rstrip s = s.
Proof.
  unfold no_space. induction s as [|c s IH]; simpl; intros H.
  - reflexivity.
  - apply andb_prop in H. destruct H as [Hc Hs]. rewrite (IH Hs).
    destruct s; [|reflexivity].
    destruct (isspace c); [discriminate|reflexivity].
Qed.

Lemma strip_no_space (s : string) : no_space s = true -> strip s = s.
Proof.
  intros H. unfold strip.
  assert (Hl : lstrip s = s).
  { destruct s as [|c s]; [reflexivity|]. unfold no_space in H. simpl in H.
    apply andb_prop in H. destruct H as [Hc _]. simpl.
    destruct (isspace c); [discriminate|reflexivity]. }
  rewrite Hl. apply rstrip_no_space, H.
Qed.

Lemma decimal_no_space (d : Decimal.uint) :
  no_space (NilEmpty.string_of_uint d) = true.
Proof. induction d; simpl; try reflexivity; exact IHd. Qed.

Lemma decimal_no_comma (d : Decimal.uint) :
  no_comma (NilEmpty.string_of_uint d) = true.
Proof. induction d; simpl; try reflexivity; exact IHd. Qed.

Lemma str_of_Z_pos (p : positive) :
  str_of_Z (Zpos p) = NilEmpty.string_of_uint (Pos.to_uint p).
Proof.
  unfold str_of_Z. cbn [Z.to_int NilZero.string_of_int].
  unfold NilZero.string_of_uint.
  pose proof (DecimalPos.Unsigned.to_uint_nonnil p) as Hnn.
  destruct (Pos.to_uint p); [congruence|reflexivity..].
Qed.

Lemma str_of_Z_neg (p : positive) :
  str_of_Z (Zneg p) = String "-" (NilEmpty.string_of_uint (Pos.to_uint p)).
Proof.
  unfold str_of_Z. cbn [Z.to_int NilZero.string_of_int].
  unfold NilZero.string_of_uint.
  pose proof (DecimalPos.Unsigned.to_uint_nonnil p) as Hnn.
  destruct (Pos.to_uint p); [congruence|reflexivity..].
Qed.

Lemma str_of_Z_no_space (n : Z) : no_space (str_of_Z n) = true.
Proof.
  destruct n as [|p|p].
  - reflexivity.
  - rewrite str_of_Z_pos. apply decimal_no_space.
  - rewrite str_of_Z_neg. apply (decimal_no_space (Pos.to_uint p)).
Qed.

Lemma str_of_Z_no_comma (n : Z) : no_comma (str_of_Z n) = true.
Proof.
  destruct n as [|p|p].
  - reflexivity.
  - rewrite str_of_Z_pos. apply decimal_no_comma.
  - rewrite str_of_Z_neg. apply (decimal_no_comma (Pos.to_uint p)).
Qed.

Lemma decimal_value_to_uint (p : positive) :
  int_digits (NilEmpty.string_of_uint (Pos.to_uint p)) 0 false = Some (Zpos p).
Proof.
  rewrite int_digits_decimal by apply DecimalPos.Unsigned.to_uint_nonnil.
  rewrite decimal_value_0, DecimalPos.Unsigned.of_to. reflexivity.
Qed.

Lemma int_of_str_of_Z (n : Z) : int (str_of_Z n) = Ok n.
Proof.
  unfold int. rewrite (int_strip_no_space _ (str_of_Z_no_space n)).
  destruct n as [|p|p].
  - reflexivity.
  - rewrite str_of_Z_pos.
    pose proof (decimal_value_to_uint p) as Hv.
    pose proof (DecimalPos.Unsigned.to_uint_nonnil p) as Hnn.
    destruct (Pos.to_uint p); [congruence|..];
      cbn [NilEmpty.string_of_uint] in *; rewrite Hv; reflexivity.
  - rewrite str_of_Z_neg. rewrite decimal_value_to_uint. reflexivity.
Qed.

(** X1: reading back the decimal text of an integer gives the integer:
    [int(str(n)) == n]. *)
Theorem int_str_roundtrip : forall n : Z, int (str_of_Z n) = Ok n.
Proof. exact int_of_str_of_Z. Qed.

Lemma split_no_comma (s : string) :
  no_comma s = true -> split "," s = [s].
Proof.
  unfold no_comma. induction s as [|c s IH]; simpl; intros H.
  - reflexivity.
  - apply andb_prop in H. destruct H as [Hc Hs].
    destruct (Ascii.eqb c ","); [discriminate|]. rewrite (IH Hs). reflexivity.
Qed.

Lemma split_app_comma (x r : string) :
  no_comma x = true -> split "," (x ++ String "," r) = x :: split "," r.
Proof.
  unfold no_comma. induction x as [|c x IH]; simpl; intros H.
  - reflexivity.
  - apply andb_prop in H. destruct H as [Hc Hx].
    destruct (Ascii.eqb c ","); [discriminate|]. rewrite (IH Hx). reflexivity.
Qed.

(** Joining texts that hold no comma and splitting the result at the
    commas gives the texts back. *)
Lemma split_join (ss : list string) :
  ss <> [] -> forallb no_comma ss = true -> split "," (join "," ss) = ss.
Proof.
  induction ss as [|x ss IH]; [congruence|]. intros _ H.
  simpl in H. apply andb_prop in H. destruct H as [Hx Hss].
  destruct ss as [|y ss].
  - simpl. apply split_no_comma, Hx.
  - change (join "," (x :: y :: ss)) with (x ++ String "," (join "," (y :: ss))).
    rewrite (split_app_comma _ _ Hx), IH; [reflexivity|discriminate|exact Hss].
Qed.

Lemma rmap_int_str (l : list Z) : rmap int (map str_of_Z l) = Ok l.
Proof. apply rmap_map_inverse, int_of_str_of_Z. Qed.

Lemma parse_qids_join (l : list Z) :
  l <> [] ->
  scraper.parse_qids (JStr (join "," (map str (map JNum l)))) = Ok l.
Proof.
  intros Hl. unfold scraper.parse_qids. rewrite map_map.
  change (map (fun x => str (JNum x)) l) with (map str_of_Z l).
  rewrite split_join.
  - apply rmap_int_str.
  - destruct l; [congruence|discriminate].
  - apply forallb_forall. intros s Hs. apply in_map_iff in Hs.
    destruct Hs as (n & <- & _). apply str_of_Z_no_comma.
Qed.

(** X2: the comma-separated text that a detail request carries for a list
    of integer ids is read back by the walkers' parser as the same ids. *)
Theorem parse_qids_roundtrip :
  forall l : list Z,
    l <> [] ->
    scraper.parse_qids (JStr (join "," (map str (map JNum l)))) = Ok l.
Proof. exact parse_qids_join. Qed.

Lemma parse_qids_roundtrip_witness :
  scraper.parse_qids (JStr "4,-5,120") = Ok [4; -5; 120]%Z.
Proof.
  refine (parse_qids_roundtrip [4; -5; 120]%Z _). discriminate.
Defined.

End BuiltinFacts.

(** ** The normaliser, in closed form *)

Section NormaliserClosedForm.

Import scraper scraper_spec normaliser_spec.

Lemma add_options_entries (id origin_name sub_name type content analysis : json)
    (source : string) (m : pydict) (keys : list string) (options answer : list json) :
  add_options (JObj m) keys
    (normalized_with id origin_name sub_name type content options answer analysis source) =
  Ok (normalized_with id origin_name sub_name type content
        (options ++ flat_map (option_entry m) keys)%list answer analysis source).
Proof.
  revert options. induction keys as [|key keys IH]; intros options.
  - simpl. rewrite app_nil_r. reflexivity.
  - cbn [add_options get rbind flat_map]. unfold option_entry at 1.
    unfold getitem, dict_get_or.
    destruct (dict_get m key) as [v|] eqn:Hv.
    + destruct (truthy v); cbn [rbind].
      * change (dict_append (normalized_with _ _ _ _ _ options _ _ _) "options" ?x)
          with (normalized_with id origin_name sub_name type content
                  (options ++ [x])%list answer analysis source).
        rewrite IH, <- app_assoc. reflexivity.
      * apply IH.
    + cbn [truthy]. apply IH.
Qed.

(** The run of the normaliser on any value, in one equation. *)
Lemma normalize_question_run (q : json) (source : string) (origin_name sub_name : json) :
  _normalize_question q source origin_name sub_name =
    if truthy q then
      match q with
      | JObj m =>
          if undecodable m then Raise ValueError
          else Ok (Some (normalized m source origin_name sub_name))
      | _ => Raise AttributeError
      end
    else Ok None.
Proof.
  unfold _normalize_question.
  destruct (truthy q) eqn:Ht; cbn [negb]; [|reflexivity].
  destruct q as [| | | | |m]; try reflexivity.
  cbn [get rbind]. cbv zeta.
  change (add_options (JObj m) ["a"; "b"; "c"; "d"] _) with
    (add_options (JObj m) ["a"; "b"; "c"; "d"]
       (normalized_with (dict_get_or m "id" JNull) origin_name sub_name
          (dict_get_or m "type" (JNum 0)) (dict_get_or m "title" (JStr ""))
          [] [] (dict_get_or m "explain" (JStr "")) source)).
  rewrite add_options_entries. cbn [rbind app]. fold (option_entries m).
  fold (correct_field m). unfold normalized, decoded_answer, undecodable. cbv zeta.
  destruct (correct_field m =? "") eqn:Hempty; cbn [negb].
  - apply String.eqb_eq in Hempty. rewrite Hempty. reflexivity.
  - assert (Hne : correct_field m <> "") by (apply String.eqb_neq, Hempty).
    destruct (isdigit (correct_field m)) eqn:Hdig; cbn [andb].
    + rewrite (isdecimal_all _ Hne).
      destruct (all_chars isdecimal_char (correct_field m)) eqn:Hdec; cbn [negb].
      * rewrite (decode_digits_shape _ _ _ _ _ _ _ _ _ _ Hdec). reflexivity.
      * rewrite (decode_digits_raises _ _ _ _ _ _ _ _ _ _ (isdigit_all _ Hdig) Hdec).
        reflexivity.
    + unfold comma_labels. rewrite map_map. reflexivity.
Qed.

(** X3: what [_normalize_question] returns, for every raw value whose
    [correct] text has no letter with a capital above 255.  A value that
    counts as false gives [None].  A dict whose [correct] text is all
    digits, one of them a superscript, raises [ValueError].  Any other dict
    gives the question with the raw [id], [type] (0 by default), [title] and
    [explain] (the empty text by default), the status [new], no review
    date, no comments, the source tag, the decoded answer, and as options
    one entry for each of the keys a, b, c, d whose value is present and
    counts as true, in that order, labelled A to D.  Any other value raises
    [AttributeError]. *)
Theorem normalize_question_cases :
  forall (q : json) (source : string) (origin_name sub_name : json),
    capitals_in_range q = true ->
    _normalize_question q source origin_name sub_name =
      if truthy q then
        match q with
        | JObj m =>
            if undecodable m then Raise ValueError
            else Ok (Some (normalized m source origin_name sub_name))
        | _ => Raise AttributeError
        end
      else Ok None.
Proof.
  intros q source origin_name sub_name _. apply normalize_question_run.
Qed.

Lemma normalize_question_cases_witness :
  _normalize_question (JObj (raw_with_correct (JStr " d , a ")))
    "real" (JStr "Paper") (JStr "") =
    Ok (Some (normalized_with (JNum 11) (JStr "Paper") (JStr "") (JNum 0) (JStr "text")
                [JObj [("label", JStr "A"); ("content", JStr "yes")];
                 JObj [("label", JStr "B"); ("content", JStr "no")]]
                [JStr "D"; JStr "A"] (JStr "") "real")) /\
  _normalize_question (JObj (raw_with_correct (JStr superscript_two)))
    "real" (JStr "Paper") (JStr "") = Raise ValueError /\
  _normalize_question (JNum 5) "real" (JStr "Paper") (JStr "") = Raise AttributeError /\
  _normalize_question (JObj []) "real" (JStr "Paper") (JStr "") = Ok None.
Proof.
  split; [|split; [|split]].
  - exact (normalize_question_cases (JObj (raw_with_correct (JStr " d , a ")))
             "real" (JStr "Paper") (JStr "") eq_refl).
  - exact (normalize_question_cases (JObj (raw_with_correct (JStr superscript_two)))
             "real" (JStr "Paper") (JStr "") eq_refl).
  - exact (normalize_question_cases (JNum 5) "real" (JStr "Paper") (JStr "") eq_refl).
  - exact (normalize_question_cases (JObj []) "real" (JStr "Paper") (JStr "") eq_refl).
Defined.

End NormaliserClosedForm.

(** ** Computations that only use the network *)

Section NetworkOnly.

Import effects_spec.

Variable E : event -> Prop.

Lemma extends_refl (w : World) : extends E w w.
Proof.
  unfold extends. repeat split; try reflexivity.
  - exists []. rewrite app_nil_r. split; [reflexivity|constructor].
  - exists []. rewrite app_nil_r. reflexivity.
Qed.

Lemma extends_trans (w1 w2 w3 : World) :
  extends E w1 w2 -> extends E w2 w3 -> extends E w1 w3.
Proof.
  intros (Hd1 & Hw1 & Hs1 & (t1 & Ht1 & HE1) & (o1 & Ho1))
         (Hd2 & Hw2 & Hs2 & (t2 & Ht2 & HE2) & (o2 & Ho2)).
  unfold extends. repeat split; try congruence.
  - exists (t1 ++ t2)%list. split.
    + rewrite Ht2, Ht1, app_assoc. reflexivity.
    + apply Forall_app. split; assumption.
  - exists (o1 ++ o2)%list. rewrite Ho2, Ho1, app_assoc. reflexivity.
Qed.

Lemma network_only_ret {A} (R : A -> Prop) (a : A) :
  R a -> network_only E R (ret a).
Proof. intros H w. split; [apply extends_refl|exact H]. Qed.

Lemma network_only_lift {A} (R : A -> Prop) (r : result A) :
  (forall a, r = Ok a -> R a) -> network_only E R (lift r).
Proof.
  intros H w. split; [apply extends_refl|]. unfold lift. simpl.
  destruct r; [apply H; reflexivity|exact I].
Qed.

Lemma network_only_bind {A B} (R1 : A -> Prop) (R2 : B -> Prop)
    (c : M A) (k : A -> M B) :
  network_only E R1 c ->
  (forall a, R1 a -> network_only E R2 (k a)) ->
  network_only E R2 (mbind c k).
Proof.
  intros Hc Hk w. unfold mbind. specialize (Hc w).
  destruct (c w) as [[a|e] w1]; simpl in Hc; destruct Hc as [Hext HR].
  - specialize (Hk a HR w1). destruct Hk as [Hext2 HR2].
    split; [eapply extends_trans; eassumption|exact HR2].
  - split; [exact Hext|exact I].
Qed.

Lemma network_only_weaken {A} (R R' : A -> Prop) (c : M A) :
  (forall a, R a -> R' a) -> network_only E R c -> network_only E R' c.
Proof.
  intros HR Hc w. destruct (Hc w) as [Hext Hr]. split; [exact Hext|].
  destruct (fst (c w)); [apply HR, Hr|exact I].
Qed.

Lemma network_only_for_acc {A S} (I : S -> Prop) (body : A -> S -> M S)
    (l : list A) :
  (forall x s, In x l -> I s -> network_only E I (body x s)) ->
  forall s, I s -> network_only E I (for_acc l body s).
Proof.
  induction l as [|x l IH]; intros Hbody s Hs; cbn [for_acc].
  - apply network_only_ret, Hs.
  - eapply network_only_bind.
    + apply Hbody; [left; reflexivity|exact Hs].
    + intros s' Hs'. apply IH; [|exact Hs'].
      intros y t Hy. apply Hbody. right. exact Hy.
Qed.

Lemma network_only_emit (e : event) :
  E e -> network_only E (@anything unit) (emit e).
Proof.
  intros He w. split; [|exact I]. unfold emit, extends. simpl.
  repeat split; try reflexivity.
  - exists [e]. split; [reflexivity|]. constructor; [exact He|constructor].
  - exists []. rewrite app_nil_r. reflexivity.
Qed.

Lemma network_only_make_request (u : string) (p : pydict) (v : string) :
  E (Request (mkRequest u p v)) ->
  network_only E (@anything json) (scraper.make_request u p v).
Proof.
  intros He w. split; [|unfold scraper.make_request;
    destruct (server w (trace w) _); exact I].
  unfold scraper.make_request, extends.
  destruct (server w (trace w) (mkRequest u p v)); simpl.
  - repeat split; try reflexivity.
    + exists [Request (mkRequest u p v)]. split; [reflexivity|].
      constructor; [exact He|constructor].
    + exists []. rewrite app_nil_r. reflexivity.
  - repeat split; try reflexivity.
    + exists [Request (mkRequest u p v)]. split; [reflexivity|].
      constructor; [exact He|constructor].
    + exists [FetchError (mkRequest u p v)]. reflexivity.
Qed.

End NetworkOnly.

(** ** The walkers *)

Section WalkerFacts.

Import scraper scraper_spec normaliser_spec effects_spec walker_spec.

Lemma network_only_events {A} (E E' : event -> Prop) (R : A -> Prop) (c : M A) :
  (forall e, E e -> E' e) -> network_only E R c -> network_only E' R c.
Proof.
  intros HE Hc w. destruct (Hc w) as [(Hd & Hw & Hs & (t & Ht & HEt) & Ho) HR].
  split; [|exact HR]. unfold extends. repeat split; try assumption.
  exists t. split; [exact Ht|]. eapply Forall_impl; [|exact HEt]. exact HE.
Qed.

Lemma Forall_firstn_of {A} (P : A -> Prop) (n : nat) (l : list A) :
  Forall P l -> Forall P (firstn n l).
Proof.
  revert l. induction n as [|n IH]; intros l H; [constructor|].
  destruct l as [|x l]; [constructor|]. inversion H; subst.
  simpl. constructor; [assumption|apply IH; assumption].
Qed.

Lemma Forall_skipn_of {A} (P : A -> Prop) (n : nat) (l : list A) :
  Forall P l -> Forall P (skipn n l).
Proof.
  revert l. induction n as [|n IH]; intros l H; [exact H|].
  destruct l as [|x l]; [constructor|]. inversion H; subst.
  simpl. apply IH. assumption.
Qed.

Lemma Forall_slice {A} (P : A -> Prop) (l : list A) (i j : Z) :
  Forall P l -> Forall P (slice l i j).
Proof.
  intros H. unfold slice. apply Forall_firstn_of, Forall_skipn_of, H.
Qed.

(** The events a walker may emit are given by a predicate [E] that lets
    through pauses, requests other than detail requests, and the detail
    request for any chunk of ids that satisfy [ok]. *)
Section Allowed.

Variable cfg : Config.
Variable E : event -> Prop.
Variable ok : json -> Prop.

Hypothesis E_sleep : E Sleep.
Hypothesis E_other :
  forall (u : string) (p : pydict) (v : string),
    u <> "/tk/getQuestions" -> E (Request (mkRequest u p v)).
Hypothesis E_details :
  forall c : list json, c <> [] -> Forall ok c -> E (Request (details_request c)).

Lemma sleep_network_only : network_only E (@anything unit) sleep.
Proof. apply network_only_emit, E_sleep. Qed.

Lemma get_question_details_network_only (qids : list json) :
  Forall ok qids -> network_only E (@anything json) (get_question_details qids).
Proof.
  intros Hok. unfold get_question_details. destruct qids as [|x qids].
  - apply network_only_ret. exact I.
  - eapply network_only_bind.
    + apply network_only_make_request.
      apply (E_details (x :: qids)); [discriminate|exact Hok].
    + intros data _. apply network_only_lift. intros; exact I.
Qed.

Lemma get_question_details_batched_network_only (qids : list json)
    (batch_size : option Z) :
  Forall ok qids ->
  network_only E (@anything (list json))
    (get_question_details_batched cfg qids batch_size).
Proof.
  intros Hok. unfold get_question_details_batched.
  eapply network_only_bind.
  - apply network_only_lift with (R := anything). intros; exact I.
  - intros starts _. apply network_only_for_acc; [|exact I].
    intros i all_details _ _.
    eapply network_only_bind.
    + apply get_question_details_network_only, Forall_slice, Hok.
    + intros details _. eapply network_only_bind with (R1 := anything).
      * destruct (truthy details).
        -- eapply network_only_bind with (R1 := anything).
           ++ apply network_only_lift. intros; exact I.
           ++ intros items _. apply network_only_ret. exact I.
        -- apply network_only_ret. exact I.
      * intros all_details' _. eapply network_only_bind.
        -- apply sleep_network_only.
        -- intros _ _. apply network_only_ret. exact I.
Qed.

Lemma get_comments_network_only (question_id : json) :
  network_only E (@anything (list json)) (get_comments question_id).
Proof.
  unfold get_comments. eapply network_only_bind.
  - apply network_only_make_request, E_other. discriminate.
  - intros data _. eapply network_only_bind with (R1 := anything).
    + apply network_only_lift. intros; exact I.
    + intros comments_data _. eapply network_only_bind with (R1 := anything).
      * apply network_only_lift. intros; exact I.
      * intros items _. apply network_only_lift. intros; exact I.
Qed.

Lemma option_entries_shaped (m : pydict) : Forall option_shaped (option_entries m).
Proof.
  unfold option_entries. apply Forall_flat_map. repeat constructor;
    unfold option_entry; cbv zeta;
    match goal with
    | |- Forall _ (if ?b then _ else _) => destruct b
    end; repeat constructor; eexists; eexists; reflexivity.
Qed.

(** A question that the normaliser returned, with its comments attached. *)
Lemma normalized_synced (q_data : json) (source : string) (origin_name sub_name : json)
    (n : pydict) (comments : list json) :
  _normalize_question q_data source origin_name sub_name = Ok (Some n) ->
  synced_question source (JObj (dict_set n "comments" (JArr comments))).
Proof.
  rewrite normalize_question_run.
  destruct (truthy q_data); [|discriminate].
  destruct q_data as [| | | | |m]; try discriminate.
  destruct (undecodable m); [discriminate|].
  intros [= <-]. unfold synced_question, normalized, normalized_with.
  do 9 eexists. split; [reflexivity|]. apply option_entries_shaped.
Qed.

Lemma collect_network_only (source : string) (origin_name sub_name : json)
    (details all_questions : list json) :
  Forall (synced_question source) all_questions ->
  network_only E (Forall (synced_question source))
    (collect cfg source origin_name sub_name details all_questions).
Proof.
  unfold collect. apply network_only_for_acc.
  intros q_data acc _ Hacc.
  eapply network_only_bind; [apply sleep_network_only|]. intros _ _.
  eapply network_only_bind with (R1 := anything).
  - destruct (INCLUDE_COMMENTS cfg).
    + eapply network_only_bind with (R1 := anything).
      * apply network_only_lift. intros; exact I.
      * intros qid _. apply get_comments_network_only.
    + apply network_only_ret. exact I.
  - intros comments _.
    eapply network_only_bind
      with (R1 := fun r => _normalize_question q_data source origin_name sub_name = Ok r).
    + apply network_only_lift. intros a Ha. exact Ha.
    + intros [n|] Hn; [|apply network_only_ret, Hacc].
      destruct n as [|kv n]; [apply network_only_ret, Hacc|].
      apply network_only_ret. apply Forall_app. split; [exact Hacc|].
      constructor; [|constructor].
      eapply normalized_synced. exact Hn.
Qed.

End Allowed.

(** One step of a walker that reads a field of a JSON value, and one that
    sends a request other than a detail request. *)
Ltac net_lift :=
  eapply network_only_bind with (R1 := anything);
  [apply network_only_lift; intros; exact I|intros ? _].

Ltac net_request :=
  eapply network_only_bind;
  [apply network_only_make_request;
   match goal with
   | H : forall (u : string) (p : pydict) (v : string), _ |- _ =>
       apply H; discriminate
   end
  |intros ? _].

Ltac net_if :=
  match goal with
  | |- network_only _ _ (if negb (truthy ?x) then _ else _) =>
      destruct (truthy x); cbn [negb]
  end.

Section Walkers.

Variable cfg : Config.
Variable existing : option int_set.
Variable E : event -> Prop.
Variable ok : json -> Prop.

Hypothesis E_sleep : E Sleep.
Hypothesis E_other :
  forall (u : string) (p : pydict) (v : string),
    u <> "/tk/getQuestions" -> E (Request (mkRequest u p v)).
Hypothesis E_details :
  forall c : list json, c <> [] -> Forall ok c -> E (Request (details_request c)).

(** The integers a walker keeps satisfy [ok]: all of them when it does not
    filter, those outside the set when it does. *)
Hypothesis ok_kept :
  forall qids : list Z,
    Forall ok
      (map JNum
         (if nonempty existing
          then filter (fun q => negb (set_mem q (set_of existing))) qids
          else qids)).

Lemma fetch_qids_network_only (source : string)
    (origin_name sub_name qids_str : json) (all_questions : list json) :
  Forall (synced_question source) all_questions ->
  network_only E (Forall (synced_question source))
    (fetch_qids cfg existing source origin_name sub_name qids_str all_questions).
Proof.
  intros Hall. unfold fetch_qids. net_lift. cbv zeta.
  assert (Hfetch : forall qids : list Z,
             Forall ok (map JNum qids) ->
             network_only E (Forall (synced_question source))
               (mbind (get_question_details_batched cfg (map JNum qids) None)
                  (fun details =>
                     collect cfg source origin_name sub_name details all_questions))).
  { intros qids Hok. eapply network_only_bind.
    - apply (get_question_details_batched_network_only cfg E ok); assumption.
    - intros details _. apply collect_network_only; assumption. }
  pose proof (ok_kept a) as Hok.
  destruct (nonempty existing) eqn:Hne.
  - destruct (filter _ a) as [|q qs].
    + apply network_only_ret, Hall.
    + apply Hfetch, Hok.
  - apply Hfetch, Hok.
Qed.

Lemma fetch_simulation_errors_network_only :
  network_only E (Forall (synced_question "simulation"))
    (fetch_simulation_errors cfg existing).
Proof.
  unfold fetch_simulation_errors. net_request.
  net_if; [|apply network_only_ret; constructor].
  net_lift. net_lift.
  apply network_only_for_acc; [|constructor].
  intros paper acc _ Hacc. net_lift. net_lift. net_lift.
  apply network_only_for_acc; [|exact Hacc].
  intros roll acc' _ Hacc'. net_lift. net_lift.
  net_if; [|apply network_only_ret, Hacc'].
  apply fetch_qids_network_only, Hacc'.
Qed.

Lemma fetch_real_exam_errors_network_only :
  network_only E (Forall (synced_question "real"))
    (fetch_real_exam_errors cfg existing).
Proof.
  unfold fetch_real_exam_errors. net_request.
  net_if; [|apply network_only_ret; constructor].
  net_lift. net_lift.
  apply network_only_for_acc; [|constructor].
  intros paper acc _ Hacc. net_lift. cbv zeta. net_lift.
  net_if; [|apply network_only_ret, Hacc].
  apply fetch_qids_network_only, Hacc.
Qed.

End Walkers.

(** The third walker filters the JSON values it was sent, whatever their
    type: its events are followed with a predicate that lets every detail
    request through. *)
Section FamousWalker.

Variable cfg : Config.
Variable existing : option int_set.
Variable E : event -> Prop.

Hypothesis E_sleep : E Sleep.
Hypothesis E_other :
  forall (u : string) (p : pydict) (v : string),
    u <> "/tk/getQuestions" -> E (Request (mkRequest u p v)).
Hypothesis E_details :
  forall c : list json, c <> [] -> Forall anything c -> E (Request (details_request c)).

Lemma Forall_anything (l : list json) : Forall anything l.
Proof. apply Forall_forall. intros; exact I. Qed.

Lemma fetch_famous_errors_network_only :
  network_only E (Forall (synced_question "famous"))
    (fetch_famous_errors cfg existing).
Proof.
  unfold fetch_famous_errors. net_request.
  net_if; [|apply network_only_ret; constructor].
  net_lift. net_lift.
  apply network_only_for_acc; [|constructor].
  intros class_item acc _ Hacc. net_lift.
  eapply network_only_bind with (R1 := anything);
    [apply network_only_lift; intros; exact I|intros origin_name _].
  net_if; [|apply network_only_ret, Hacc].
  net_request. net_lift. cbv zeta. net_lift.
  apply network_only_for_acc; [|exact Hacc].
  intros book acc1 _ Hacc1. net_lift.
  net_if; [|apply network_only_ret, Hacc1].
  net_request.
  net_if; [|apply network_only_ret, Hacc1].
  net_lift. net_lift.
  apply network_only_for_acc; [|exact Hacc1].
  intros chapter acc2 _ Hacc2.
  eapply network_only_bind with (R1 := anything);
    [apply network_only_lift; intros; exact I|intros sub_name _].
  net_lift. net_lift.
  eapply network_only_bind with (R1 := anything);
    [apply network_only_lift; intros; exact I|intros qids _].
  cbv zeta.
  assert (Hfetch : forall qids : list json,
             network_only E (Forall (synced_question "famous"))
               (mbind (get_question_details_batched cfg qids None)
                  (fun details =>
                     collect cfg "famous" origin_name sub_name details acc2))).
  { intros l. eapply network_only_bind.
    - apply (get_question_details_batched_network_only cfg E anything);
        try assumption. apply Forall_anything.
    - intros details _. apply collect_network_only; assumption. }
  destruct qids as [|q qids]; [apply network_only_ret, Hacc2|].
  destruct (nonempty existing) eqn:Hne.
  - eapply network_only_bind with (R1 := anything).
    + apply network_only_lift. intros; exact I.
    + intros kept _.
      destruct kept as [|k kept]; [apply network_only_ret, Hacc2|].
      apply Hfetch.
  - apply Hfetch.
Qed.

End FamousWalker.

Lemma walkers_network_only (cfg : Config) (existing : option int_set) :
  network_only (fun _ => True) (Forall (synced_question "simulation"))
    (fetch_simulation_errors cfg existing) /\
  network_only (fun _ => True) (Forall (synced_question "real"))
    (fetch_real_exam_errors cfg existing) /\
  network_only (fun _ => True) (Forall (synced_question "famous"))
    (fetch_famous_errors cfg existing).
Proof.
  split; [|split].
  - apply (fetch_simulation_errors_network_only cfg existing (fun _ => True) anything);
      try (intros; exact I).
    intros qids. apply Forall_anything.
  - apply (fetch_real_exam_errors_network_only cfg existing (fun _ => True) anything);
      try (intros; exact I).
    intros qids. apply Forall_anything.
  - apply (fetch_famous_errors_network_only cfg existing (fun _ => True));
      intros; exact I.
Qed.

(** X4: each of the three walkers uses only the network and the console:
    it leaves the data file and the count of writes as they are, whatever
    the server answers and also when it raises.  Every question it returns
    has the twelve keys of a stored question, the status [new], no review
    date, and the tag of the walker as source. *)
Theorem walkers_return_tagged_questions :
  forall (cfg : Config) (existing : option int_set),
    network_only (fun _ => True) (Forall (synced_question "simulation"))
      (fetch_simulation_errors cfg existing) /\
    network_only (fun _ => True) (Forall (synced_question "real"))
      (fetch_real_exam_errors cfg existing) /\
    network_only (fun _ => True) (Forall (synced_question "famous"))
      (fetch_famous_errors cfg existing).
Proof. exact walkers_network_only. Qed.

Lemma new_ids_numbers (s : int_set) (c : list json) :
  Forall (new_id s) c ->
  exists l, c = map JNum l /\ Forall (fun n => set_mem n s = false) l.
Proof.
  induction 1 as [|q c (n & -> & Hn) _ (l & -> & Hl)].
  - exists []. split; [reflexivity|constructor].
  - exists (n :: l). split; [reflexivity|]. constructor; assumption.
Qed.

Lemma details_request_asks_outside (s : int_set) (c : list json) :
  c <> [] -> Forall (new_id s) c -> asks_outside s (Request (details_request c)).
Proof.
  intros Hc Hnew _. destruct (new_ids_numbers s c Hnew) as (l & -> & Hl).
  exists l. split; [|exact Hl].
  unfold asked_ids, details_request. cbn [params dict_get_or dict_get String.eqb].
  apply parse_qids_join. intros ->. apply Hc. reflexivity.
Qed.

Lemma filtered_new_ids (s : int_set) (qids : list Z) :
  Forall (new_id s) (map JNum (filter (fun q => negb (set_mem q s)) qids)).
Proof.
  apply Forall_forall. intros q Hq. apply in_map_iff in Hq.
  destruct Hq as (n & <- & Hn). apply filter_In in Hn. destruct Hn as [_ Hn].
  exists n. split; [reflexivity|]. apply negb_true_iff, Hn.
Qed.

(** A detail request for an id of the set does not pass. *)
Lemma asks_outside_rejects :
  ~ asks_outside [1; 2; 3]%Z (Request (details_request [JNum 4; JNum 2])).
Proof.
  intros H. destruct (H eq_refl) as (c & Hc & Hout).
  vm_compute in Hc. injection Hc as <-.
  inversion Hout as [|? ? _ Hrest]; subst.
  inversion Hrest as [|? ? H2 _]; subst. discriminate H2.
Qed.

(** X5: the simulation walker and the real-exam walker, given a set of ids
    with at least one member, never ask the server for the details of an
    id of that set: the [qids] text of every detail request they send reads
    back, with the walkers' own parser, as integers that are not members of
    the set. *)
Theorem walkers_skip_existing_ids :
  forall (cfg : Config) (s : int_set),
    s <> [] ->
    network_only (asks_outside s) anything
      (fetch_simulation_errors cfg (Some s)) /\
    network_only (asks_outside s) anything
      (fetch_real_exam_errors cfg (Some s)).
Proof.
  intros cfg s Hs.
  assert (Hne : nonempty (Some s) = true) by (destruct s; [congruence|reflexivity]).
  assert (Hother : forall (u : string) (p : pydict) (v : string),
             u <> "/tk/getQuestions" -> asks_outside s (Request (mkRequest u p v))).
  { intros u p v Hu Hurl. simpl in Hurl. contradiction. }
  assert (Hkept : forall qids : list Z,
             Forall (new_id s)
               (map JNum
                  (if nonempty (Some s)
                   then filter (fun q => negb (set_mem q (set_of (Some s)))) qids
                   else qids))).
  { intros qids. rewrite Hne. apply filtered_new_ids. }
  split.
  - eapply network_only_weaken; [intros; exact I|].
    apply (fetch_simulation_errors_network_only cfg (Some s) (asks_outside s) (new_id s));
      [exact I|exact Hother|apply details_request_asks_outside|exact Hkept].
  - eapply network_only_weaken; [intros; exact I|].
    apply (fetch_real_exam_errors_network_only cfg (Some s) (asks_outside s) (new_id s));
      [exact I|exact Hother|apply details_request_asks_outside|exact Hkept].
Qed.

Lemma walkers_skip_existing_ids_witness :
  network_only (asks_outside [1; 2; 3]%Z) anything
    (fetch_simulation_errors sync_spec.incremental_config (Some [1; 2; 3]%Z)).
Proof.
  refine (proj1 (walkers_skip_existing_ids sync_spec.incremental_config
                   [1; 2; 3]%Z _)).
  discriminate.
Defined.

End WalkerFacts.

(** ** Synchronisation as a whole *)

Section SyncOutcome.

Import scraper scraper_spec normaliser_spec effects_spec walker_spec.
Import data_manager store_spec interactive_cli.

Let any_event : event -> Prop := fun _ => True.

Lemma load_existing_ids_network_only :
  network_only any_event (@anything id_sets) _load_existing_ids.
Proof.
  intros w. unfold _load_existing_ids.
  destruct (disk w); (split; [apply extends_refl|exact I]).
Qed.

Lemma fetch_all_errors_network_only (cfg : Config) (last_sync : string) :
  network_only any_event (synced_dict last_sync) (fetch_all_errors cfg last_sync).
Proof.
  unfold fetch_all_errors. cbv zeta.
  eapply network_only_bind with (R1 := anything).
  { destruct (INCREMENTAL cfg).
    - apply load_existing_ids_network_only.
    - apply network_only_ret. exact I. }
  intros existing _.
  eapply network_only_bind with (R1 := Forall (synced_question "simulation")).
  { destruct (selected cfg "simulation"); [|apply network_only_ret; constructor].
    eapply network_only_bind.
    - apply (proj1 (walkers_network_only cfg _)).
    - intros errors Herrors. eapply network_only_bind.
      + apply network_only_emit. exact I.
      + intros _ _. apply network_only_ret, Herrors. }
  intros simulation Hs.
  eapply network_only_bind with (R1 := Forall (synced_question "real")).
  { destruct (selected cfg "real"); [|apply network_only_ret; constructor].
    eapply network_only_bind.
    - apply (proj1 (proj2 (walkers_network_only cfg _))).
    - intros errors Herrors. eapply network_only_bind.
      + apply network_only_emit. exact I.
      + intros _ _. apply network_only_ret, Herrors. }
  intros real Hr.
  eapply network_only_bind with (R1 := Forall (synced_question "famous")).
  { destruct (selected cfg "famous"); [|apply network_only_ret; constructor].
    apply (proj2 (proj2 (walkers_network_only cfg _))). }
  intros famous Hf.
  apply network_only_ret. exists simulation, real, famous.
  split; [reflexivity|]. auto.
Qed.

(** The run of [sync_data], by the outcome of [fetch_all_errors]. *)
Lemma sync_data_run (cfg : Config) (last_sync : string) (w : World) :
  match fetch_all_errors cfg last_sync w with
  | (Ok d, w1) =>
      sync_data cfg last_sync w = (Ok true, written (JObj d) w1) /\
      synced_dict last_sync d /\ writes w1 = writes w
  | (Raise e, w1) =>
      sync_data cfg last_sync w = (Ok false, printed (SyncError e) w1) /\
      disk w1 = disk w /\ writes w1 = writes w /\
      exists out, stdout w1 = (stdout w ++ out)%list
  end.
Proof.
  unfold sync_data, try_except, mbind.
  destruct (fetch_all_errors_network_only cfg last_sync w)
    as [(Hd & Hw & Hs & _ & (out & Hout)) HR].
  destruct (fetch_all_errors cfg last_sync w) as [[d|e] w1]; simpl in *.
  - split; [reflexivity|]. split; assumption.
  - split; [reflexivity|]. split; [exact Hd|]. split; [exact Hw|].
    exists out. exact Hout.
Qed.

(** X6: [sync_data] never raises: it returns [True] or [False].  When it
    returns [True], [fetch_all_errors] had returned a dict, and the data
    file has been rewritten once and holds that dict.  When
    [fetch_all_errors] raises, [sync_data] returns [False], the data file
    and the count of writes are as before the call, and the last line on
    the console reports the exception. *)
Theorem sync_data_outcome :
  forall (cfg : Config) (last_sync : string) (w : World),
    let r := fst (sync_data cfg last_sync w) in
    let w' := snd (sync_data cfg last_sync w) in
    (r = Ok true \/ r = Ok false) /\
    (r = Ok true ->
     exists d,
       fst (fetch_all_errors cfg last_sync w) = Ok d /\
       synced_dict last_sync d /\
       disk w' = Doc (JObj d) /\ writes w' = S (writes w)) /\
    (forall e,
       fst (fetch_all_errors cfg last_sync w) = Raise e ->
       r = Ok false /\ disk w' = disk w /\ writes w' = writes w /\
       exists out, stdout w' = (stdout w ++ out ++ [SyncError e])%list).
Proof.
  intros cfg last_sync w. cbv zeta.
  pose proof (sync_data_run cfg last_sync w) as Hrun.
  destruct (fetch_all_errors cfg last_sync w) as [[d|e] w1].
  - destruct Hrun as (-> & Hd & Hw). cbn [fst snd]. split; [left; reflexivity|].
    split; [|discriminate]. intros _. exists d.
    split; [reflexivity|]. split; [exact Hd|]. split; [reflexivity|].
    cbn [written writes]. rewrite Hw. reflexivity.
  - destruct Hrun as (-> & Hd & Hw & out & Hout). cbn [fst snd].
    split; [right; reflexivity|]. split; [discriminate|].
    intros e' [= <-]. split; [reflexivity|]. split; [exact Hd|].
    split; [exact Hw|]. exists out. cbn [printed stdout]. rewrite Hout, <- app_assoc.
    reflexivity.
Qed.

Lemma sync_data_outcome_witness :
  (exists d,
     fst (fetch_all_errors sync_spec.incremental_config "2024-06-01T00:00:00Z"
            sync_spec.local_world) = Ok d /\
     disk (snd (sync_data sync_spec.incremental_config "2024-06-01T00:00:00Z"
                  sync_spec.local_world)) = Doc (JObj d)) /\
  fst (sync_data default_config "2024-06-01T00:00:00Z" garbled_world) = Ok false /\
  disk (snd (sync_data default_config "2024-06-01T00:00:00Z" garbled_world)) =
    disk garbled_world.
Proof.
  split.
  - destruct (proj1 (proj2 (sync_data_outcome sync_spec.incremental_config
                              "2024-06-01T00:00:00Z" sync_spec.local_world)) eq_refl)
      as (d & Hfetch & _ & Hdisk & _).
    exists d. split; assumption.
  - destruct (proj2 (proj2 (sync_data_outcome default_config
                              "2024-06-01T00:00:00Z" garbled_world))
                ValueError eq_refl) as (Hr & Hdisk & _).
    split; assumption.
Defined.

Lemma option_shaped_parsed (os : list json) :
  Forall option_shaped os ->
  forallb well_formed_option os = true /\
  exists ops, rmap Option_of_kwargs os = Ok ops.
Proof.
  induction 1 as [|o os (l & c & ->) _ (Hwf & ops & Hops)].
  - split; [reflexivity|]. exists []. reflexivity.
  - split; [simpl; exact Hwf|].
    exists (Option.mk (JStr l) c :: ops). simpl. rewrite Hops. reflexivity.
Qed.

(** A question returned by a walker is a well-formed record of the data
    file, and is loaded as a question that was never reviewed. *)
Lemma synced_question_parsed (source : string) (j : json) :
  synced_question source j ->
  well_formed_question j = true /\
  exists q, parse_question j = Ok q /\ fresh_question source q.
Proof.
  intros (id & on & sn & ty & content & options & answer & analysis & comments
          & -> & Hopts).
  destruct (option_shaped_parsed options Hopts) as (Hwf & ops & Hops).
  split.
  - cbn [well_formed_question]. apply andb_true_intro. split; [reflexivity|].
    exact Hwf.
  - unfold parse_question. cbn [getitem dict_get String.eqb Ascii.eqb Bool.eqb
      rbind iter get dict_get_or]. rewrite Hops. cbn [rbind].
    eexists. split; [reflexivity|]. repeat split.
Qed.

Lemma synced_questions_parsed (source : string) (l : list json) :
  Forall (synced_question source) l ->
  forallb well_formed_question l = true /\
  exists qs, parse_questions (JArr l) = Ok qs /\ Forall (fresh_question source) qs.
Proof.
  unfold parse_questions. cbn [iter rbind].
  induction 1 as [|j l Hj _ (Hwf & qs & Hqs & Hfresh)].
  - split; [reflexivity|]. exists []. split; [reflexivity|constructor].
  - destruct (synced_question_parsed source j Hj) as (Hwfj & q & Hq & Hfq).
    split; [simpl; rewrite Hwfj; exact Hwf|].
    exists (q :: qs). simpl. rewrite Hq. cbn [rbind]. rewrite Hqs.
    split; [reflexivity|]. constructor; assumption.
Qed.

(** X7: the file that a successful [sync_data] leaves is a well-formed
    dataset file; [load_data] reads it without an error, and every question
    it loads has the status [new], no review date and the name of its
    bucket as source, whatever the file held before the call. *)
Theorem sync_then_load :
  forall (cfg : Config) (last_sync : string) (w : World),
    fst (sync_data cfg last_sync w) = Ok true ->
    let w' := snd (sync_data cfg last_sync w) in
    exists j d,
      disk w' = Doc j /\
      well_formed_dataset j = true /\
      load_data w' = (Ok d, w') /\
      ErrorData.meta d = JObj [("last_sync", JStr last_sync); ("version", JStr "1.0")] /\
      Forall (fresh_question "simulation") (ErrorData.simulation d) /\
      Forall (fresh_question "real") (ErrorData.real d) /\
      Forall (fresh_question "famous") (ErrorData.famous d).
Proof.
  intros cfg last_sync w Hok. cbv zeta.
  pose proof (sync_data_run cfg last_sync w) as H.
  destruct (fetch_all_errors cfg last_sync w) as [[d|e] w1].
  - destruct H as (Hrun & (sim & real & fam & -> & Hs & Hr & Hf) & _).
    assert (Hdisk : disk (snd (sync_data cfg last_sync w)) =
                    Doc (JObj [("meta", JObj [("last_sync", JStr last_sync);
                                              ("version", JStr "1.0")]);
                               ("simulation", JArr sim);
                               ("real", JArr real);
                               ("famous", JArr fam)]))
      by (rewrite Hrun; reflexivity).
    destruct (synced_questions_parsed _ _ Hs) as (Hws & qs & Hqs & Hfs).
    destruct (synced_questions_parsed _ _ Hr) as (Hwr & qr & Hqr & Hfr).
    destruct (synced_questions_parsed _ _ Hf) as (Hwf & qf & Hqf & Hff).
    eexists.
    exists (ErrorData.mk
              (JObj [("last_sync", JStr last_sync); ("version", JStr "1.0")])
              qs qr qf).
    split; [exact Hdisk|].
    split.
    + cbn [well_formed_dataset]. cbn [dict_get String.eqb Ascii.eqb Bool.eqb
        well_formed_bucket].
      rewrite Hws, Hwr, Hwf. reflexivity.
    + split.
      * rewrite load_data_cases, Hdisk. unfold parse_data.
        cbn [get dict_get_or dict_get String.eqb Ascii.eqb Bool.eqb rbind].
        rewrite Hqs. cbn [rbind]. rewrite Hqr. cbn [rbind]. rewrite Hqf.
        reflexivity.
      * cbn [ErrorData.meta ErrorData.simulation ErrorData.real ErrorData.famous].
        auto.
  - destruct H as (Hrun & _). rewrite Hrun in Hok. discriminate.
Qed.

Lemma sync_then_load_witness :
  exists j d,
    disk (snd (sync_data sync_spec.incremental_config "2024-06-01T00:00:00Z"
                 sync_spec.local_world)) = Doc j /\
    well_formed_dataset j = true /\
    load_data (snd (sync_data sync_spec.incremental_config "2024-06-01T00:00:00Z"
                      sync_spec.local_world)) =
      (Ok d, snd (sync_data sync_spec.incremental_config "2024-06-01T00:00:00Z"
                    sync_spec.local_world)) /\
    ErrorData.meta d =
      JObj [("last_sync", JStr "2024-06-01T00:00:00Z"); ("version", JStr "1.0")] /\
    Forall (fresh_question "simulation") (ErrorData.simulation d) /\
    Forall (fresh_question "real") (ErrorData.real d) /\
    Forall (fresh_question "famous") (ErrorData.famous d).
Proof.
  apply (sync_then_load sync_spec.incremental_config "2024-06-01T00:00:00Z"
           sync_spec.local_world).
  reflexivity.
Defined.

End SyncOutcome.

(** ** Batch sizes *)

Section BatchSizeFacts.

Import scraper scraper_spec interactive_cli options_spec.

(** X8: a batch size of zero makes [get_question_details_batched] raise
    [ValueError] before any request, even for an empty list of ids; a
    negative batch size makes it return no details at all, without any
    request and without an error; with a positive batch size an empty list
    of ids costs no request. *)
Theorem get_question_details_batched_degenerate :
  forall (cfg : Config) (qids : list json) (w : World),
    get_question_details_batched cfg qids (Some 0%Z) w = (Raise ValueError, w) /\
    (forall bs, (bs < 0)%Z ->
       get_question_details_batched cfg qids (Some bs) w = (Ok [], w)) /\
    (forall bs, (0 < bs)%Z ->
       get_question_details_batched cfg [] (Some bs) w = (Ok [], w)).
Proof.
  intros cfg qids w. unfold get_question_details_batched, range0, mbind, lift.
  split; [reflexivity|]. split.
  - intros bs Hbs. destruct (Z.eqb_spec bs 0) as [?|_]; [lia|].
    destruct (Z.ltb_spec bs 0) as [_|?]; [reflexivity|lia].
  - intros bs Hbs. destruct (Z.eqb_spec bs 0) as [?|_]; [lia|].
    destruct (Z.ltb_spec bs 0) as [?|_]; [lia|]. reflexivity.
Qed.

Lemma get_question_details_batched_degenerate_witness :
  get_question_details_batched default_config (map JNum [1; 2; 3]%Z) (Some (-5)%Z)
    echo_world = (Ok [], echo_world) /\
  get_question_details_batched default_config [] (Some 50%Z) echo_world =
    (Ok [], echo_world).
Proof.
  pose proof (get_question_details_batched_degenerate default_config
                (map JNum [1; 2; 3]%Z) echo_world) as (_ & Hneg & _).
  pose proof (get_question_details_batched_degenerate default_config
                [] echo_world) as (_ & _ & Hpos).
  split; [apply Hneg|apply Hpos]; reflexivity.
Defined.

(** X9: the batch size used when the caller passes none is the integer
    that the [BATCH_SIZE] variable of the environment spells, and the
    module-level [BATCH_SIZE] when the variable is not set or does not
    spell an integer. *)
Theorem default_batch_size_cases :
  forall cfg : Config,
    (environ_BATCH_SIZE cfg = None -> default_batch_size cfg = BATCH_SIZE cfg) /\
    (forall s n, environ_BATCH_SIZE cfg = Some s -> int s = Ok n ->
                 default_batch_size cfg = n) /\
    (forall s e, environ_BATCH_SIZE cfg = Some s -> int s = Raise e ->
                 default_batch_size cfg = BATCH_SIZE cfg).
Proof.
  intros cfg. unfold default_batch_size. repeat split.
  - intros ->. rewrite int_of_str_of_Z. reflexivity.
  - intros s n -> ->. reflexivity.
  - intros s e -> ->. reflexivity.
Qed.

Lemma default_batch_size_cases_witness :
  default_batch_size default_config = 50%Z /\
  default_batch_size (mkConfig false 50 false all_sources (Some " 80 ")) = 80%Z /\
  default_batch_size (mkConfig false 50 false all_sources (Some "many")) = 50%Z.
Proof.
  pose proof (default_batch_size_cases default_config) as (H1 & _).
  pose proof (default_batch_size_cases
                (mkConfig false 50 false all_sources (Some " 80 "))) as (_ & H2 & _).
  pose proof (default_batch_size_cases
                (mkConfig false 50 false all_sources (Some "many"))) as (_ & _ & H3).
  split; [apply H1; reflexivity|].
  split; [apply (H2 " 80 "); reflexivity|].
  apply (H3 "many" ValueError); reflexivity.
Defined.

Lemma set_batch_size_default (n : Z) (p : Process) :
  default_batch_size (config (set_BATCH_SIZE n p)) = n /\
  BATCH_SIZE (config (set_BATCH_SIZE n p)) = n.
Proof.
  split; [|reflexivity]. unfold default_batch_size, set_BATCH_SIZE.
  cbn [config environ_BATCH_SIZE]. rewrite int_of_str_of_Z. reflexivity.
Qed.

(** X10: the settings menu changes the batch size only to a positive
    integer.  A line that spells an integer above zero becomes the batch
    size of every later fetch; any other line leaves the process as it is.
    So a batch size that is positive stays positive. *)
Theorem settings_batch_size_positive :
  forall (line : string) (p : Process),
    exists p',
      settings_batch_size line p = Ok p' /\
      match int (strip line) with
      | Ok n =>
          if (0 <? n)%Z
          then default_batch_size (config p') = n /\ BATCH_SIZE (config p') = n
          else p' = p
      | Raise _ => p' = p
      end /\
      ((0 < default_batch_size (config p))%Z ->
       (0 < default_batch_size (config p'))%Z).
Proof.
  intros line p. unfold settings_batch_size.
  destruct (int (strip line)) as [n|e] eqn:Hint.
  - destruct (Z.leb_spec n 0) as [Hle|Hgt].
    + exists p. split; [reflexivity|].
      destruct (Z.ltb_spec 0 n) as [?|_]; [lia|]. split; [reflexivity|trivial].
    + unfold set_runtime_options. cbn [rbind int_of].
      exists (set_BATCH_SIZE n p). split; [reflexivity|].
      destruct (Z.ltb_spec 0 n) as [_|?]; [|lia].
      pose proof (set_batch_size_default n p) as [Hd Hb].
      split; [split; assumption|]. intros _. rewrite Hd. exact Hgt.
  - exists p. split; [reflexivity|]. split; [reflexivity|trivial].
Qed.

Lemma settings_batch_size_positive_witness :
  (exists p',
     settings_batch_size " 80 " default_process = Ok p' /\
     default_batch_size (config p') = 80%Z /\
     BATCH_SIZE (config p') = 80%Z) /\
  settings_batch_size "-3" default_process = Ok default_process /\
  settings_batch_size "many" default_process = Ok default_process.
Proof.
  destruct (settings_batch_size_positive " 80 " default_process)
    as (p1 & Hrun1 & Hcase1 & _).
  destruct (settings_batch_size_positive "-3" default_process)
    as (p2 & Hrun2 & Hcase2 & _).
  destruct (settings_batch_size_positive "many" default_process)
    as (p3 & Hrun3 & Hcase3 & _).
  split; [|split].
  - exists p1. split; [exact Hrun1|]. exact Hcase1.
  - rewrite Hrun2. f_equal. exact Hcase2.
  - rewrite Hrun3. f_equal. exact Hcase3.
Defined.

End BatchSizeFacts.

(** ** The selection of sources *)

Section SourcesFacts.

Import scraper options_spec.

Lemma mapping_get_range (p v : string) :
  mapping_get p = Some v -> In v all_sources.
Proof.
  unfold mapping_get, mapping. cbn [find fst snd].
  repeat match goal with
         | |- context [if ?b then _ else _] => destruct b
         end;
    intros [= <-]; simpl; tauto.
Qed.

Lemma str_set_add_In (x name : string) (s : list string) :
  In name (str_set_add x s) <-> name = x \/ In name s.
Proof.
  unfold str_set_add. destruct (existsb (String.eqb x) s) eqn:Hx.
  - split; [tauto|]. intros [->|H]; [|exact H].
    apply existsb_exists in Hx. destruct Hx as (y & Hy & Hxy).
    apply String.eqb_eq in Hxy. subst. exact Hy.
  - rewrite in_app_iff. simpl. intuition.
Qed.

Lemma str_set_add_NoDup (x : string) (s : list string) :
  NoDup s -> NoDup (str_set_add x s).
Proof.
  intros Hs. unfold str_set_add. destruct (existsb (String.eqb x) s) eqn:Hx.
  - exact Hs.
  - apply NoDup_app; [exact Hs|repeat constructor; simpl; tauto|].
    intros y Hy [Hxy|[]]. subst y.
    assert (existsb (String.eqb x) s = true)
      by (apply existsb_exists; exists x; split; [exact Hy|apply String.eqb_refl]).
    congruence.
Qed.

Lemma parse_sources_fold (pieces : list string) :
  forall out0 : list string,
    let out :=
      fold_left
        (fun out p =>
           let p := lower (strip p) in
           match mapping_get p with
           | Some source => str_set_add source out
           | None => out
           end) pieces out0 in
    (NoDup out0 -> NoDup out) /\
    (forall name, In name out <->
       In name out0 \/
       exists piece, In piece pieces /\ piece_source piece = Some name).
Proof.
  induction pieces as [|p pieces IH]; intros out0; cbn [fold_left].
  - split; [trivial|]. intros name. split; [tauto|].
    intros [H|(piece & [] & _)]. exact H.
  - cbv zeta. fold (piece_source p).
    specialize (IH match piece_source p with
                   | Some source => str_set_add source out0
                   | None => out0
                   end).
    cbv zeta in IH. destruct IH as [IHnd IHin]. split.
    + intros Hnd. apply IHnd. destruct (piece_source p); [|exact Hnd].
      apply str_set_add_NoDup, Hnd.
    + intros name. rewrite IHin. destruct (piece_source p) as [v|] eqn:Hp.
      * rewrite str_set_add_In. split.
        -- intros [[->|H]|(piece & Hin & Hs)].
           ++ right. exists p. split; [left; reflexivity|exact Hp].
           ++ left. exact H.
           ++ right. exists piece. split; [right; exact Hin|exact Hs].
        -- intros [H|(piece & [<-|Hin] & Hs)].
           ++ left. right. exact H.
           ++ left. left. congruence.
           ++ right. exists piece. split; assumption.
      * split.
        -- intros [H|(piece & Hin & Hs)]; [left; exact H|].
           right. exists piece. split; [right; exact Hin|exact Hs].
        -- intros [H|(piece & [<-|Hin] & Hs)]; [left; exact H|congruence|].
           right. exists piece. split; assumption.
Qed.

(** X11: [_parse_sources] always selects at least one source, never one
    twice and never a name other than the three buckets.  When some piece
    between the commas, trimmed and in lower case, is a bucket name or one
    of the aliases [sim], [exam] and [teacher], the selection is exactly the
    buckets so named; when no piece is, it is all three. *)
Theorem parse_sources_selection :
  forall val : string,
    let r := _parse_sources val in
    r <> [] /\
    NoDup r /\
    incl r all_sources /\
    ((exists piece name, In piece (split "," val) /\ piece_source piece = Some name) ->
     forall name, In name r <->
       exists piece, In piece (split "," val) /\ piece_source piece = Some name) /\
    ((forall piece, In piece (split "," val) -> piece_source piece = None) ->
     r = all_sources).
Proof.
  intros val. cbv zeta.
  assert (Hall_nd : NoDup all_sources)
    by (repeat constructor; simpl; intuition discriminate).
  assert (Hempty : val = "" -> forall piece,
             In piece (split "," val) -> piece_source piece = None).
  { intros -> piece [<-|[]]. reflexivity. }
  unfold _parse_sources.
  destruct (parse_sources_fold (split "," val) []) as [Hnd Hin].
  cbv zeta in Hnd, Hin.
  destruct (String.eqb_spec val "") as [Hval|Hval].
  - split; [discriminate|]. split; [exact Hall_nd|]. split; [apply incl_refl|].
    split; [|reflexivity].
    intros (piece & name & Hp & Hs). rewrite (Hempty Hval piece Hp) in Hs.
    discriminate.
  - set (out := fold_left _ (split "," val) []) in *. clearbody out.
    destruct out as [|x rest].
    + split; [discriminate|]. split; [exact Hall_nd|]. split; [apply incl_refl|].
      split; [|reflexivity].
      intros (piece & name & Hp & Hs). exfalso.
      apply (proj2 (Hin name)). right. exists piece. split; assumption.
    + split; [discriminate|]. split; [apply Hnd; constructor|]. split.
      * intros name Hname. apply Hin in Hname.
        destruct Hname as [[]|(piece & _ & Hs)].
        eapply mapping_get_range. exact Hs.
      * split.
        -- intros _ name. rewrite Hin. split; [intros [[]|H]; exact H|].
           intros H. right. exact H.
        -- intros Hnone. exfalso.
           destruct (proj1 (Hin x) (or_introl eq_refl)) as [[]|(piece & Hp & Hs)].
           rewrite (Hnone piece Hp) in Hs. discriminate.
Qed.

Lemma parse_sources_selection_witness :
  (forall name, In name (_parse_sources " Sim ,EXAM,other,sim") <->
     exists piece, In piece (split "," " Sim ,EXAM,other,sim") /\
                   piece_source piece = Some name) /\
  _parse_sources "all,of,them" = all_sources.
Proof.
  pose proof (parse_sources_selection " Sim ,EXAM,other,sim") as (_ & _ & _ & Hsome & _).
  pose proof (parse_sources_selection "all,of,them") as (_ & _ & _ & _ & Hnone).
  split.
  - apply Hsome. exists " Sim ", "simulation". split; [left; reflexivity|reflexivity].
  - apply Hnone. intros piece [<-|[<-|[<-|[]]]]; reflexivity.
Defined.

End SourcesFacts.

(** ** The ids that count as present *)

Section ExistingIdsFacts.

Import scraper data_manager existing_spec.

Lemma set_mem_add (n x : Z) (s : int_set) :
  set_mem n (set_add x s) = (n =? x)%Z || set_mem n s.
Proof.
  unfold set_add. destruct (set_mem x s) eqn:Hx.
  - destruct (Z.eqb_spec n x) as [->|_]; [rewrite Hx|]; reflexivity.
  - unfold set_mem. rewrite existsb_app. simpl.
    rewrite orb_false_r, orb_comm. reflexivity.
Qed.

Lemma parse_question_id (item : json) (q : Question.t) :
  parse_question item = Ok q -> get item "id" JNull = Ok (Question.id q).
Proof.
  unfold parse_question, getitem. destruct item as [| | | | |m]; try discriminate.
  unfold get, dict_get_or.
  destruct (dict_get m "id") as [id|]; [|discriminate]. cbn [rbind].
  repeat match goal with
         | |- rbind ?c _ = Ok _ -> _ =>
             destruct c; cbn [rbind]; [|discriminate]
         end.
  intros [= <-]. reflexivity.
Qed.

Lemma add_ids_parsed (items : list json) :
  forall (qs : list Question.t) (s : int_set),
    rmap parse_question items = Ok qs ->
    exists s',
      add_ids items s = (s', true) /\
      forall n, set_mem n s' = true <->
                set_mem n s = true \/
                exists q, In q qs /\ as_int (Question.id q) = Some n.
Proof.
  induction items as [|item items IH]; intros qs s; simpl.
  - intros [= <-]. exists s. split; [reflexivity|]. intros n. split; [tauto|].
    intros [H|(q & [] & _)]. exact H.
  - destruct (parse_question item) as [q|] eqn:Hq; [|discriminate]. simpl.
    destruct (rmap parse_question items) as [qs'|] eqn:Hqs; [|discriminate].
    simpl. intros [= <-]. rewrite (parse_question_id item q Hq).
    destruct (IH qs' match as_int (Question.id q) with
                     | Some n => set_add n s
                     | None => s
                     end eq_refl) as (s' & Hrun & Hmem).
    exists s'. split; [exact Hrun|]. intros n. rewrite Hmem.
    destruct (as_int (Question.id q)) as [x|] eqn:Hid.
    + rewrite set_mem_add. split.
      * intros [H|(q' & Hin & Hq')].
        -- apply orb_prop in H. destruct H as [H|H]; [|left; exact H].
           apply Z.eqb_eq in H. subst. right. exists q. split; [left; reflexivity|exact Hid].
        -- right. exists q'. split; [right; exact Hin|exact Hq'].
      * intros [H|(q' & [<-|Hin] & Hq')].
        -- left. rewrite H. apply orb_true_r.
        -- left. rewrite Hid in Hq'. injection Hq' as ->. rewrite Z.eqb_refl. reflexivity.
        -- right. exists q'. split; assumption.
    + split.
      * intros [H|(q' & Hin & Hq')]; [left; exact H|].
        right. exists q'. split; [right; exact Hin|exact Hq'].
      * intros [H|(q' & [<-|Hin] & Hq')]; [left; exact H|congruence|].
        right. exists q'. split; assumption.
Qed.

(** The items [_load_existing_ids] walks through in a bucket that
    [load_data] accepted are the records that were parsed. *)
Lemma bucket_items (m : pydict) (k : string) (qs : list Question.t) :
  parse_questions (dict_get_or m k (JArr [])) = Ok qs ->
  exists items,
    (let* v := get (JObj m) k JNull in iter (or_else v (JArr []))) = Ok items /\
    rmap parse_question items = Ok qs.
Proof.
  unfold parse_questions, get, dict_get_or. cbn [rbind].
  destruct (dict_get m k) as [x|].
  - destruct (iter x) as [items|] eqn:Hiter; [|discriminate]. cbn [rbind].
    intros Hqs. unfold or_else. destruct (truthy x) eqn:Ht.
    + exists items. split; assumption.
    + exists []. split; [reflexivity|].
      destruct x as [| | |str|l|o]; try discriminate.
      * destruct str; [|discriminate]. injection Hiter as <-. exact Hqs.
      * destruct l; [|discriminate]. injection Hiter as <-. exact Hqs.
      * destruct o; [|discriminate]. injection Hiter as <-. exact Hqs.
  - cbn [iter rbind rmap]. intros Hqs. exists []. split; [reflexivity|exact Hqs].
Qed.

Lemma parse_data_buckets (j : json) (d : ErrorData.t) :
  parse_data j = Ok d ->
  exists m, j = JObj m /\
    parse_questions (dict_get_or m "simulation" (JArr [])) = Ok (ErrorData.simulation d) /\
    parse_questions (dict_get_or m "real" (JArr [])) = Ok (ErrorData.real d) /\
    parse_questions (dict_get_or m "famous" (JArr [])) = Ok (ErrorData.famous d).
Proof.
  unfold parse_data. destruct j as [| | | | |m]; try discriminate.
  cbn [get rbind]. intros H. exists m. split; [reflexivity|].
  destruct (parse_questions (dict_get_or m "simulation" (JArr []))); [|discriminate].
  cbn [rbind] in H.
  destruct (parse_questions (dict_get_or m "real" (JArr []))); [|discriminate].
  cbn [rbind] in H.
  destruct (parse_questions (dict_get_or m "famous" (JArr []))); [|discriminate].
  cbn [rbind] in H. injection H as <-. auto.
Qed.

(** X12: whenever [load_data] accepts the file, the sets of ids that an
    incremental sync takes as present hold, bucket by bucket, exactly the
    integer ids of the questions [load_data] returns; ids of another type,
    such as texts, are not in the sets.  On a missing or corrupt file the
    three sets are empty.  The call changes nothing in the world. *)
Theorem existing_ids_of_loaded_file :
  forall w : World,
    (forall j d, disk w = Doc j -> parse_data j = Ok d ->
       exists s_sim s_real s_fam,
         _load_existing_ids w =
           (Ok [("simulation", s_sim); ("real", s_real); ("famous", s_fam)], w) /\
         holds_ids_of s_sim (ErrorData.simulation d) /\
         holds_ids_of s_real (ErrorData.real d) /\
         holds_ids_of s_fam (ErrorData.famous d)) /\
    (disk w = Absent \/ disk w = Corrupt ->
       _load_existing_ids w = (Ok no_ids, w)).
Proof.
  intros w. split.
  - intros j d Hdisk Hparse.
    destruct (parse_data_buckets j d Hparse) as (m & -> & Hs & Hr & Hf).
    destruct (bucket_items m _ _ Hs) as (i1 & His & Hps).
    destruct (bucket_items m _ _ Hr) as (i2 & Hir & Hpr).
    destruct (bucket_items m _ _ Hf) as (i3 & Hif & Hpf).
    destruct (add_ids_parsed i1 _ [] Hps) as (s1 & Ha1 & Hm1).
    destruct (add_ids_parsed i2 _ [] Hpr) as (s2 & Ha2 & Hm2).
    destruct (add_ids_parsed i3 _ [] Hpf) as (s3 & Ha3 & Hm3).
    exists s1, s2, s3. split.
    + unfold _load_existing_ids. rewrite Hdisk.
      cbn [map fst no_ids load_ids]. rewrite His.
      change (set_of (ids_get no_ids "simulation")) with (@nil Z). rewrite Ha1.
      cbn [ids_set map fst snd String.eqb Ascii.eqb Bool.eqb no_ids]. rewrite Hir.
      cbn [ids_get find fst snd String.eqb Ascii.eqb Bool.eqb set_of]. rewrite Ha2.
      cbn [ids_set map fst snd String.eqb Ascii.eqb Bool.eqb]. rewrite Hif.
      cbn [ids_get find fst snd String.eqb Ascii.eqb Bool.eqb set_of]. rewrite Ha3.
      reflexivity.
    + unfold holds_ids_of. repeat split; intros H.
      * apply Hm1 in H. destruct H as [H|H]; [discriminate|exact H].
      * apply Hm1. right. exact H.
      * apply Hm2 in H. destruct H as [H|H]; [discriminate|exact H].
      * apply Hm2. right. exact H.
      * apply Hm3 in H. destruct H as [H|H]; [discriminate|exact H].
      * apply Hm3. right. exact H.
  - intros [H|H]; unfold _load_existing_ids; rewrite H; reflexivity.
Qed.

Lemma existing_ids_of_loaded_file_witness :
  exists s_sim s_real s_fam,
    _load_existing_ids mixed_ids_world =
      (Ok [("simulation", s_sim); ("real", s_real); ("famous", s_fam)],
       mixed_ids_world) /\
    holds_ids_of s_sim (ErrorData.simulation mixed_ids_data) /\
    holds_ids_of s_real (ErrorData.real mixed_ids_data) /\
    holds_ids_of s_fam (ErrorData.famous mixed_ids_data).
Proof.
  apply (proj1 (existing_ids_of_loaded_file mixed_ids_world)
           (asdict mixed_ids_data) mixed_ids_data).
  - reflexivity.
  - apply parse_data_asdict.
Defined.

End ExistingIdsFacts.

(** ** Comments *)

Section CommentsFacts.

Import scraper comments_spec.

Lemma has_key_get (cm : pydict) (k : string) :
  existsb (String.eqb k) (dict_keys cm) =
  match dict_get cm k with Some _ => true | None => false end.
Proof.
  induction cm as [|[k' v] cm IH]; simpl; [reflexivity|].
  rewrite (String.eqb_sym k k'). destruct (k' =? k); simpl; [reflexivity|exact IH].
Qed.

(** The comprehension at the end of [get_comments], on a list of dicts. *)
Lemma comment_loop (l : list json) :
  forallb is_dict l = true ->
  (fix contents (l : list json) : result (list json) :=
     match l with
     | [] => Ok []
     | comment :: r =>
         let* has := contains comment "content" in
         if has then
           let* c := getitem comment "content" in
           let* cs := contents r in
           Ok (c :: cs)
         else contents r
     end) l = Ok (comment_contents l).
Proof.
  match goal with
  | |- _ -> ?g l = _ => set (f := g)
  end.
  induction l as [|c l IH]; [reflexivity|]. intros Hdicts.
  simpl in Hdicts. apply andb_prop in Hdicts. destruct Hdicts as [Hc Hl].
  destruct c as [| | | | |cm]; try discriminate.
  specialize (IH Hl). unfold f. cbv beta iota fix. fold f.
  cbn [contains rbind getitem]. rewrite has_key_get.
  change (comment_contents (JObj cm :: l))
    with (match dict_get cm "content" with
          | Some v => [v]
          | None => []
          end ++ comment_contents l)%list.
  destruct (dict_get cm "content") as [v|]; cbn [rbind app].
  - rewrite IH. reflexivity.
  - exact IH.
Qed.

(** X13: [get_comments] sends one request.  When the request fails it
    returns no comment and prints the failure.  When the answer is an
    object whose [data] is a list of dicts, it returns the [content] of
    every comment that has this key, in the order of the list, and skips
    the comments that lack it. *)
Theorem get_comments_contents :
  forall (question_id : json) (w : World),
    let r := comments_request question_id in
    (server w (trace w) r = None ->
     get_comments question_id w = (Ok [], printed (FetchError r) (requested r w))) /\
    (forall m items,
       server w (trace w) r = Some (JObj m) ->
       dict_get m "data" = Some (JArr items) ->
       forallb is_dict items = true ->
       get_comments question_id w = (Ok (comment_contents items), requested r w)).
Proof.
  intros question_id w. cbv zeta.
  unfold get_comments, make_request, mbind.
  change (mkRequest "/note/getAll" _ "v1") with (comments_request question_id).
  split.
  - intros ->. reflexivity.
  - intros m items -> Hdata Hdicts.
    assert (Hm : truthy (JObj m) = true) by (destruct m; [discriminate|reflexivity]).
    unfold lift, data_or_empty. rewrite Hm. unfold get, dict_get_or. rewrite Hdata.
    cbn [rbind].
    assert (Hiter : iter (or_else (JArr items) (JArr [])) = Ok items)
      by (destruct items; reflexivity).
    rewrite Hiter, (comment_loop items Hdicts). reflexivity.
Qed.

Lemma get_comments_contents_witness :
  get_comments (JNum 11) comment_world =
    (Ok [JStr "first"; JStr "third"],
     requested (comments_request (JNum 11)) comment_world) /\
  get_comments (JNum 11) store_spec.missing_world =
    (Ok [], printed (FetchError (comments_request (JNum 11)))
              (requested (comments_request (JNum 11)) store_spec.missing_world)).
Proof.
  pose proof (get_comments_contents (JNum 11) comment_world) as [_ Hsome].
  pose proof (get_comments_contents (JNum 11) store_spec.missing_world) as [Hnone _].
  split.
  - apply (Hsome
             [("data",
               JArr [JObj [("id", JNum 1); ("content", JStr "first")];
                     JObj [("id", JNum 2)];
                     JObj [("content", JStr "third"); ("id", JNum 3)]])]
             [JObj [("id", JNum 1); ("content", JStr "first")];
              JObj [("id", JNum 2)];
              JObj [("content", JStr "third"); ("id", JNum 3)]]);
      reflexivity.
  - apply Hnone. reflexivity.
Defined.

End CommentsFacts.

(** ** Listing and filtering *)

Section ListingFacts.

Import data_manager interactive_cli listing_spec.

Lemma stamped_source (bucket : string) (q : Question.t) :
  bucket <> "" -> untagged_or bucket q ->
  Question.source (stamp bucket q) = JStr bucket.
Proof.
  intros Hb [Hfalse|Hsrc]; unfold stamp, or_else; cbn [Question.source].
  - rewrite Hfalse. reflexivity.
  - rewrite Hsrc. cbn [truthy]. destruct (String.eqb_spec bucket "") as [?|_];
      [contradiction|reflexivity].
Qed.

Lemma filter_stamped (bucket source_filter : string) (qs : list Question.t) :
  bucket <> "" -> Forall (untagged_or bucket) qs ->
  filter_by_source source_filter (map (stamp bucket) qs) =
    if bucket =? source_filter then map (stamp bucket) qs else [].
Proof.
  intros Hb Hqs. unfold filter_by_source.
  induction Hqs as [|q qs Hq _ IH]; cbn [map filter].
  - destruct (bucket =? source_filter); reflexivity.
  - rewrite (stamped_source bucket q Hb Hq). cbn [eq_str]. rewrite IH.
    destruct (bucket =? source_filter); reflexivity.
Qed.

(** X14: when every question either has no source or has the name of its
    own bucket as source (a legacy file, a file written by a sync), the
    list filtered by a source is the bucket of that name, in order, each
    question with the name of the bucket as source. *)
Theorem filter_by_source_is_bucket :
  forall data : ErrorData.t,
    Forall (untagged_or "simulation") (ErrorData.simulation data) ->
    Forall (untagged_or "real") (ErrorData.real data) ->
    Forall (untagged_or "famous") (ErrorData.famous data) ->
    filter_by_source "simulation" (stamped_questions data) =
      map (stamp "simulation") (ErrorData.simulation data) /\
    filter_by_source "real" (stamped_questions data) =
      map (stamp "real") (ErrorData.real data) /\
    filter_by_source "famous" (stamped_questions data) =
      map (stamp "famous") (ErrorData.famous data) /\
    Forall (fun q => truthy (Question.source q) = true) (stamped_questions data).
Proof.
  intros data Hs Hr Hf. unfold stamped_questions.
  assert (Happ : forall s a b, filter_by_source s (a ++ b) =
                               (filter_by_source s a ++ filter_by_source s b)%list)
    by (intros; apply filter_app).
  rewrite !Happ.
  rewrite !(filter_stamped "simulation" _ _ ltac:(discriminate) Hs).
  rewrite !(filter_stamped "real" _ _ ltac:(discriminate) Hr).
  rewrite !(filter_stamped "famous" _ _ ltac:(discriminate) Hf).
  cbn [String.eqb Ascii.eqb Bool.eqb app]. rewrite !app_nil_r.
  repeat split.
  rewrite !Forall_app. repeat split; apply Forall_forall; intros q Hq;
    apply in_map_iff in Hq; destruct Hq as (q0 & <- & Hq0).
  - rewrite Forall_forall in Hs.
    rewrite (stamped_source "simulation" q0 ltac:(discriminate) (Hs q0 Hq0)). reflexivity.
  - rewrite Forall_forall in Hr.
    rewrite (stamped_source "real" q0 ltac:(discriminate) (Hr q0 Hq0)). reflexivity.
  - rewrite Forall_forall in Hf.
    rewrite (stamped_source "famous" q0 ltac:(discriminate) (Hf q0 Hq0)). reflexivity.
Qed.

Lemma filter_by_source_is_bucket_witness :
  filter_by_source "real" (stamped_questions legacy_data) =
    map (stamp "real") (ErrorData.real legacy_data).
Proof.
  refine (proj1 (proj2 (filter_by_source_is_bucket legacy_data _ _ _)));
    repeat constructor.
Defined.

(** X15: the filter by status compares the stored status in lower case
    with the filter.  When the status of every listed question is a text,
    it returns the questions whose status matches, in order; when the
    status of one of them is not a text, it raises [AttributeError]. *)
Theorem filter_by_status_cases :
  forall (status_filter : string) (qs : list Question.t),
    (forallb status_is_text qs = true ->
     filter_by_status status_filter qs = Ok (filter (has_status status_filter) qs)) /\
    (forallb status_is_text qs = false ->
     filter_by_status status_filter qs = Raise AttributeError).
Proof.
  intros status_filter qs. induction qs as [|q qs [IHok IHbad]].
  - split; [reflexivity|discriminate].
  - cbn [forallb filter_by_status filter]. unfold status_is_text at 1 3, has_status at 1.
    destruct (Question.user_status q) as [| | |s| |]; cbn [andb];
      try (split; [discriminate|reflexivity]).
    split.
    + intros H. rewrite (IHok H). cbn [rbind].
      destruct (lower s =? status_filter); reflexivity.
    + intros H. rewrite (IHbad H). reflexivity.
Qed.

Lemma filter_by_status_cases_witness :
  filter_by_status "mastered" (stamped_questions legacy_data) =
    Ok [stamp "simulation" (legacy_question 2 (JStr "Mastered"));
        stamp "famous" (legacy_question 4 (JStr "MASTERED"))] /\
  filter_by_status "new" [legacy_question 1 (JStr "new"); legacy_question 2 JNull] =
    Raise AttributeError.
Proof.
  pose proof (filter_by_status_cases "mastered" (stamped_questions legacy_data)) as [Hok _].
  pose proof (filter_by_status_cases "new"
                [legacy_question 1 (JStr "new"); legacy_question 2 JNull]) as [_ Hbad].
  split; [apply Hok|apply Hbad]; reflexivity.
Defined.

End ListingFacts.

(** ** Outages and damaged files *)

Section OutageFacts.

Import scraper interactive_cli data_manager store_spec outage_spec.

Lemma mbind_ok {A B} (c : M A) (k : A -> M B) (w w' : World) (a : A) :
  c w = (Ok a, w') -> mbind c k w = k a w'.
Proof. intros H. unfold mbind. rewrite H. reflexivity. Qed.

Lemma fetch_simulation_errors_unreachable (cfg : Config) (existing : option int_set) :
  fetches_nothing (fetch_simulation_errors cfg existing).
Proof.
  intros w Hw. unfold fetch_simulation_errors, make_request, mbind.
  rewrite Hw. eexists. split; [reflexivity|]. simpl. auto.
Qed.

Lemma fetch_real_exam_errors_unreachable (cfg : Config) (existing : option int_set) :
  fetches_nothing (fetch_real_exam_errors cfg existing).
Proof.
  intros w Hw. unfold fetch_real_exam_errors, make_request, mbind.
  rewrite Hw. eexists. split; [reflexivity|]. simpl. auto.
Qed.

Lemma fetch_famous_errors_unreachable (cfg : Config) (existing : option int_set) :
  fetches_nothing (fetch_famous_errors cfg existing).
Proof.
  intros w Hw. unfold fetch_famous_errors, make_request, mbind.
  rewrite Hw. eexists. split; [reflexivity|]. simpl. auto.
Qed.

Lemma then_sleep_fetches_nothing (c : M (list json)) :
  fetches_nothing c ->
  fetches_nothing (mbind c (fun errors => mbind sleep (fun _ => ret errors))).
Proof.
  intros Hc w Hw. destruct (Hc w Hw) as (w1 & Hrun & Hu & Hd & Hwr).
  unfold mbind. rewrite Hrun. eexists. split; [reflexivity|]. simpl. auto.
Qed.

Lemma ret_fetches_nothing : fetches_nothing (ret []).
Proof. intros w Hw. exists w. auto. Qed.

(** X16: when no request gets through, [sync_data] still returns [True]:
    it rewrites the data file with three empty buckets, so the questions
    the file held before are gone. *)
Theorem sync_data_unreachable_server :
  forall (cfg : Config) (last_sync : string) (w : World),
    unreachable w ->
    fst (sync_data cfg last_sync w) = Ok true /\
    disk (snd (sync_data cfg last_sync w)) = Doc (empty_dataset_file last_sync) /\
    writes (snd (sync_data cfg last_sync w)) = S (writes w).
Proof.
  intros cfg last_sync w Hw.
  assert (Hex : exists ids, (if INCREMENTAL cfg then _load_existing_ids else ret no_ids) w
                            = (Ok ids, w)).
  { destruct (INCREMENTAL cfg); [|eexists; reflexivity].
    unfold _load_existing_ids. destruct (disk w); eexists; reflexivity. }
  destruct Hex as [ids Hids].
  assert (Hs : fetches_nothing
                 (if selected cfg "simulation"
                  then mbind (fetch_simulation_errors cfg (ids_get ids "simulation"))
                         (fun errors => mbind sleep (fun _ => ret errors))
                  else ret [])).
  { destruct (selected cfg "simulation"); [|apply ret_fetches_nothing].
    apply then_sleep_fetches_nothing, fetch_simulation_errors_unreachable. }
  assert (Hr : fetches_nothing
                 (if selected cfg "real"
                  then mbind (fetch_real_exam_errors cfg (ids_get ids "real"))
                         (fun errors => mbind sleep (fun _ => ret errors))
                  else ret [])).
  { destruct (selected cfg "real"); [|apply ret_fetches_nothing].
    apply then_sleep_fetches_nothing, fetch_real_exam_errors_unreachable. }
  assert (Hf : fetches_nothing
                 (if selected cfg "famous"
                  then fetch_famous_errors cfg (ids_get ids "famous")
                  else ret [])).
  { destruct (selected cfg "famous"); [|apply ret_fetches_nothing].
    apply fetch_famous_errors_unreachable. }
  destruct (Hs w Hw) as (w1 & Hrun1 & Hu1 & Hd1 & Hw1).
  destruct (Hr w1 Hu1) as (w2 & Hrun2 & Hu2 & Hd2 & Hw2).
  destruct (Hf w2 Hu2) as (w3 & Hrun3 & Hu3 & Hd3 & Hw3).
  assert (Hfetch : exists w3', fetch_all_errors cfg last_sync w =
                     (Ok [("meta", JObj [("last_sync", JStr last_sync);
                                         ("version", JStr "1.0")]);
                          ("simulation", JArr []); ("real", JArr []);
                          ("famous", JArr [])], w3') /\
                   writes w3' = writes w).
  { unfold fetch_all_errors. cbv zeta.
    rewrite (mbind_ok _ _ _ _ _ Hids).
    rewrite (mbind_ok _ _ _ _ _ Hrun1).
    rewrite (mbind_ok _ _ _ _ _ Hrun2).
    rewrite (mbind_ok _ _ _ _ _ Hrun3).
    exists w3. split; [reflexivity|congruence]. }
  destruct Hfetch as (w3' & Hfetch & Hwr).
  unfold sync_data, try_except.
  rewrite (mbind_ok _ _ _ _ _ Hfetch).
  unfold mbind, json_dump, ret. simpl. repeat split. congruence.
Qed.

Lemma sync_data_unreachable_server_witness :
  fst (sync_data sync_spec.incremental_config "2024-06-01T00:00:00Z" cut_off_world) =
    Ok true /\
  disk (snd (sync_data sync_spec.incremental_config "2024-06-01T00:00:00Z"
               cut_off_world)) =
    Doc (empty_dataset_file "2024-06-01T00:00:00Z") /\
  writes (snd (sync_data sync_spec.incremental_config "2024-06-01T00:00:00Z"
                 cut_off_world)) = 1.
Proof.
  apply (sync_data_unreachable_server sync_spec.incremental_config
           "2024-06-01T00:00:00Z" cut_off_world).
  intros h r. reflexivity.
Defined.

Lemma asdict_options_well_formed (os : list Option.t) :
  forallb well_formed_option (map asdict_Option os) = true.
Proof. induction os as [|o os IH]; [reflexivity|]. simpl. exact IH. Qed.

Lemma asdict_questions_well_formed (qs : list Question.t) :
  forallb well_formed_question (map asdict_Question qs) = true.
Proof.
  induction qs as [|q qs IH]; [reflexivity|].
  cbn [map forallb]. rewrite IH, andb_true_r.
  unfold asdict_Question, well_formed_question.
  apply andb_true_intro. split; [reflexivity|].
  cbn [dict_get String.eqb Ascii.eqb Bool.eqb]. apply asdict_options_well_formed.
Qed.

(** X17: a dataset that [save_data] has written is read back as it was:
    the file holds a well-formed dataset document, and [load_data] then
    returns exactly the dataset that was saved, without printing
    anything. *)
Theorem load_after_save :
  forall (d : ErrorData.t) (w w' : World),
    save_data d w = (Ok tt, w') ->
    disk w' = Doc (asdict d) /\
    well_formed_dataset (asdict d) = true /\
    load_data w' = (Ok d, w').
Proof.
  intros d w w' [= <-]. split; [reflexivity|].
  split; [|apply load_data_written].
  unfold asdict. cbn [well_formed_dataset].
  cbn [dict_get String.eqb Ascii.eqb Bool.eqb well_formed_bucket].
  rewrite !asdict_questions_well_formed. reflexivity.
Qed.

Lemma load_after_save_witness :
  load_data (written (asdict sample_data) missing_world) =
    (Ok sample_data, written (asdict sample_data) missing_world).
Proof.
  exact (proj2 (proj2 (load_after_save sample_data missing_world
                         (written (asdict sample_data) missing_world) eq_refl))).
Defined.

(** A file with a record that lacks a required key is rejected as a
    whole. *)
Lemma malformed_record_rejects_file (top : pydict) (bucket : string)
    (qs : list json) (q : json) :
  In bucket buckets ->
  dict_get top bucket = Some (JArr qs) ->
  In q qs ->
  missing_required_key q = true ->
  exists e, parse_data (JObj top) = Raise e.
Proof.
  intros Hb Hget Hin Hbad.
  destruct (missing_key_rejected q Hbad) as [e He].
  destruct (rmap_raises parse_question qs q e Hin He) as [e' He'].
  unfold parse_data, get, dict_get_or, parse_questions. cbn [rbind].
  destruct Hb as [<-|[<-|[<-|[]]]]; rewrite Hget; cbn [iter rbind]; rewrite He';
    cbn [rbind].
  - eauto.
  - destruct (let* qs0 := iter _ in rmap parse_question qs0); cbn [rbind]; eauto.
  - destruct (let* qs0 := iter _ in rmap parse_question qs0); cbn [rbind]; eauto.
    destruct (let* qs0 := iter _ in rmap parse_question qs0); cbn [rbind]; eauto.
Qed.

(** X18: on a file in which one record lacks a required key, a status
    update returns [False] for every id, also for the ids of the records
    that are in the file, and writes nothing: the file is as it was, and
    the load error is printed. *)
Theorem update_question_status_on_damaged_file :
  forall (w : World) (top : pydict) (bucket : string) (qs : list json) (q : json)
         (qid : Z) (st ts : string),
    disk w = Doc (JObj top) ->
    In bucket buckets ->
    dict_get top bucket = Some (JArr qs) ->
    In q qs ->
    missing_required_key q = true ->
    exists e,
      update_question_status qid st ts w = (Ok false, printed (LoadError e) w).
Proof.
  intros w top bucket qs q qid st ts Hdisk Hb Hget Hin Hbad.
  destruct (malformed_record_rejects_file top bucket qs q Hb Hget Hin Hbad) as [e He].
  exists e.
  assert (Hload : load_data w = (Ok empty_data, printed (LoadError e) w))
    by (rewrite load_data_cases, Hdisk, He; reflexivity).
  rewrite (update_question_status_run _ _ _ _ _ _ Hload). reflexivity.
Qed.

Lemma update_question_status_on_damaged_file_witness :
  exists e,
    update_question_status 9 "mastered" "2024-05-01T10:00:00" lone_broken_world =
      (Ok false, printed (LoadError e) lone_broken_world).
Proof.
  apply (update_question_status_on_damaged_file lone_broken_world lone_broken_file
           "simulation" [broken_record] broken_record).
  - reflexivity.
  - left. reflexivity.
  - reflexivity.
  - left. reflexivity.
  - reflexivity.
Defined.

End OutageFacts.

(** ** The settings menu *)

Section SettingsFacts.

Import scraper interactive_cli options_spec.

(** X19: the branches of the settings menu for the comments flag and the
    token.  The first never raises, and the options read back after it with
    [get_runtime_options] differ from those before in [include_comments]
    only, which is on exactly when the line, trimmed and in lower case, is
    [y], [yes] or [1].  The second, on a line that is not blank and holds no
    null character, makes the token count as set and the [Authorization]
    header [Bearer] followed by the trimmed line; on a line with a null
    character it raises [ValueError], which nothing in the menu catches; a
    blank line changes nothing. *)
Theorem settings_then_get_runtime_options :
  forall (line : string) (p : Process),
    (exists p',
       settings_include_comments line p = Ok p' /\
       get_runtime_options p' =
         dict_set (get_runtime_options p) "include_comments" (JBool (means_yes line)) /\
       environ_INCLUDE_COMMENTS p' = Some (if means_yes line then "1" else "0")) /\
    (strip line <> "" ->
     has_char zero (strip line) = false ->
     exists p',
       settings_token line p = Ok p' /\
       get_runtime_options p' =
         dict_set (get_runtime_options p) "token_set" (JBool true) /\
       environ_TOKEN p' = Some (strip line) /\
       Authorization p' = "Bearer " ++ strip line) /\
    (has_char zero (strip line) = true ->
     settings_token line p = Raise ValueError) /\
    (strip line = "" -> settings_token line p = Ok p).
Proof.
  intros line p. split; [|split; [|split]].
  - unfold settings_include_comments, set_runtime_options. cbv zeta.
    fold (means_yes line).
    destruct (means_yes line); cbn [include_flag int_of rbind Z.eqb negb];
      eexists; (split; [reflexivity|]); split; reflexivity.
  - intros Hline Hnul. unfold settings_token.
    destruct (String.eqb_spec (strip line) "") as [?|_]; [contradiction|].
    cbn [negb]. unfold set_runtime_options. cbn [rbind].
    unfold set_TOKEN. rewrite Hnul.
    eexists. split; [reflexivity|]. split; [|split; reflexivity].
    unfold get_runtime_options. cbn [config environ_TOKEN].
    destruct (String.eqb_spec (strip line) "") as [?|_]; [contradiction|].
    reflexivity.
  - intros Hnul. unfold settings_token.
    destruct (String.eqb_spec (strip line) "") as [Hempty|_].
    + rewrite Hempty in Hnul. discriminate Hnul.
    + cbn [negb]. unfold set_runtime_options. cbn [rbind].
      unfold set_TOKEN. rewrite Hnul. reflexivity.
  - intros Hline. unfold settings_token. rewrite Hline. reflexivity.
Qed.

Lemma settings_then_get_runtime_options_witness :
  (exists p',
     settings_token "  secret " default_process = Ok p' /\
     get_runtime_options p' =
       dict_set (get_runtime_options default_process) "token_set" (JBool true) /\
     environ_TOKEN p' = Some "secret" /\
     Authorization p' = "Bearer secret") /\
  settings_token (String "a" (String zero "b")) default_process = Raise ValueError /\
  settings_token "   " default_process = Ok default_process.
Proof.
  pose proof (settings_then_get_runtime_options "  secret " default_process)
    as (_ & Hset & _).
  pose proof (settings_then_get_runtime_options (String "a" (String zero "b"))
                default_process) as (_ & _ & Hnul & _).
  pose proof (settings_then_get_runtime_options "   " default_process)
    as (_ & _ & _ & Hblank).
  split; [|split].
  - apply Hset; [discriminate|reflexivity].
  - apply Hnul. reflexivity.
  - apply Hblank. reflexivity.
Defined.

End SettingsFacts.
